(** * Interview evaluation core: emotion log, transcript, scoring, lifecycle

    A shallow embedding of the scoring and parsing core of the interview
    back end ([evaluation_service.py], [emotion_service.py],
    [mock_agent_service.py]) and the properties its design document states.

    Modelling conventions.
    - A Python [float] is a real number ([R]): arithmetic is exact and
      [round(x, n)] is decimal rounding, ties to even.  Binary rounding of
      the individual operations is not modelled.
    - A Python [int] is [Z].
    - A Python [str] is a [string] of ASCII characters; the character
      classes ([str.isspace], [\s], [\d], [\w]) and [str.lower] are the
      ASCII ones.
    - A [dict] is a [gmap], a [set] a [gset]; where the code iterates a
      dict in a chosen order the order is computed explicitly.
    - A function that can raise returns a [result]; a local variable that
      may be unbound is an [option] whose reading raises. *)

From Stdlib Require Import Reals Lra Lia ZArith List Ascii String Zfloor.
From Stdlib Require Import DecimalString DecimalZ DecimalN.
From stdpp Require Import gmap strings sorting.
From Equations Require Import Equations.
Import ListNotations.

Local Open Scope string_scope.
Local Open Scope list_scope.

(* ================================================================= *)
(** * Part I: the program *)
(* ================================================================= *)

(* ----------------------------------------------------------------- *)
(** ** Python built-ins used by the services *)
(* ----------------------------------------------------------------- *)

Module Py.

(** [round(x, ndigits)] on a float: the nearest multiple of
    [10^-ndigits], a tie going to the even multiple. *)
Definition round_half_even (y : R) : Z :=
  let f := Zfloor y in
  let d := (y - IZR f)%R in
  if Rlt_dec d (1 / 2) then f
  else if Rlt_dec (1 / 2) d then (f + 1)%Z
  else if Z.even f then f else (f + 1)%Z.

Definition round (x : R) (ndigits : nat) : R :=
  (IZR (round_half_even (x * 10 ^ ndigits)) / 10 ^ ndigits)%R.

(** [str.isspace] on an ASCII character: TAB, LF, VT, FF, CR, the four
    separators FS, GS, RS, US, and the blank. *)
Definition isspace (c : ascii) : bool :=
  let n := nat_of_ascii c in
  (((9 <=? n) && (n <=? 13)) || ((28 <=? n) && (n <=? 32)))%nat.

Definition isdigit (c : ascii) : bool :=
  let n := nat_of_ascii c in ((48 <=? n) && (n <=? 57))%nat.

Definition isupper (c : ascii) : bool :=
  let n := nat_of_ascii c in ((65 <=? n) && (n <=? 90))%nat.

Definition islower (c : ascii) : bool :=
  let n := nat_of_ascii c in ((97 <=? n) && (n <=? 122))%nat.

(** The class [\w]: letters, digits and the underscore. *)
Definition isword (c : ascii) : bool :=
  isdigit c || isupper c || islower c || (nat_of_ascii c =? 95)%nat.

Definition lower_char (c : ascii) : ascii :=
  if isupper c then ascii_of_nat (nat_of_ascii c + 32) else c.

(** [s.lower()] *)
Fixpoint lower (s : string) : string :=
  match s with
  | EmptyString => EmptyString
  | String c s' => String (lower_char c) (lower s')
  end.

(** [s.lstrip()], [s.rstrip()], [s.strip()] *)
Fixpoint lstrip (s : string) : string :=
  match s with
  | EmptyString => EmptyString
  | String c s' => if isspace c then lstrip s' else s
  end.

Fixpoint rstrip (s : string) : string :=
  match s with
  | EmptyString => EmptyString
  | String c s' =>
      match rstrip s' with
      | EmptyString => if isspace c then EmptyString else String c EmptyString
      | r => String c r
      end
  end.

Definition strip (s : string) : string := rstrip (lstrip s).

(** Truth value of a string: [bool(s)]. *)
Definition truthy (s : string) : bool :=
  match s with EmptyString => false | _ => true end.

(** [s.startswith(p)] *)
Fixpoint startswith (p s : string) : bool :=
  match p, s with
  | EmptyString, _ => true
  | String a p', String b s' => if Ascii.eqb a b then startswith p' s' else false
  | String _ _, EmptyString => false
  end.

(** [p in s] *)
Fixpoint contains (p s : string) : bool :=
  startswith p s ||
  match s with
  | EmptyString => false
  | String _ s' => contains p s'
  end.

(** [s.endswith(p)], through the lengths as CPython compares the tail. *)
Definition endswith (p s : string) : bool :=
  (String.length p <=? String.length s)%nat &&
  String.eqb (String.substring (String.length s - String.length p) (String.length p) s) p.

(** [s.replace(a, b)] for single characters [a], [b]. *)
Fixpoint replace_char (a b : ascii) (s : string) : string :=
  match s with
  | EmptyString => EmptyString
  | String c s' => String (if Ascii.eqb c a then b else c) (replace_char a b s')
  end.

(** [sep.join(items)] *)
Fixpoint join (sep : string) (items : list string) : string :=
  match items with
  | [] => EmptyString
  | [x] => x
  | x :: rest => x +:+ sep +:+ join sep rest
  end.

(** The ASCII line boundaries of [str.splitlines]: LF, VT, FF, CR, FS,
    GS, RS; CR LF counts as one boundary. *)
Definition islinebreak (c : ascii) : bool :=
  let n := nat_of_ascii c in
  (((10 <=? n) && (n <=? 13)) || ((28 <=? n) && (n <=? 30)))%nat.

(** [s.splitlines()].  A final line is produced only when it is not
    empty ("a\n" gives one line, "\n" gives one empty line). *)
Fixpoint splitlines (s : string) : list string :=
  match s with
  | EmptyString => []
  | String c s' =>
      if islinebreak c then
        EmptyString ::
          match s' with
          | String c' s'' =>
              if Ascii.eqb c "013" && Ascii.eqb c' "010"
              then splitlines s''
              else splitlines s'
          | EmptyString => []
          end
      else
        match splitlines s' with
        | [] => [String c EmptyString]
        | l :: ls => String c l :: ls
        end
  end.

(** [re.split(r"\s+", s)]: the pieces between maximal runs of white
    space, with an empty piece before a leading and after a trailing run.
    [in_ws] tells that the previous character was white space. *)
Fixpoint re_split_ws_go (in_ws : bool) (s : string) : list string :=
  match s with
  | EmptyString => [EmptyString]
  | String c s' =>
      if isspace c then
        if in_ws then re_split_ws_go true s'
        else EmptyString :: re_split_ws_go true s'
      else
        match re_split_ws_go false s' with
        | l :: ls => String c l :: ls
        | [] => [String c EmptyString]
        end
  end.

Definition re_split_ws (s : string) : list string := re_split_ws_go false s.

(** [s.split(sep)] for a non-empty [sep]: occurrences are found from the
    left and do not overlap; [skip] counts the characters of the current
    occurrence still to pass. *)
Fixpoint split_go (sep : string) (skip : nat) (s : string) : list string :=
  match s with
  | EmptyString => [EmptyString]
  | String c s' =>
      match skip with
      | S k => split_go sep k s'
      | O =>
          if startswith sep s then EmptyString :: split_go sep (String.length sep - 1) s'
          else
            match split_go sep 0 s' with
            | l :: ls => String c l :: ls
            | [] => [String c EmptyString]
            end
      end
  end.

Definition split (sep s : string) : list string := split_go sep 0 s.

(** The value of a decimal digit character. *)
Definition digit_val (c : ascii) : Z := Z.of_nat (nat_of_ascii c) - 48.

(** [int(s)] for a string of decimal digits (what [\d+] captured). *)
Definition int_of_digits (s : string) : Z :=
  match NilEmpty.uint_of_string s with
  | Some d => Z.of_N (N.of_uint d)
  | None => 0
  end.

(** [str(n)] for [n >= 0], and the zero-padded ["%0kd"] formats. *)
Definition digit_char (d : Z) : ascii := ascii_of_nat (Z.to_nat d + 48).

Fixpoint pad_digits (k : nat) (n : Z) (acc : string) : string :=
  match k with
  | O => acc
  | S k' => pad_digits k' (n / 10) (String (digit_char (n mod 10)) acc)
  end.

Definition str_of_int (n : Z) : string :=
  NilEmpty.string_of_uint (N.to_uint (Z.to_N n)).

(** [str.isalnum] on an ASCII character *)
Definition isalnum (c : ascii) : bool := isdigit c || isupper c || islower c.

(** ["".join(ch for ch in s if keep(ch))] *)
Fixpoint filter_chars (keep : ascii -> bool) (s : string) : string :=
  match s with
  | EmptyString => EmptyString
  | String c s' =>
      if keep c then String c (filter_chars keep s') else filter_chars keep s'
  end.

(** [s.rstrip(a)] for a single character [a]: every trailing [a] goes. *)
Fixpoint rstrip_char (a : ascii) (s : string) : string :=
  match s with
  | EmptyString => EmptyString
  | String c s' =>
      match rstrip_char a s' with
      | EmptyString => if Ascii.eqb c a then EmptyString else String c EmptyString
      | r => String c r
      end
  end.

(** A stable sort, as [list.sort] and [sorted] are: [leb x y] tells
    that [x] may stand before [y]. *)
Section sort.
Context {A : Type} (leb : A -> A -> bool).

Fixpoint insert_sorted (x : A) (l : list A) : list A :=
  match l with
  | [] => [x]
  | y :: l' => if leb y x then y :: insert_sorted x l' else x :: l
  end.

Definition sort (l : list A) : list A :=
  foldl (fun acc x => insert_sorted x acc) [] l.
End sort.

(** Exceptions, and computations that may raise one. *)
Inductive exn :=
| FileNotFoundError (msg : string)
| UnboundLocalError (name : string)
| TypeError (msg : string)
| Exception (name msg : string).

Inductive result (A : Type) :=
| Ok (a : A)
| Raise (e : exn).
Arguments Ok {A} a.
Arguments Raise {A} e.

Definition bind {A B} (c : result A) (k : A -> result B) : result B :=
  match c with
  | Ok a => k a
  | Raise e => Raise e
  end.

#[global] Instance result_bind : MBind result := fun A B k c => bind c k.
#[global] Instance result_ret : MRet result := fun A a => Ok a.

(** [type(e).__name__] and [str(e)] *)
Definition exn_name (e : exn) : string :=
  match e with
  | FileNotFoundError _ => "FileNotFoundError"
  | UnboundLocalError _ => "UnboundLocalError"
  | TypeError _ => "TypeError"
  | Exception n _ => n
  end.

Definition exn_str (e : exn) : string :=
  match e with
  | FileNotFoundError m => m
  | UnboundLocalError n =>
      "local variable '" +:+ n +:+ "' referenced before assignment"
  | TypeError m => m
  | Exception _ m => m
  end.

End Py.

(* ----------------------------------------------------------------- *)
(** ** [datetime]: the part of the library the services call *)
(* ----------------------------------------------------------------- *)

Module datetime.

(** A naive date and time, as [datetime.utcnow()] returns it. *)
Record t := mk {
  year : Z; month : Z; day : Z;
  hour : Z; minute : Z; second : Z; microsecond : Z
}.

Definition is_leap (y : Z) : bool :=
  ((y mod 4 =? 0) && (negb (y mod 100 =? 0) || (y mod 400 =? 0)))%Z.

Definition days_in_month (y m : Z) : Z :=
  if (m =? 2)%Z then (if is_leap y then 29 else 28)
  else if ((m =? 4) || (m =? 6) || (m =? 9) || (m =? 11))%Z then 30
  else 31.

Definition days_before_year (y : Z) : Z :=
  let p := (y - 1)%Z in (p * 365 + p / 4 - p / 100 + p / 400)%Z.

(** The days of the year before month [m]: the table of the common
    year, and the leap day once February has passed. *)
Definition days_before_month (y m : Z) : Z :=
  (match m with
   | 1 => 0 | 2 => 31 | 3 => 59 | 4 => 90 | 5 => 120 | 6 => 151
   | 7 => 181 | 8 => 212 | 9 => 243 | 10 => 273 | 11 => 304 | 12 => 334
   | _ => 0
   end
   + (if (2 <? m) && is_leap y then 1 else 0))%Z.

(** The constructor's range check (it raises [ValueError] otherwise). *)
Definition valid (d : t) : bool :=
  ((1 <=? year d) && (year d <=? 9999) &&
   (1 <=? month d) && (month d <=? 12) &&
   (1 <=? day d) && (day d <=? days_in_month (year d) (month d)) &&
   (0 <=? hour d) && (hour d <=? 23) &&
   (0 <=? minute d) && (minute d <=? 59) &&
   (0 <=? second d) && (second d <=? 59) &&
   (0 <=? microsecond d) && (microsecond d <=? 999999))%Z.

(** Microseconds since 0001-01-01T00:00:00 on the wall clock of [d]. *)
Definition to_micro (d : t) : Z :=
  let days := (days_before_year (year d) + days_before_month (year d) (month d)
               + (day d - 1))%Z in
  ((((days * 24 + hour d) * 60 + minute d) * 60 + second d) * 1000000
   + microsecond d)%Z.

Definition max_micro : Z :=
  to_micro (mk 9999 12 31 23 59 59 999999).

(** [d.isoformat()] *)
Definition isoformat (d : t) : string :=
  Py.pad_digits 4 (year d) "" +:+ "-" +:+ Py.pad_digits 2 (month d) "" +:+ "-"
  +:+ Py.pad_digits 2 (day d) "" +:+ "T" +:+ Py.pad_digits 2 (hour d) "" +:+ ":"
  +:+ Py.pad_digits 2 (minute d) "" +:+ ":" +:+ Py.pad_digits 2 (second d) ""
  +:+ (if (microsecond d =? 0)%Z then ""
       else "." +:+ Py.pad_digits 6 (microsecond d) "").

(** *** [datetime.fromisoformat]

    The input format documented up to Python 3.10,
    [YYYY-MM-DD[*HH[:MM[:SS[.fff[fff]]]][+HH:MM[:SS[.ffffff]]]]],
    where [*] is any one character (later versions read more of
    ISO 8601; what [isoformat] writes is read the same by all).  The result is the wall-clock value
    and, for an aware value, the UTC offset in microseconds. *)

(** Exactly [n] decimal digits. *)
Fixpoint take_digits (n : nat) (acc : Z) (s : string) : option (Z * string) :=
  match n with
  | O => Some (acc, s)
  | S n' =>
      match s with
      | String c s' =>
          if Py.isdigit c then take_digits n' (acc * 10 + Py.digit_val c)%Z s'
          else None
      | EmptyString => None
      end
  end.

Definition take_char (c : ascii) (s : string) : option string :=
  match s with
  | String c' s' => if Ascii.eqb c c' then Some s' else None
  | EmptyString => None
  end.

(** [.fff] or [.ffffff] up to the end of [s]; the empty string is no
    fraction. *)
Definition parse_fraction (s : string) : option Z :=
  match s with
  | EmptyString => Some 0%Z
  | String c s' =>
      if Ascii.eqb c "." then
        if (String.length s' =? 3)%nat then
          match take_digits 3 0 s' with
          | Some (v, _) => Some (v * 1000)%Z
          | None => None
          end
        else if (String.length s' =? 6)%nat then
          match take_digits 6 0 s' with
          | Some (v, _) => Some v
          | None => None
          end
        else None
      else None
  end.

(** [HH[:MM[:SS[.fff[fff]]]]] up to the end of [s]. *)
Definition parse_hh_mm_ss_ff (s : string) : option (Z * Z * Z * Z) :=
  match take_digits 2 0 s with
  | None => None
  | Some (h, EmptyString) => Some (h, 0, 0, 0)%Z
  | Some (h, r1) =>
      match take_char ":" r1 with
      | None => None
      | Some r1' =>
          match take_digits 2 0 r1' with
          | None => None
          | Some (m, EmptyString) => Some (h, m, 0, 0)%Z
          | Some (m, r2) =>
              match take_char ":" r2 with
              | None => None
              | Some r2' =>
                  match take_digits 2 0 r2' with
                  | None => None
                  | Some (sec, r3) =>
                      match parse_fraction r3 with
                      | Some us => Some (h, m, sec, us)
                      | None => None
                      end
                  end
              end
          end
      end
  end.

(** Splits a time string at its first sign character. *)
Fixpoint split_tz (s : string) : string * option (bool * string) :=
  match s with
  | EmptyString => (EmptyString, None)
  | String c s' =>
      if Ascii.eqb c "+" then (EmptyString, Some (true, s'))
      else if Ascii.eqb c "-" then (EmptyString, Some (false, s'))
      else let '(a, b) := split_tz s' in (String c a, b)
  end.

(** The offset [HH:MM], [HH:MM:SS] or [HH:MM:SS.ffffff], strictly less
    than one day. *)
Definition parse_offset (positive : bool) (s : string) : option Z :=
  let n := String.length s in
  if ((n =? 5) || (n =? 8) || (n =? 15))%nat then
    match parse_hh_mm_ss_ff s with
    | Some (h, m, sec, us) =>
        let off := (((h * 60 + m) * 60 + sec) * 1000000 + us)%Z in
        if (off <? 86400000000)%Z then Some (if positive then off else (- off)%Z)
        else None
    | None => None
    end
  else None.

Definition fromisoformat (s : string) : option (t * option Z) :=
  match take_digits 4 0 s with
  | None => None
  | Some (y, r) =>
  match take_char "-" r with
  | None => None
  | Some r =>
  match take_digits 2 0 r with
  | None => None
  | Some (mo, r) =>
  match take_char "-" r with
  | None => None
  | Some r =>
  match take_digits 2 0 r with
  | None => None
  | Some (d, EmptyString) =>
      let v := mk y mo d 0 0 0 0 in
      if valid v then Some (v, None) else None
  | Some (d, String _ tstr) =>
      let '(timestr, tz) := split_tz tstr in
      match parse_hh_mm_ss_ff timestr with
      | None => None
      | Some (h, mi, sec, us) =>
          let v := mk y mo d h mi sec us in
          if valid v then
            match tz with
            | None => Some (v, None)
            | Some (positive, tzstr) =>
                match parse_offset positive tzstr with
                | Some off => Some (v, Some off)
                | None => None
                end
            end
          else None
      end
  end end end end end.

(** [d.astimezone(timezone.utc)], as the instant in microseconds since
    0001-01-01T00:00:00 UTC.  An aware value is shifted by its offset; a
    naive one is taken as local time, whose offset [localtime] gives
    (or fails to give).  A result outside the representable years
    raises [OverflowError]. *)
Definition astimezone_utc (localtime : Z -> option Z) (v : t * option Z) : option Z :=
  let wall := to_micro (fst v) in
  let off :=
    match snd v with
    | Some off => Some off
    | None => localtime wall
    end in
  match off with
  | Some off =>
      let u := (wall - off)%Z in
      if ((0 <=? u) && (u <=? max_micro))%Z then Some u else None
  | None => None
  end.


End datetime.

(* ----------------------------------------------------------------- *)
(** ** [evaluation_service.py] *)
(* ----------------------------------------------------------------- *)

Module evaluation_service.

(** *** Data models *)

(** [ts] is an aware UTC [datetime]: its instant, in microseconds since
    0001-01-01T00:00:00 UTC. *)
Record EmotionEvent := { ts : Z; emotion : string }.

Record QATurn := { q_index : Z; question : string; answer : string }.

(** *** Emotion parsing *)

Section parsing.
(** The UTC offset of the machine's local time zone at a wall-clock
    instant, used by [astimezone] on a naive [datetime]. *)
Variable localtime : Z -> option Z.

Definition _parse_iso_z (ts : string) : option Z :=
  let ts := Py.strip ts in
  if negb (Py.truthy ts) then None
  else
    let ts :=
      if Py.endswith "Z" ts
      then String.substring 0 (String.length ts - 1) ts +:+ "+00:00"
      else ts in
    match datetime.fromisoformat ts with
    | Some v => datetime.astimezone_utc localtime v
    | None => None
    end.

(** [_EMO_RE]:
    [^(?P<ts>\d{4}-\d{2}-\d{2}T[^ \t]+)\s+emotion=(?P<emo>\w+)\s*$],
    matched at the start of a line that contains no line break.  Each
    function matches the rest of the pattern from its position and
    returns the captured groups. *)

(** [\s*$] *)
Fixpoint all_space (s : string) : bool :=
  match s with
  | EmptyString => true
  | String c s' => Py.isspace c && all_space s'
  end.

(** The longest prefix of [\w] characters and what follows it. *)
Fixpoint span_word (s : string) : string * string :=
  match s with
  | EmptyString => (EmptyString, EmptyString)
  | String c s' =>
      if Py.isword c then let '(w, r) := span_word s' in (String c w, r)
      else (EmptyString, s)
  end.

Fixpoint drop (n : nat) (s : string) : string :=
  match n, s with
  | S n', String _ s' => drop n' s'
  | _, _ => s
  end.

(** [emotion=(?P<emo>\w+)\s*$]: the greedy [\w+] takes the whole run
    of word characters; a shorter one would leave a word character
    where only white space may follow. *)
Definition match_emo (s : string) : option string :=
  if Py.startswith "emotion=" s then
    let '(w, r) := span_word (drop 8 s) in
    if Py.truthy w && all_space r then Some w else None
  else None.

(** [\s+emotion=(?P<emo>\w+)\s*$]: at least one white-space character,
    then the whole run of them. *)
Definition match_ws_emo (s : string) : option string :=
  match s with
  | String c s' => if Py.isspace c then match_emo (Py.lstrip s') else None
  | EmptyString => None
  end.

Definition not_blank_tab (c : ascii) : bool :=
  negb (Ascii.eqb c " ") && negb (Ascii.eqb c "009").

(** [[^ \t]+\s+emotion=(?P<emo>\w+)\s*$]: the greedy [[^ \t]+] is
    tried longest first and gives characters back until the rest of
    the pattern matches. *)
Fixpoint match_ts_rest (s : string) : option (string * string) :=
  match s with
  | EmptyString => None
  | String c s' =>
      if not_blank_tab c then
        match match_ts_rest s' with
        | Some (t, e) => Some (String c t, e)
        | None =>
            match match_ws_emo s' with
            | Some e => Some (String c EmptyString, e)
            | None => None
            end
        end
      else None
  end.

(** Exactly [n] characters of the class [p]. *)
Fixpoint take_class (p : ascii -> bool) (n : nat) (s : string) : option (string * string) :=
  match n with
  | O => Some (EmptyString, s)
  | S n' =>
      match s with
      | String c s' =>
          if p c then
            match take_class p n' s' with
            | Some (a, r) => Some (String c a, r)
            | None => None
            end
          else None
      | EmptyString => None
      end
  end.

(** The groups [(ts, emo)] of [_EMO_RE.match(ln)]. *)
Definition _EMO_RE_match (ln : string) : option (string * string) :=
  match take_class Py.isdigit 4 ln with
  | None => None
  | Some (y, r) =>
  match datetime.take_char "-" r with
  | None => None
  | Some r =>
  match take_class Py.isdigit 2 r with
  | None => None
  | Some (mo, r) =>
  match datetime.take_char "-" r with
  | None => None
  | Some r =>
  match take_class Py.isdigit 2 r with
  | None => None
  | Some (d, r) =>
  match datetime.take_char "T" r with
  | None => None
  | Some r =>
  match match_ts_rest r with
  | None => None
  | Some (t, emo) =>
      Some (y +:+ "-" +:+ mo +:+ "-" +:+ d +:+ "T" +:+ t, emo)
  end end end end end end end.

(** The body of the loop of [parse_emotions] for one line [raw]: the
    event it appends, if any. *)
Definition parse_line (raw : string) : option EmotionEvent :=
  let ln := Py.replace_char "009" " " (Py.strip raw) in
  if negb (Py.truthy ln) then None
  else
    match _EMO_RE_match ln with
    | None =>
        (* tolerant parse: "<ts> ... emotion=xxx" *)
        let parts := Py.re_split_ws ln in
        if (2 <=? length parts)%nat && Py.contains "emotion=" (List.last parts "") then
          let ts := _parse_iso_z (List.hd "" parts) in
          let emo := Py.lower (Py.strip (List.last (Py.split "emotion=" (List.last parts "")) "")) in
          match ts with
          | Some t => if Py.truthy emo then Some {| ts := t; emotion := emo |} else None
          | None => None
          end
        else None
    | Some (g_ts, g_emo) =>
        let ts := _parse_iso_z g_ts in
        let emo := Py.lower g_emo in
        match ts with
        | Some t => if Py.truthy emo then Some {| ts := t; emotion := emo |} else None
        | None => None
        end
    end.

Definition parse_emotions (text : string) : list EmotionEvent :=
  let events := omap parse_line (Py.splitlines text) in
  Py.sort (fun a b => (ts a <=? ts b)%Z) events.

End parsing.

(** [emotion_distribution]: the ratio of each label, most frequent
    first, ties in the order of the labels.  The labels are counted as
    they are. *)
Definition count_into (counts : gmap string Z) (k : string) : gmap string Z :=
  <[k := (default 0 (counts !! k) + 1)%Z]> counts.

Definition emotion_distribution (events : list EmotionEvent) : list (string * R) :=
  match events with
  | [] => []
  | _ =>
      let counts := foldl (fun counts e => count_into counts (emotion e)) ∅ events in
      let total := Z.of_nat (length events) in
      let items :=
        Py.sort (fun a b : string * Z =>
                   (snd b <? snd a)%Z || ((snd a =? snd b)%Z && String.leb (fst a) (fst b)))
                (map_to_list counts) in
      map (fun kv => (fst kv, (IZR (snd kv) / IZR total)%R)) items
  end.

(** *** Emotion scoring *)

Definition _clamp_0_10 (x : R) : R := Rmax 0 (Rmin 10 x).

Record EmotionComponents := {
  angry_penalty : R; disgust_penalty : R; fear_penalty : R; sad_penalty : R;
  happy_bonus : R; neutral_bonus : R; surprise_bonus : R
}.

Inductive EmotionDetail :=
| EmotionNote (note : string)
| EmotionBreakdown (score : R) (counts : gmap string Z) (ratios : gmap string R)
    (pos_ratio neg_ratio : R) (components : EmotionComponents).

(** [sum(counts.values())] *)
Definition sum_values (counts : gmap string Z) : Z :=
  map_fold (fun _ v acc => (v + acc)%Z) 0%Z counts.

(** [ratios.get(k, 0.0)] *)
Definition get_ratio (ratios : gmap string R) (k : string) : R :=
  default 0%R (ratios !! k).

Section scoring.
Local Open Scope R_scope.

Definition score_emotion_face_base10 (events : list EmotionEvent) : R * EmotionDetail :=
  match events with
  | [] => (7, EmotionNote "No emotion events; default emotion_face_score=7.0")
  | _ =>
      let counts :=
        foldl (fun counts e => count_into counts (Py.strip (Py.lower (emotion e))))
              ∅ events in
      let total := sum_values counts in
      let ratios : gmap string R := (fun v => IZR v / IZR total) <$> counts in
      let angry_r := get_ratio ratios "angry" in
      let disgust_r := get_ratio ratios "disgust" in
      let fear_r := get_ratio ratios "fear" in
      let sad_r := get_ratio ratios "sad" in
      let happy_r := get_ratio ratios "happy" in
      let neutral_r := get_ratio ratios "neutral" in
      let surprise_r := get_ratio ratios "surprise" in
      let score := 10 in
      let angry_pen := 1.2 * angry_r * 10 in
      let disgust_pen := 1.0 * disgust_r * 10 in
      let fear_pen := 0.6 * fear_r * 10 in
      let sad_pen := 0.4 * sad_r * 10 in
      let score := score - (angry_pen + disgust_pen + fear_pen + sad_pen) in
      let happy_bonus := 0.15 * happy_r * 10 in
      let neutral_bonus := 0.10 * neutral_r * 10 in
      let surprise_bonus := 0.08 * surprise_r * 10 in
      let score := score + (happy_bonus + neutral_bonus + surprise_bonus) in
      let score := Rmax 0 (Rmin 10 score) in
      let score := Py.round score 2 in
      let pos_ratio := happy_r + neutral_r + surprise_r in
      let neg_ratio := angry_r + disgust_r + fear_r + sad_r in
      (score,
       EmotionBreakdown score counts ((fun v => Py.round v 3) <$> ratios)
         (Py.round pos_ratio 3) (Py.round neg_ratio 3)
         {| angry_penalty := Py.round angry_pen 3;
            disgust_penalty := Py.round disgust_pen 3;
            fear_penalty := Py.round fear_pen 3;
            sad_penalty := Py.round sad_pen 3;
            happy_bonus := Py.round happy_bonus 3;
            neutral_bonus := Py.round neutral_bonus 3;
            surprise_bonus := Py.round surprise_bonus 3 |})
  end.

(** *** Data sufficiency *)

Definition MIN_REQUIRED : Z := 10.
Definition P : R := 1.8.
Definition BONUS_MAX : R := 0.8.
Definition K : Z := 10.

Definition BAD_SHORT : list string :=
  ["no"; "idk"; "i don't know"; "n/a"; "."; "nah"; "(no answer provided)"].

Definition is_valid_answer (ans : string) : bool :=
  if negb (Py.truthy ans) then false
  else
    let t := Py.lower (Py.strip ans) in
    if negb (Py.truthy t) || bool_decide (t ∈ BAD_SHORT) then false
    else if (String.length t <? 20)%nat then false
    else true.

(** [x ** y] on floats, for [0 <= x] and [0 < y]. *)
Definition float_pow (x y : R) : R :=
  if Req_dec_T x 0 then 0 else Rpower x y.

(** The local variables of [apply_data_sufficiency], by name. *)
Definition ratio (n_valid : Z) : R :=
  Rmin 1 (IZR n_valid / IZR MIN_REQUIRED).

Definition coverage (n_valid : Z) : R := float_pow (ratio n_valid) P.

Definition bonus (n_valid : Z) : R :=
  if (MIN_REQUIRED <? n_valid)%Z
  then BONUS_MAX * (1 - exp (- IZR (n_valid - MIN_REQUIRED) / IZR K))
  else 0.

(** [(w_k + w_a) or 1.0] *)
Definition total_w (w_k w_a : R) : R :=
  if Req_dec_T (w_k + w_a) 0 then 1 else w_k + w_a.

Definition ks_adj (ks w_k w_a : R) (n_valid : Z) : R :=
  let ks_adj := Rmax 0 (Rmin 10 (ks * coverage n_valid)) in
  if (MIN_REQUIRED <? n_valid)%Z
  then Rmin 10 (ks_adj + bonus n_valid * (w_k / total_w w_k w_a))
  else ks_adj.

Definition ats_adj (ats w_k w_a : R) (n_valid : Z) : R :=
  let ats_adj := Rmax 0 (Rmin 10 (ats * coverage n_valid)) in
  if (MIN_REQUIRED <? n_valid)%Z
  then Rmin 10 (ats_adj + bonus n_valid * (w_a / total_w w_k w_a))
  else ats_adj.

Definition agent_final_adj (ks ats w_k w_a : R) (n_valid : Z) : R :=
  Rmax 0 (Rmin 10 (ks_adj ks w_k w_a n_valid * w_k + ats_adj ats w_k w_a n_valid * w_a)).

Record SufficiencyDetail := {
  min_required : Z;
  n_valid_answers : Z;
  coverage_factor : R;
  detail_bonus : R;
  params : R * R * Z;
  raw : R * R;
  adjusted : R * R * R
}.

(** With a negative [n_valid] the power is a complex number and the
    comparison inside [min] raises. *)
Definition apply_data_sufficiency (ks ats w_k w_a : R) (n_valid : Z)
  : Py.result (R * R * R * SufficiencyDetail) :=
  if (n_valid <? 0)%Z
  then Py.Raise (Py.TypeError "'<' not supported between instances of 'complex' and 'float'")
  else
    let k := Py.round (ks_adj ks w_k w_a n_valid) 2 in
    let a := Py.round (ats_adj ats w_k w_a n_valid) 2 in
    let f := Py.round (agent_final_adj ks ats w_k w_a n_valid) 2 in
    Py.Ok (k, a, f,
           {| min_required := MIN_REQUIRED;
              n_valid_answers := n_valid;
              coverage_factor := Py.round (coverage n_valid) 4;
              detail_bonus := Py.round (bonus n_valid) 4;
              params := (P, BONUS_MAX, K);
              raw := (ks, ats);
              adjusted := (k, a, f) |}).
End scoring.

(** *** Transcript parsing *)

(** The longest prefix of digits and what follows it. *)
Fixpoint span_digits (s : string) : string * string :=
  match s with
  | EmptyString => (EmptyString, EmptyString)
  | String c s' =>
      if Py.isdigit c then let '(d, r) := span_digits s' in (String c d, r)
      else (EmptyString, s)
  end.

(** The longest prefix without a closing parenthesis. *)
Fixpoint span_not_rparen (s : string) : string * string :=
  match s with
  | EmptyString => (EmptyString, EmptyString)
  | String c s' =>
      if Ascii.eqb c ")" then (EmptyString, s)
      else let '(g, r) := span_not_rparen s' in (String c g, r)
  end.

(** [\s+\(([^)]+)\)\s*$] *)
Definition match_stamp (s : string) : bool :=
  match s with
  | String c s' =>
      if Py.isspace c then
        match Py.lstrip s' with
        | String c' r =>
            if Ascii.eqb c' "(" then
              let '(g, r') := span_not_rparen r in
              Py.truthy g &&
              match r' with
              | String _ r'' => all_space r''
              | EmptyString => false
              end
            else false
        | EmptyString => false
        end
      else false
  | EmptyString => false
  end.

(** [^\[<tag>(\d+)\]\s+\(([^)]+)\)\s*$], giving [int] of group 1: the
    shape of [_Q_HEADER_RE] (tag [Q]) and [_A_HEADER_RE] (tag [A]). *)
Definition header_match (tag : string) (s : string) : option Z :=
  let open := "[" +:+ tag in
  if Py.startswith open s then
    let '(d, r) := span_digits (drop (String.length open) s) in
    if Py.truthy d then
      match r with
      | String c r' =>
          if Ascii.eqb c "]" && match_stamp r' then Some (Py.int_of_digits d) else None
      | EmptyString => None
      end
    else None
  else None.

Definition _Q_HEADER_RE_match (s : string) : option Z := header_match "Q" s.
Definition _A_HEADER_RE_match (s : string) : option Z := header_match "A" s.

(** [_SUMMARY_RE]: [^\[Summary Q(\d+)\]\s*$] *)
Definition _SUMMARY_RE_match (s : string) : bool :=
  if Py.startswith "[Summary Q" s then
    let '(d, r) := span_digits (drop 10 s) in
    Py.truthy d &&
    match r with
    | String c r' => Ascii.eqb c "]" && all_space r'
    | EmptyString => false
    end
  else false.

(** The stop predicates handed to [collect_until]. *)
Definition stop_block (s : string) : bool :=
  bool_decide (is_Some (_A_HEADER_RE_match s))
  || bool_decide (is_Some (_Q_HEADER_RE_match s))
  || _SUMMARY_RE_match s
  || Py.startswith "-----" s.

Definition stop_summary (s : string) : bool :=
  Py.startswith "-----" s
  || bool_decide (is_Some (_Q_HEADER_RE_match s))
  || bool_decide (is_Some (_A_HEADER_RE_match s)).

(** [collect_until(stop_pred)] from the lines still to read: the lines
    it buffers, and the lines left for the outer loop. *)
Fixpoint collected (stop_pred : string -> bool) (lines : list string) : list string :=
  match lines with
  | [] => []
  | l :: rest => if stop_pred (Py.strip l) then [] else l :: collected stop_pred rest
  end.

Fixpoint remaining (stop_pred : string -> bool) (lines : list string) : list string :=
  match lines with
  | [] => []
  | l :: rest => if stop_pred (Py.strip l) then lines else remaining stop_pred rest
  end.

Definition collect_until (stop_pred : string -> bool) (lines : list string)
  : string * list string :=
  (Py.strip (Py.join (String "010" "") (collected stop_pred lines)),
   remaining stop_pred lines).

(** One entry of the dictionary [turns]: the keys ["question"] and
    ["answer"], each present or not. *)
Record TurnEntry := { entry_question : option string; entry_answer : option string }.

Definition no_entry : TurnEntry := {| entry_question := None; entry_answer := None |}.

(** [turns.setdefault(idx, {})["question"] = q_text] *)
Definition set_question (turns : gmap Z TurnEntry) (idx : Z) (q_text : string)
  : gmap Z TurnEntry :=
  <[idx := {| entry_question := Some q_text;
              entry_answer := entry_answer (default no_entry (turns !! idx)) |}]> turns.

Definition set_answer (turns : gmap Z TurnEntry) (idx : Z) (a_text : string)
  : gmap Z TurnEntry :=
  <[idx := {| entry_question := entry_question (default no_entry (turns !! idx));
              entry_answer := Some a_text |}]> turns.

(** The [while i < len(lines)] loop; [lines] is [lines[i:]]. *)
Equations? scan (lines : list string) (turns : gmap Z TurnEntry)
  : gmap Z TurnEntry by wf (length lines) lt :=
  scan [] turns := turns;
  scan (l :: rest) turns with _Q_HEADER_RE_match (Py.strip l) := {
    | Some idx :=
        scan (remaining stop_block rest)
             (set_question turns idx (fst (collect_until stop_block rest)));
    | None with _A_HEADER_RE_match (Py.strip l) := {
      | Some idx :=
          scan (remaining stop_block rest)
               (set_answer turns idx (fst (collect_until stop_block rest)));
      | None with _SUMMARY_RE_match (Py.strip l) := {
        | true := scan (remaining stop_summary rest) turns;
        | false := scan rest turns } } }.
Proof.
  all: simpl; try lia.
  all: match goal with
       | |- context [remaining ?p ?r] =>
           assert (length (remaining p r) <= length r)%nat
             by (clear; induction r as [|x r IH]; simpl;
                 [lia|destruct (p (Py.strip x)); simpl; lia]);
           lia
       end.
Qed.

(** The lines are those of [splitlines]; [ln.rstrip("\n")] leaves each
    of them as it is, since none keeps its line boundary. *)
Definition parse_transcript_to_turns (text : string) : list QATurn :=
  let lines := Py.splitlines text in
  let turns := scan lines ∅ in
  omap (fun idx =>
          let e := default no_entry (turns !! idx) in
          let q := Py.strip (default "" (entry_question e)) in
          let a := Py.strip (default "" (entry_answer e)) in
          if Py.truthy q then Some {| q_index := idx; question := q; answer := a |}
          else None)
       (Py.sort Z.leb (map fst (map_to_list turns))).

(** *** The judge *)

(** The reply of the external judgment service, by what the service
    reads from it: [float(data["scores"]["knowledge"]["score"])] and the
    same for ["attitude"], each of which may raise. *)
Record JudgeReply := {
  knowledge_read : Py.result R;
  attitude_read : Py.result R
}.

(** The reply, and the entry ["data_sufficiency"] added to it later. *)
Record Explanation := {
  reply : JudgeReply;
  data_sufficiency : option SufficiencyDetail
}.

Record AgentScores := {
  knowledge_score : R;
  attitude_score : R;
  agent_final_score : R;
  explanation : Explanation
}.

(** [EvaluationAgentService.evaluate_turns]; [judged] is the outcome of
    [self.gpt.judge(...)] on the messages built from the turns. *)
Definition evaluate_turns (w_knowledge w_attitude : R) (judged : Py.result JudgeReply)
  : Py.result AgentScores :=
  data ← judged;
  k ← knowledge_read data;
  a ← attitude_read data;
  let knowledge := _clamp_0_10 k in
  let attitude := _clamp_0_10 a in
  let agent_final := _clamp_0_10 (knowledge * w_knowledge + attitude * w_attitude)%R in
  Py.Ok {| knowledge_score := Py.round knowledge 2;
           attitude_score := Py.round attitude 2;
           agent_final_score := Py.round agent_final 2;
           explanation := {| reply := data; data_sufficiency := None |} |}.

(** *** Overall scoring *)

Record TotalDetail := {
  formula : string;
  weights : R * R;
  components : option (R * R);
  detail_data_sufficiency : option SufficiencyDetail
}.

Record Overall := {
  overall_emotion_face_score : R;
  overall_knowledge_score : option R;
  overall_attitude_score : option R;
  overall_agent_final_score : option R;
  total_score : option R;
  detail : TotalDetail;
  overall_data_sufficiency : option SufficiencyDetail
}.

Definition compute_total_patched (emotion_face_score : R) (agent_scores : option AgentScores)
    (w_agent_final w_emotion : R) : Overall :=
  let detail :=
    {| formula := "total = agent_final*w_agent_final + emotion_face_score*w_emotion";
       weights := (w_agent_final, w_emotion);
       components := None;
       detail_data_sufficiency := None |} in
  match agent_scores with
  | None =>
      {| overall_emotion_face_score := Py.round emotion_face_score 2;
         overall_knowledge_score := None;
         overall_attitude_score := None;
         overall_agent_final_score := None;
         total_score := None;
         detail := detail;
         overall_data_sufficiency := None |}
  | Some agent_scores =>
      let agent_final := _clamp_0_10 (agent_final_score agent_scores) in
      let total := _clamp_0_10 (agent_final * w_agent_final + emotion_face_score * w_emotion)%R in
      {| overall_emotion_face_score := Py.round emotion_face_score 2;
         overall_knowledge_score := Some (knowledge_score agent_scores);
         overall_attitude_score := Some (attitude_score agent_scores);
         overall_agent_final_score := Some (Py.round agent_final 2);
         total_score := Some (Py.round total 2);
         detail :=
           {| formula := formula detail;
              weights := weights detail;
              components := Some (Py.round (agent_final * w_agent_final)%R 4,
                                  Py.round (emotion_face_score * w_emotion)%R 4);
              detail_data_sufficiency := None |};
         overall_data_sufficiency := None |}
  end.

(** *** [EvaluationService.evaluate] *)

(** What the call reads from its surroundings. *)
Record World := {
  (** [[k for k in required_envs if not os.getenv(k)]] *)
  missing_envs : list string;
  (** [SessionFileResolver]: a path, or [FileNotFoundError] *)
  find_transcript_path : string -> string -> Py.result string;
  find_emotion_path : string -> string -> Py.result string;
  (** [Path(p).read_text(encoding="utf-8")] *)
  read_text : string -> Py.result string;
  (** [EvaluationAgentService(...)], which builds the Azure client *)
  new_agent : Py.result unit;
  (** [AzureGPTClient.judge] on the messages for a role and turns *)
  judge : option string -> list QATurn -> Py.result JudgeReply;
  (** the local time zone *)
  localtime : Z -> option Z
}.

Record Inputs := {
  in_base_dir : string;
  in_session_id : string;
  in_role : option string;
  in_transcript_path : string;
  in_emotion_path : string;
  agent_internal_weights : R * R;
  overall_weights : R * R
}.

Record EmotionReport := {
  total_events : Z;
  distribution : list (string * R);
  emotion_score : R;
  emotion_detail : EmotionDetail
}.

Record AgentReport := {
  scores : option (R * R * R);
  error : option string;
  agent_explanation : option Explanation
}.

Record Report := {
  inputs : Inputs;
  emotion_report : EmotionReport;
  agent : AgentReport;
  overall : Overall
}.

(** Reading a local variable; [None] is a name not yet bound. *)
Definition read_local {A} (name : string) (v : option A) : Py.result A :=
  match v with
  | Some a => Py.Ok a
  | None => Py.Raise (Py.UnboundLocalError name)
  end.

Definition evaluate (w : World) (self_base_dir : string)
    (session_id : string) (role : option string) (base_dir : option string)
    (transcript_path emotion_path : string)
    (w_knowledge w_attitude w_agent_final w_emotion : R) : Py.result Report :=
  let use_base :=
    Py.strip (match base_dir with
              | Some b => if Py.truthy b then b else self_base_dir
              | None => self_base_dir
              end) in
  tp ← (if Py.truthy (Py.strip transcript_path) then Py.Ok (Py.strip transcript_path)
        else find_transcript_path w use_base session_id);
  ep ← (if Py.truthy (Py.strip emotion_path) then Py.Ok (Py.strip emotion_path)
        else find_emotion_path w use_base session_id);
  (* 1) Emotion score *)
  emo_text ← read_text w ep;
  let emo_events := parse_emotions (localtime w) emo_text in
  let emo_dist := emotion_distribution emo_events in
  let '(emotion_face_score, emotion_detail) := score_emotion_face_base10 emo_events in
  (* 2) Agent score: the locals [agent_scores], [agent_error], [turns] *)
  let '(agent_scores, agent_error, turns) :=
    match missing_envs w with
    | _ :: _ =>
        (None,
         Some ("Missing Azure envs: " +:+ Py.join ", " (missing_envs w)
               +:+ " (skip agent scoring)"),
         None)
    | [] =>
        match read_text w tp with
        | Py.Raise e =>
            (None, Some ("Agent scoring failed: " +:+ Py.exn_name e +:+ ": " +:+ Py.exn_str e),
             None)
        | Py.Ok text =>
            let turns := parse_transcript_to_turns text in
            match (_ ← new_agent w;
                   evaluate_turns w_knowledge w_attitude (judge w role turns)) with
            | Py.Ok agent_scores => (Some agent_scores, None, Some turns)
            | Py.Raise e =>
                (None,
                 Some ("Agent scoring failed: " +:+ Py.exn_name e +:+ ": " +:+ Py.exn_str e),
                 Some turns)
            end
        end
    end in
  (* the adjustment; [ds_detail] is bound only inside this branch *)
  adjusted ←
    match agent_scores with
    | Some agent_scores =>
        turns ← read_local "turns" turns;
        let n_valid := Z.of_nat (length (filter (fun t => is_valid_answer (answer t)) turns)) in
        r ← apply_data_sufficiency (knowledge_score agent_scores)
               (attitude_score agent_scores) w_knowledge w_attitude n_valid;
        let '(ks_adj, ats_adj, final_adj, ds_detail) := r in
        Py.Ok (Some {| knowledge_score := ks_adj;
                       attitude_score := ats_adj;
                       agent_final_score := final_adj;
                       explanation :=
                         {| reply := reply (explanation agent_scores);
                            data_sufficiency := Some ds_detail |} |},
               Some ds_detail)
    | None => Py.Ok (None, None)
    end;
  let '(agent_scores, ds_detail) := adjusted in
  (* 3) Overall *)
  let overall := compute_total_patched emotion_face_score agent_scores w_agent_final w_emotion in
  ds_detail ← read_local "ds_detail" ds_detail;
  let overall :=
    {| overall_emotion_face_score := overall_emotion_face_score overall;
       overall_knowledge_score := overall_knowledge_score overall;
       overall_attitude_score := overall_attitude_score overall;
       overall_agent_final_score := overall_agent_final_score overall;
       total_score := total_score overall;
       detail :=
         {| formula := formula (detail overall);
            weights := weights (detail overall);
            components := components (detail overall);
            detail_data_sufficiency := Some ds_detail |};
       overall_data_sufficiency := Some ds_detail |} in
  Py.Ok
    {| inputs :=
         {| in_base_dir := use_base;
            in_session_id := session_id;
            in_role := role;
            in_transcript_path := tp;
            in_emotion_path := ep;
            agent_internal_weights := (w_knowledge, w_attitude);
            overall_weights := (w_agent_final, w_emotion) |};
       emotion_report :=
         {| total_events := Z.of_nat (length emo_events);
            distribution := map (fun kv => (fst kv, Py.round (snd kv) 4)) emo_dist;
            emotion_score := emotion_face_score;
            emotion_detail := emotion_detail |};
       agent :=
         {| scores :=
              match agent_scores with
              | None => None
              | Some a => Some (knowledge_score a, attitude_score a, agent_final_score a)
              end;
            error := agent_error;
            agent_explanation :=
              match agent_scores with
              | None => None
              | Some a => Some (explanation a)
              end |};
       overall := overall |}.

End evaluation_service.

(* ----------------------------------------------------------------- *)
(** ** [mock_agent_service.py]: the transcript export *)
(* ----------------------------------------------------------------- *)

Module mock_agent_service.

Record MockTurn := {
  question : option string;
  answer : option string;
  time : datetime.t;
  summary : option string
}.

Record MockSession := {
  session_id : string;
  cv_text : string;
  jd_text : string;
  role : option string;
  turns : list MockTurn
}.

(** [if t.question:] on an optional string *)
Definition present (o : option string) : bool :=
  match o with
  | Some s => Py.truthy s
  | None => false
  end.

Definition text_of (o : option string) : string := default "" o.

Section export.
(** [self._role_from_jd(jd_text, None)]: the role found in the job
    description by a regular-expression search, or ["the position"]. *)
Variable _role_from_jd : string -> string.
(** [datetime.utcnow()] at the export *)
Variable utcnow : datetime.t.

(** The lines appended for the turns, from the running [q_idx]. *)
Fixpoint turn_lines (q_idx : Z) (ts : list MockTurn) : list string :=
  match ts with
  | [] => []
  | t :: ts' =>
      let q_idx := if present (question t) then (q_idx + 1)%Z else q_idx in
      (if present (question t) then
         ["[Q" +:+ Py.str_of_int q_idx +:+ "] (" +:+ datetime.isoformat (time t) +:+ "Z)";
          text_of (question t); ""]
       else [])
      ++ (if present (answer t) then
            ["[A" +:+ Py.str_of_int q_idx +:+ "] (" +:+ datetime.isoformat (time t) +:+ "Z)";
             text_of (answer t); ""]
          else [])
      ++ (if present (summary t) then
            ["[Summary Q" +:+ Py.str_of_int q_idx +:+ "]"; text_of (summary t); ""]
          else [])
      ++ [Py.join "" (replicate 60 "-")]
      ++ turn_lines q_idx ts'
  end.

Definition role_line (s : MockSession) : string :=
  if present (role s) then text_of (role s) else _role_from_jd (jd_text s).

(** The text written to the export file. *)
Definition transcript_content (s : MockSession) : string :=
  let lines :=
    ["=== MOCK INTERVIEW TRANSCRIPT ===";
     "Session: " +:+ session_id s;
     "Role: " +:+ role_line s;
     "Exported (UTC): " +:+ datetime.isoformat utcnow +:+ "Z";
     ""]
    ++ turn_lines 0 (turns s) in
  Py.join (String "010" "") lines.

(** [export_transcript_txt]: the content it writes for a known
    session; an unknown one raises [HTTPException] (404). *)
Definition export_transcript_txt (sessions : gmap string MockSession) (sid : string)
  : Py.result string :=
  match sessions !! sid with
  | None => Py.Raise (Py.Exception "HTTPException" "Session not found")
  | Some s => Py.Ok (transcript_content s)
  end.
End export.

(** [_role_from_jd]: the search of
    [(Senior|Junior|Lead)?\s*([A-Za-z ]+(Engineer|Developer|Scientist|Manager))]
    in the job description, ignoring case.  Each function matches the
    rest of the pattern from its position and returns the number of
    characters matched. *)
Definition eqb_ci (a b : ascii) : bool :=
  Ascii.eqb (Py.lower_char a) (Py.lower_char b).

Fixpoint startswith_ci (p s : string) : bool :=
  match p, s with
  | EmptyString, _ => true
  | String a p', String b s' => if eqb_ci a b then startswith_ci p' s' else false
  | String _ _, EmptyString => false
  end.

(** [(Engineer|Developer|Scientist|Manager)], the end of the pattern:
    the first alternative that matches here. *)
Definition match_title (s : string) : option nat :=
  if startswith_ci "Engineer" s then Some 8%nat
  else if startswith_ci "Developer" s then Some 9%nat
  else if startswith_ci "Scientist" s then Some 9%nat
  else if startswith_ci "Manager" s then Some 7%nat
  else None.

Definition letter_or_blank (c : ascii) : bool :=
  Py.isupper c || Py.islower c || Ascii.eqb c " ".

(** [[A-Za-z ]+(Engineer|...)]: the greedy run is tried longest first
    and gives characters back until a title follows. *)
Fixpoint match_titled (s : string) : option nat :=
  match s with
  | EmptyString => None
  | String c s' =>
      if letter_or_blank c then
        match match_titled s' with
        | Some n => Some (S n)
        | None =>
            match match_title s' with
            | Some n => Some (S n)
            | None => None
            end
        end
      else None
  end.

(** [\s*[A-Za-z ]+(Engineer|...)]: the greedy run of white space gives
    characters back too. *)
Fixpoint match_ws_titled (s : string) : option nat :=
  match s with
  | EmptyString => None
  | String c s' =>
      if Py.isspace c then
        match match_ws_titled s' with
        | Some n => Some (S n)
        | None => match_titled s
        end
      else match_titled s
  end.

(** The whole pattern at the start of [s]: the optional group is tried
    with each of its alternatives in order, then without it. *)
Definition match_role (s : string) : option nat :=
  let after (p : string) : option nat :=
    if startswith_ci p s then
      match match_ws_titled (evaluation_service.drop (String.length p) s) with
      | Some n => Some (String.length p + n)%nat
      | None => None
      end
    else None in
  match after "Senior" with
  | Some n => Some n
  | None =>
      match after "Junior" with
      | Some n => Some n
      | None =>
          match after "Lead" with
          | Some n => Some n
          | None => match_ws_titled s
          end
      end
  end.

(** [re.search]: the match at the leftmost position that has one;
    [m.group(0)]. *)
Fixpoint search_role (s : string) : option string :=
  match match_role s with
  | Some n => Some (String.substring 0 n s)
  | None =>
      match s with
      | String _ s' => search_role s'
      | EmptyString => None
      end
  end.

Definition _role_from_jd (jd_text : string) (fallback : option string) : string :=
  if present fallback then text_of fallback
  else
    match search_role jd_text with
    | Some g => Py.strip g
    | None => "the position"
    end.

(** The characters of a session id that [export_transcript_txt] keeps
    for the name of its file. *)
Definition safe_sid (session_id : string) : string :=
  Py.filter_chars (fun ch => Py.isalnum ch || Ascii.eqb ch "-" || Ascii.eqb ch "_")
                  session_id.


(** What a call of the service comes to: a value, the [HTTPException]
    it raises itself, or an exception of the language-model call. *)
Inductive outcome (A : Type) :=
| Returned (a : A)
| HTTPException (status_code : Z) (detail : string)
| Raised (e : Py.exn).
Arguments Returned {A} a.
Arguments HTTPException {A} status_code detail.
Arguments Raised {A} e.

(** [MockTurn(question=..., answer=...)], created at [now] *)
Definition new_turn (question answer : option string) (now : datetime.t) : MockTurn :=
  {| question := question; answer := answer; time := now; summary := None |}.

Definition with_turns (s : MockSession) (turns : list MockTurn) : MockSession :=
  {| session_id := session_id s; cv_text := cv_text s; jd_text := jd_text s;
     role := role s; turns := turns |}.

(** The reply of the model made a question:
    [q = reply.strip()], then
    [if not q.endswith("?"): q = q.rstrip(".") + "?"]. *)
Definition as_question (reply : string) : string :=
  let q := Py.strip reply in
  if Py.endswith "?" q then q else Py.rstrip_char "." q +:+ "?".

(** [start_session].  A call of the language model is given by its
    outcome [reply] (the prompt does not act on the sessions); [now]
    is the time at which the first turn is created.  The session is
    stored before the model is called, so it stays stored, without a
    turn, when the call raises. *)
Definition start_session (sessions : gmap string MockSession)
    (session_id cv_text jd_text : string) (role : option string)
    (reply : Py.result string) (now : datetime.t)
  : gmap string MockSession * outcome string :=
  if negb (Py.truthy cv_text) || negb (Py.truthy jd_text) then
    (sessions, HTTPException 400 "cv_text and jd_text are required")
  else
    let s := {| session_id := session_id; cv_text := cv_text; jd_text := jd_text;
                role := role; turns := [] |} in
    let sessions := <[session_id := s]> sessions in
    match reply with
    | Py.Raise e => (sessions, Raised e)
    | Py.Ok reply =>
        let first_q := as_question reply in
        (<[session_id := with_turns s [new_turn (Some first_q) None now]]> sessions,
         Returned first_q)
    end.

(** [process_turn]; it returns the summary and the next question.  The
    two calls of the language model are given by their outcomes; the
    session object is changed in place, so what was changed before a
    call raises stays changed. *)
Definition process_turn (sessions : gmap string MockSession)
    (session_id user_answer : string) (reasoning_reply next_reply : Py.result string)
    (now_answer now_question : datetime.t)
  : gmap string MockSession * outcome (string * string) :=
  match sessions !! session_id with
  | None => (sessions, HTTPException 400 "Invalid session_id. Call /mock/start first.")
  | Some s =>
      (* the turn that takes the answer, and the turns before it *)
      let '(before, t) :=
        match last (turns s) with
        | Some t0 =>
            match answer t0 with
            | None =>
                (removelast (turns s),
                 {| question := question t0; answer := Some user_answer;
                    time := time t0; summary := summary t0 |})
            | Some _ => (turns s, new_turn None (Some user_answer) now_answer)
            end
        | None => (turns s, new_turn None (Some user_answer) now_answer)
        end in
      match reasoning_reply with
      | Py.Raise e => (<[session_id := with_turns s (before ++ [t])]> sessions, Raised e)
      | Py.Ok r =>
          let reasoning := Py.strip r in
          let t := {| question := question t; answer := answer t;
                      time := time t; summary := Some reasoning |} in
          match next_reply with
          | Py.Raise e =>
              (<[session_id := with_turns s (before ++ [t])]> sessions, Raised e)
          | Py.Ok q =>
              let next_q := as_question q in
              (<[session_id :=
                   with_turns s (before ++ [t; new_turn (Some next_q) None now_question])]>
                 sessions,
               Returned (reasoning, next_q))
          end
      end
  end.

End mock_agent_service.

(* ----------------------------------------------------------------- *)
(** ** [emotion_service.py]: the capture lifecycle and the log line *)
(* ----------------------------------------------------------------- *)

Module emotion_service.

(** A [threading.Thread] that has been started: alive until its loop
    returns. *)
Record Thread := { is_alive : bool }.

Record EmotionService := {
  _stop_cam : bool;
  _cam_thread : option Thread;
  (** the label of [self.latest], when there is a latest result with one *)
  latest_emotion : option string;
  _logging_sessions : gset string;
  _log_thread : option Thread;
  _stop_log : bool
}.

(** The state [__init__] leaves. *)
Definition init : EmotionService :=
  {| _stop_cam := false; _cam_thread := None; latest_emotion := None;
     _logging_sessions := ∅; _log_thread := None; _stop_log := false |}.

(** What a call does to the workers. *)
Inductive Worker := Camera | LogWriter.
Inductive Effect :=
| ThreadStart (w : Worker)
| SignalStop (w : Worker)
| Join (w : Worker).

Definition alive (t : option Thread) : bool :=
  match t with
  | Some t => is_alive t
  | None => false
  end.

Definition start_camera (self : EmotionService) : EmotionService * list Effect :=
  if alive (_cam_thread self) then (self, [])
  else
    ({| _stop_cam := false;
        _cam_thread := Some {| is_alive := true |};
        latest_emotion := latest_emotion self;
        _logging_sessions := _logging_sessions self;
        _log_thread := _log_thread self;
        _stop_log := _stop_log self |},
     [ThreadStart Camera]).

Definition stop_camera (self : EmotionService) : EmotionService * list Effect :=
  ({| _stop_cam := true;
      _cam_thread := _cam_thread self;
      latest_emotion := latest_emotion self;
      _logging_sessions := _logging_sessions self;
      _log_thread := _log_thread self;
      _stop_log := _stop_log self |},
   SignalStop Camera :: (if alive (_cam_thread self) then [Join Camera] else [])).

Definition start_logging (self : EmotionService) (session_id : string)
  : EmotionService * list Effect :=
  let self :=
    {| _stop_cam := _stop_cam self;
       _cam_thread := _cam_thread self;
       latest_emotion := latest_emotion self;
       _logging_sessions := {[session_id]} ∪ _logging_sessions self;
       _log_thread := _log_thread self;
       _stop_log := _stop_log self |} in
  let '(self, e1) := start_camera self in
  if negb (alive (_log_thread self)) then
    ({| _stop_cam := _stop_cam self;
        _cam_thread := _cam_thread self;
        latest_emotion := latest_emotion self;
        _logging_sessions := _logging_sessions self;
        _log_thread := Some {| is_alive := true |};
        _stop_log := false |},
     e1 ++ [ThreadStart LogWriter])
  else (self, e1).

Definition stop_logging (self : EmotionService) (session_id : string)
  : EmotionService * list Effect :=
  let self :=
    {| _stop_cam := _stop_cam self;
       _cam_thread := _cam_thread self;
       latest_emotion := latest_emotion self;
       _logging_sessions := _logging_sessions self ∖ {[session_id]};
       _log_thread := _log_thread self;
       _stop_log := _stop_log self |} in
  let empty := bool_decide (size (_logging_sessions self) = 0%nat) in
  if empty then
    let self :=
      {| _stop_cam := _stop_cam self;
         _cam_thread := _cam_thread self;
         latest_emotion := latest_emotion self;
         _logging_sessions := _logging_sessions self;
         _log_thread := _log_thread self;
         _stop_log := true |} in
    let '(self, e) := stop_camera self in
    (self, SignalStop LogWriter :: e)
  else (self, []).

(** The steps of the service: the two calls, and a worker leaving its
    loop, which it does only once its stop flag is set ([_cam_loop]
    also returns when the camera cannot be opened: [CameraFault]). *)
Inductive Step :=
| StartLogging (session_id : string)
| StopLogging (session_id : string)
| CameraExit
| LogWriterExit
| CameraFault.

Definition set_cam_dead (self : EmotionService) : EmotionService :=
  {| _stop_cam := _stop_cam self;
     _cam_thread := Some {| is_alive := false |};
     latest_emotion := latest_emotion self;
     _logging_sessions := _logging_sessions self;
     _log_thread := _log_thread self;
     _stop_log := _stop_log self |}.

Definition set_log_dead (self : EmotionService) : EmotionService :=
  {| _stop_cam := _stop_cam self;
     _cam_thread := _cam_thread self;
     latest_emotion := latest_emotion self;
     _logging_sessions := _logging_sessions self;
     _log_thread := Some {| is_alive := false |};
     _stop_log := _stop_log self |}.

(** [step self s] is [None] when the step cannot happen in [self]. *)
Definition step (self : EmotionService) (s : Step) : option (EmotionService * list Effect) :=
  match s with
  | StartLogging sid => Some (start_logging self sid)
  | StopLogging sid => Some (stop_logging self sid)
  | CameraExit =>
      if alive (_cam_thread self) && _stop_cam self then Some (set_cam_dead self, []) else None
  | LogWriterExit =>
      if alive (_log_thread self) && _stop_log self then Some (set_log_dead self, []) else None
  | CameraFault =>
      if alive (_cam_thread self) then Some (set_cam_dead self, []) else None
  end.

Fixpoint run (self : EmotionService) (steps : list Step)
  : option (EmotionService * list Effect) :=
  match steps with
  | [] => Some (self, [])
  | s :: rest =>
      match step self s with
      | None => None
      | Some (self', e) =>
          match run self' rest with
          | None => None
          | Some (self'', e') => Some (self'', e ++ e')
          end
      end
  end.

(** [_append_line]: the line appended to a session's log. *)
Definition log_line (self : EmotionService) (utcnow : datetime.t) (note : string) : string :=
  let emo := match latest_emotion self with Some e => e | None => "None" end in
  let ts := datetime.isoformat utcnow +:+ "Z" in
  ts +:+ String "009" "" +:+ "emotion=" +:+ emo +:+ String "009" "" +:+ note +:+ String "010" "".

(** The name of the log file of a session inside [exports]. *)
Definition safe_sid (session_id : string) : string :=
  Py.filter_chars (fun ch => Py.isalnum ch || Ascii.eqb ch "-" || Ascii.eqb ch "_")
                  session_id.


End emotion_service.

(* ----------------------------------------------------------------- *)
(** ** [evaluation_router.py]: the evaluation endpoint *)
(* ----------------------------------------------------------------- *)

Module evaluation_router.

(** A request that passed validation. *)
Record EvaluateReq := {
  session_id : string;
  role : option string;
  base_dir : option string;
  transcript_path : string;
  emotion_path : string;
  w_knowledge : R;
  w_attitude : R;
  w_agent_final : R;
  w_emotion : R
}.

(** The answer of the endpoint: [{"ok": True, "report": report}], or
    the [HTTPException] it raises. *)
Inductive Response :=
| ok_report (report : evaluation_service.Report)
| HTTPException (status_code : Z) (detail : string).

(** [POST /evaluation/evaluate]; [_service] is
    [EvaluationService(base_dir="exports")]. *)
Definition evaluate (w : evaluation_service.World) (req : EvaluateReq) : Response :=
  match evaluation_service.evaluate w "exports" (session_id req) (role req) (base_dir req)
          (transcript_path req) (emotion_path req)
          (w_knowledge req) (w_attitude req) (w_agent_final req) (w_emotion req) with
  | Py.Ok report => ok_report report
  | Py.Raise (Py.FileNotFoundError msg) => HTTPException 404 msg
  | Py.Raise e => HTTPException 500 (Py.exn_name e +:+ ": " +:+ Py.exn_str e)
  end.

End evaluation_router.

(** * Part II: the vocabulary of the statements

    The predicates and reference values in which the properties below
    are stated: string shapes, the label statistics of an event list,
    the lines of the two text formats, and the sample inputs at which
    the properties are run. *)

Import evaluation_service.

(** ** Strings and lines *)

(** All characters of a string satisfy a test. *)
Fixpoint all_chars (p : ascii -> bool) (s : string) : bool :=
  match s with
  | EmptyString => true
  | String c s' => p c && all_chars p s'
  end.

(** The last character, if any. *)
Fixpoint last_char (s : string) : option ascii :=
  match s with
  | EmptyString => None
  | String c EmptyString => Some c
  | String _ s' => last_char s'
  end.

(** A string is stripped when [strip] leaves it unchanged: it neither
    starts nor ends with white space. *)
Definition stripped (s : string) : Prop := Py.strip s = s.

(** [x] occurs in [s]. *)
Definition substring_of (x s : string) : Prop := exists a b, s = a +:+ x +:+ b.

(** The line feed, by which the export joins its lines. *)
Definition LF : string := String "010" "".

(** The lines a text contributes when it is followed by a line feed. *)
Definition lines_of (text : string) : list string := Py.splitlines (text +:+ LF).


Definition no_linebreak (s : string) : Prop :=
  all_chars (fun c => negb (Py.islinebreak c)) s = true.


(** ** Timestamps as [isoformat] writes them *)

(** The characters of [isoformat]: digits and the separators. *)
Definition iso_char (c : ascii) : bool :=
  Py.isdigit c || Ascii.eqb c "-" || Ascii.eqb c "T" || Ascii.eqb c ":" || Ascii.eqb c ".".

Definition time_char (c : ascii) : bool :=
  Py.isdigit c || Ascii.eqb c ":" || Ascii.eqb c ".".

(** The time of day as [isoformat] writes it. *)
Definition iso_time (d : datetime.t) : string :=
  Py.pad_digits 2 (datetime.hour d) "" +:+ ":" +:+ Py.pad_digits 2 (datetime.minute d) ""
  +:+ ":" +:+ Py.pad_digits 2 (datetime.second d) ""
  +:+ (if (datetime.microsecond d =? 0)%Z then ""
       else "." +:+ Py.pad_digits 6 (datetime.microsecond d) "").

Definition iso_date (d : datetime.t) : string :=
  Py.pad_digits 4 (datetime.year d) "" +:+ "-" +:+ Py.pad_digits 2 (datetime.month d) ""
  +:+ "-" +:+ Py.pad_digits 2 (datetime.day d) "".

(** The timestamp the Log Writer writes: [isoformat] and a [Z]. *)
Definition stamp (d : datetime.t) : string := datetime.isoformat d +:+ "Z".

Definition sample_time : datetime.t := datetime.mk 2025 1 1 9 30 0 0.

(** ** Emotion events and their labels *)

(** The label of an event as the scorer reads it. *)
Definition label_of (e : EmotionEvent) : string := Py.strip (Py.lower (emotion e)).

Definition label_count (k : string) (events : list EmotionEvent) : Z :=
  Z.of_nat (length (filter (fun e => label_of e = k) events)).

(** The frequency ratio of a label over the total event count. *)
Definition label_ratio (k : string) (events : list EmotionEvent) : R :=
  (IZR (label_count k events) / IZR (Z.of_nat (length events)))%R.

(** The dictionary [counts] of the scorer. *)
Definition counts_of (events : list EmotionEvent) : gmap string Z :=
  foldl (fun counts e => count_into counts (label_of e)) ∅ events.

Definition negative_categories : list string := ["angry"; "disgust"; "fear"; "sad"].
Definition positive_categories : list string := ["happy"; "neutral"; "surprise"].
Definition categories : list string := negative_categories ++ positive_categories.

Section score_terms.
Local Open Scope R_scope.

(** The score before clamping and rounding, from the seven ratios. *)
Definition raw_score (angry disgust fear sad happy neutral surprise : R) : R :=
  10 - (1.2 * angry + 1.0 * disgust + 0.6 * fear + 0.4 * sad) * 10
     + (0.15 * happy + 0.10 * neutral + 0.08 * surprise) * 10.

Definition raw_score_of (events : list EmotionEvent) : R :=
  raw_score (label_ratio "angry" events) (label_ratio "disgust" events)
    (label_ratio "fear" events) (label_ratio "sad" events)
    (label_ratio "happy" events) (label_ratio "neutral" events)
    (label_ratio "surprise" events).


End score_terms.

(** ** The emotion log *)

(** The timestamp field and the label of a line, as the strict pattern
    or else the tolerant reading finds them. *)
Definition line_fields (raw : string) : option (string * string) :=
  let ln := Py.replace_char "009" " " (Py.strip raw) in
  match _EMO_RE_match ln with
  | Some (g_ts, g_emo) => Some (g_ts, Py.lower g_emo)
  | None =>
      let parts := Py.re_split_ws ln in
      if (2 <=? length parts)%nat && Py.contains "emotion=" (List.last parts "") then
        Some (List.hd "" parts,
              Py.lower (Py.strip (List.last (Py.split "emotion=" (List.last parts "")) "")))
      else None
  end.





(** ** The capture service *)

(** Both workers started and alive, with the given active set; [stop]
    is the value of both stop flags. *)
Definition workers_state (X : gset string) (stop : bool) : emotion_service.EmotionService :=
  {| emotion_service._stop_cam := stop;
     emotion_service._cam_thread := Some {| emotion_service.is_alive := true |};
     emotion_service.latest_emotion := None;
     emotion_service._logging_sessions := X;
     emotion_service._log_thread := Some {| emotion_service.is_alive := true |};
     emotion_service._stop_log := stop |}.

(** ** The evaluation *)

(** The outcome of the judgment step of [evaluate]: the scores, or
    nothing when the step was skipped or raised. *)
Definition judgment (w : World) (role : option string) (tp : string)
    (w_knowledge w_attitude : R) : option AgentScores :=
  match missing_envs w with
  | _ :: _ => None
  | [] =>
      match read_text w tp with
      | Py.Raise _ => None
      | Py.Ok text =>
          match (_ ← new_agent w;
                 evaluate_turns w_knowledge w_attitude
                   (judge w role (parse_transcript_to_turns text))) with
          | Py.Ok a => Some a
          | Py.Raise _ => None
          end
      end
  end.

(** A world in which one credential is missing and both files exist. *)
Definition world_without_key : World :=
  {| missing_envs := ["AZURE_OPENAI_API_KEY"];
     find_transcript_path := fun _ _ => Py.Ok "exports/mock_abc123.txt";
     find_emotion_path := fun _ _ => Py.Ok "exports/emotion_abc123.txt";
     read_text := fun _ => Py.Ok "";
     new_agent := Py.Raise (Py.Exception "RuntimeError" "Missing Azure OpenAI env vars.");
     judge := fun _ _ => Py.Raise (Py.Exception "RuntimeError" "no client");
     localtime := fun _ => Some 0%Z |}.

(** ** Transcripts *)


(** A question or answer header. *)
Definition qa_header (s : string) : bool :=
  bool_decide (is_Some (_Q_HEADER_RE_match s)) || bool_decide (is_Some (_A_HEADER_RE_match s)).




(** The summary header of the export. *)
Definition summary_line (k : Z) : string := "[Summary Q" +:+ Py.str_of_int k +:+ "]".



(** A text none of whose lines is a question or answer header. *)
Definition header_free (text : string) : Prop :=
  Forall (fun l => qa_header (Py.strip l) = false) (lines_of text).







(** A session of two turns, the second still without an answer. *)
Definition plain_session : mock_agent_service.MockSession :=
  {| mock_agent_service.session_id := "s1";
     mock_agent_service.cv_text := "cv";
     mock_agent_service.jd_text := "jd";
     mock_agent_service.role := Some "Engineer";
     mock_agent_service.turns :=
       [ {| mock_agent_service.question := Some "Why?";
            mock_agent_service.answer := Some ("Pros" +:+ LF +:+ "Fast");
            mock_agent_service.time := sample_time;
            mock_agent_service.summary := Some "Short." |};
         {| mock_agent_service.question := Some "And then?";
            mock_agent_service.answer := None;
            mock_agent_service.time := sample_time;
            mock_agent_service.summary := None |} ] |}.

(** ** Counting labels *)

(** The dictionary of counts after the events of [l], each under its
    key [f e], were counted into [m]. *)
Definition tally {E : Type} (f : E -> string) (m : gmap string Z) (l : list E)
  : gmap string Z :=
  foldl (fun counts e => count_into counts (f e)) m l.

(** How many elements of [l] have the key [k]. *)
Definition occurrences {E : Type} (f : E -> string) (k : string) (l : list E) : Z :=
  Z.of_nat (length (filter (fun e => f e = k) l)).


(** The sum of a list of floats. *)
Definition Rsum (l : list R) : R := fold_right Rplus 0%R l.

(** ** The inputs of an evaluation *)

(** [use_base], and the outcome of the two path lookups of [evaluate]. *)
Definition use_base_of (self_base_dir : string) (base_dir : option string) : string :=
  Py.strip (match base_dir with
            | Some b => if Py.truthy b then b else self_base_dir
            | None => self_base_dir
            end).

Definition transcript_lookup (w : World) (self_base_dir : string) (base_dir : option string)
    (session_id transcript_path : string) : Py.result string :=
  if Py.truthy (Py.strip transcript_path) then Py.Ok (Py.strip transcript_path)
  else find_transcript_path w (use_base_of self_base_dir base_dir) session_id.

Definition emotion_lookup (w : World) (self_base_dir : string) (base_dir : option string)
    (session_id emotion_path : string) : Py.result string :=
  if Py.truthy (Py.strip emotion_path) then Py.Ok (Py.strip emotion_path)
  else find_emotion_path w (use_base_of self_base_dir base_dir) session_id.



(** What [evaluate] reads before its [try]: the two paths, then the
    emotion log. *)
Definition emotion_inputs (w : World) (self_base_dir : string) (base_dir : option string)
    (session_id transcript_path emotion_path : string) : Py.result (string * string * string) :=
  tp ← transcript_lookup w self_base_dir base_dir session_id transcript_path;
  ep ← emotion_lookup w self_base_dir base_dir session_id emotion_path;
  emo_text ← read_text w ep;
  Py.Ok (tp, ep, emo_text).

(** A world with all credentials in which the transcript file, though
    found, cannot be read. *)
Definition world_unreadable : World :=
  {| missing_envs := [];
     find_transcript_path := fun _ _ => Py.Ok "exports/mock_abc123.txt";
     find_emotion_path := fun _ _ => Py.Ok "exports/emotion_abc123.txt";
     read_text := fun p =>
       if String.eqb p "exports/mock_abc123.txt"
       then Py.Raise (Py.FileNotFoundError
                        "[Errno 2] No such file or directory: 'exports/mock_abc123.txt'")
       else Py.Ok "";
     new_agent := Py.Ok tt;
     judge := fun _ _ => Py.Ok {| knowledge_read := Py.Ok 8%R; attitude_read := Py.Ok 7%R |};
     localtime := fun _ => Some 0%Z |}.

Definition sample_request : evaluation_router.EvaluateReq :=
  {| evaluation_router.session_id := "abc123";
     evaluation_router.role := Some "ai_engineer";
     evaluation_router.base_dir := None;
     evaluation_router.transcript_path := "";
     evaluation_router.emotion_path := "";
     evaluation_router.w_knowledge := 0.7%R;
     evaluation_router.w_attitude := 0.3%R;
     evaluation_router.w_agent_final := 0.65%R;
     evaluation_router.w_emotion := 0.35%R |}.

(** ** The lines of the Log Writer *)

(** The label [_append_line] writes: [f"{emo}"] for the latest label,
    or for [None]. *)
Definition written_label (self : emotion_service.EmotionService) : string :=
  match emotion_service.latest_emotion self with Some e => e | None => "None" end.

(** A log made of the lines of the given ticks, each with the state of
    the service at the tick, in the order they were appended. *)
Definition log_of (entries : list (emotion_service.EmotionService * datetime.t)) : string :=
  fold_right (fun entry rest => emotion_service.log_line (fst entry) (snd entry) "" +:+ rest)
             "" entries.

(** The event a line of the Log Writer stands for. *)
Definition event_of (entry : emotion_service.EmotionService * datetime.t) : EmotionEvent :=
  {| ts := datetime.to_micro (snd entry); emotion := Py.lower (written_label (fst entry)) |}.

(** A tick whose line the parser reads: a valid time and a label made of
    word characters. *)
Definition readable (entry : emotion_service.EmotionService * datetime.t) : Prop :=
  datetime.valid (snd entry) = true
  /\ written_label (fst entry) <> ""
  /\ all_chars Py.isword (written_label (fst entry)) = true.

(** Two ticks of the Log Writer, one second apart: no face yet, then a
    happy one. *)
Definition sample_ticks : list (emotion_service.EmotionService * datetime.t) :=
  [ (emotion_service.init, sample_time);
    ({| emotion_service._stop_cam := false;
        emotion_service._cam_thread := Some {| emotion_service.is_alive := true |};
        emotion_service.latest_emotion := Some "happy";
        emotion_service._logging_sessions := {["s1"]};
        emotion_service._log_thread := Some {| emotion_service.is_alive := true |};
        emotion_service._stop_log := false |},
     datetime.mk 2025 1 1 9 30 1 0) ].

(** ** File names and roles *)


(** One of the four titles, in any case. *)
Definition is_title (t : string) : bool :=
  existsb (fun p => mock_agent_service.startswith_ci p t
                    && (String.length t =? String.length p)%nat)
          ["Engineer"; "Developer"; "Scientist"; "Manager"].

(** The job description has a title right after a letter or a blank. *)
Definition titled (jd_text : string) : Prop :=
  exists a c b,
    jd_text = a +:+ String c b
    /\ mock_agent_service.letter_or_blank c = true
    /\ mock_agent_service.match_title b <> None.

(** A letter or a white-space character. *)
Definition letter_or_space (c : ascii) : bool :=
  Py.isupper c || Py.islower c || Py.isspace c.

(** What the search matches: letters and white space, ending with a
    letter or blank and then a title. *)
Definition role_shape (g : string) : Prop :=
  all_chars letter_or_space g = true
  /\ exists a c t, g = a +:+ String c t
                   /\ mock_agent_service.letter_or_blank c = true /\ is_title t = true.

(** A session without a role, whose job description names one. *)
Definition hiring_session : mock_agent_service.MockSession :=
  {| mock_agent_service.session_id := "s1";
     mock_agent_service.cv_text := "cv";
     mock_agent_service.jd_text := "Hiring: a Senior Data Engineer, remote.";
     mock_agent_service.role := None;
     mock_agent_service.turns := [] |}.

(** What a match covers: a prefix of the text, of the matched length
    and of the shape of a role. *)
Definition covers (s : string) (n : nat) : Prop :=
  exists g r, s = g +:+ r /\ String.length g = n /\ role_shape g.

(** ** Dialogues *)

(** A turn that asks a question ending in a question mark. *)
Definition asked (t : mock_agent_service.MockTurn) : Prop :=
  exists q, mock_agent_service.question t = Some q /\ Py.endswith "?" q = true.

(** The turns of a dialogue in progress: every turn asks a question,
    all but the last hold the answer and its summary, and the last is
    still open. *)
Definition dialogue (ts : list mock_agent_service.MockTurn) : Prop :=
  exists init t,
    ts = init ++ [t]
    /\ Forall (fun u => asked u /\ mock_agent_service.answer u <> None
                        /\ mock_agent_service.summary u <> None) init
    /\ asked t /\ mock_agent_service.answer t = None /\ mock_agent_service.summary t = None.

(** A session as a failed [start_session] leaves it: stored, without a
    turn. *)
Definition unopened_session : mock_agent_service.MockSession :=
  {| mock_agent_service.session_id := "s1";
     mock_agent_service.cv_text := "cv";
     mock_agent_service.jd_text := "jd";
     mock_agent_service.role := None;
     mock_agent_service.turns := [] |}.

(** * Part III: the properties

    Each property of the services is stated on the definitions of Part I
    and proved; the lemmas on strings, lines and timestamps that the
    text formats need come with them. *)

#[local] Set Warnings "-clear-no-such-hyp".

(** ** Strings *)
Section string_facts.

Lemma app_cons (c : ascii) (s t : string) : String c s +:+ t = String c (s +:+ t).
Proof. reflexivity. Qed.

Lemma app_empty_l (t : string) : "" +:+ t = t.
Proof. reflexivity. Qed.

Lemma app_empty_r (s : string) : s +:+ "" = s.
Proof. induction s as [|c s IH]; [reflexivity|]. now rewrite app_cons, IH. Qed.

Lemma app_assoc_s (s t u : string) : (s +:+ t) +:+ u = s +:+ (t +:+ u).
Proof. induction s as [|c s IH]; [reflexivity|]. now rewrite !app_cons, IH. Qed.

Lemma all_chars_app p s t : all_chars p (s +:+ t) = all_chars p s && all_chars p t.
Proof.
  induction s as [|c s IH]; [reflexivity|].
  rewrite app_cons. simpl. now rewrite IH, andb_assoc.
Qed.

Lemma all_chars_impl (p q : ascii -> bool) s :
  (forall c, p c = true -> q c = true) -> all_chars p s = true -> all_chars q s = true.
Proof.
  intros Hpq. induction s as [|c s IH]; [reflexivity|]. simpl.
  intros [Hc Hs]%andb_true_iff. now rewrite (Hpq c Hc), IH.
Qed.

(** *** [strip] *)

Lemma lstrip_nonspace c s : Py.isspace c = false -> Py.lstrip (String c s) = String c s.
Proof. intros H. simpl. now rewrite H. Qed.

Lemma rstrip_nonempty_inv s : Py.rstrip s = "" -> all_chars Py.isspace s = true.
Proof.
  induction s as [|c s IH]; [reflexivity|]. simpl.
  destruct (Py.rstrip s) eqn:E.
  - destruct (Py.isspace c); [intros _; now rewrite IH|discriminate].
  - discriminate.
Qed.

Lemma rstrip_id s :
  match last_char s with Some c => Py.isspace c = false | None => True end ->
  Py.rstrip s = s.
Proof.
  induction s as [|c s IH]; [reflexivity|].
  destruct s as [|c' s'].
  - simpl. intros ->. reflexivity.
  - intros H. change (last_char (String c (String c' s'))) with (last_char (String c' s')) in H.
    specialize (IH H). change (Py.rstrip (String c (String c' s')))
      with (match Py.rstrip (String c' s') with
            | EmptyString => if Py.isspace c then EmptyString else String c EmptyString
            | r => String c r end).
    now rewrite IH.
Qed.

Lemma rstrip_idem s : Py.rstrip (Py.rstrip s) = Py.rstrip s.
Proof.
  induction s as [|c s IH]; [reflexivity|]. simpl.
  destruct (Py.rstrip s) as [|c' r] eqn:E.
  - destruct (Py.isspace c) eqn:Hc; [reflexivity|]. simpl. now rewrite Hc.
  - change (Py.rstrip (String c (String c' r)))
      with (match Py.rstrip (String c' r) with
            | EmptyString => if Py.isspace c then EmptyString else String c EmptyString
            | r0 => String c r0 end).
    now rewrite IH.
Qed.

Lemma rstrip_last s :
  match last_char (Py.rstrip s) with Some c => Py.isspace c = false | None => True end.
Proof.
  induction s as [|c s IH]; [exact I|]. simpl.
  destruct (Py.rstrip s) as [|c' r] eqn:E.
  - destruct (Py.isspace c) eqn:Hc; simpl; auto.
  - exact IH.
Qed.

Lemma stripped_intro c s :
  Py.isspace c = false ->
  match last_char (String c s) with Some c' => Py.isspace c' = false | None => True end ->
  stripped (String c s).
Proof.
  intros Hc Hl. unfold stripped, Py.strip. rewrite lstrip_nonspace by assumption.
  now apply rstrip_id.
Qed.

Lemma lstrip_first s :
  match Py.lstrip s with String c _ => Py.isspace c = false | EmptyString => True end.
Proof.
  induction s as [|c s IH]; [exact I|]. simpl.
  destruct (Py.isspace c) eqn:Hc; [exact IH|exact Hc].
Qed.

Lemma rstrip_first c s :
  Py.isspace c = false -> exists r, Py.rstrip (String c s) = String c r.
Proof.
  intros Hc. simpl. destruct (Py.rstrip s); rewrite ?Hc; eauto.
Qed.

Lemma strip_stripped s : stripped (Py.strip s).
Proof.
  unfold stripped, Py.strip.
  pose proof (lstrip_first s) as Hf.
  destruct (Py.lstrip s) as [|c r] eqn:E; [reflexivity|].
  destruct (rstrip_first c r Hf) as [r' Hr]. rewrite Hr.
  rewrite lstrip_nonspace by assumption. rewrite <- Hr. apply rstrip_idem.
Qed.

Lemma stripped_first s :
  stripped s ->
  match s with String c _ => Py.isspace c = false | EmptyString => True end.
Proof.
  unfold stripped, Py.strip. intros H.
  pose proof (lstrip_first s) as Hf.
  destruct s as [|c r]; [exact I|].
  destruct (Py.isspace c) eqn:Hc; [|reflexivity].
  exfalso. simpl in H, Hf. rewrite Hc in H, Hf.
  assert (Hlen : forall t, String.length (Py.rstrip t) <= String.length t).
  { clear. induction t as [|c t IH]; simpl; [lia|].
    destruct (Py.rstrip t); [destruct (Py.isspace c)|]; simpl in *; lia. }
  assert (Hlen2 : forall t, String.length (Py.lstrip t) <= String.length t).
  { clear. induction t as [|c t IH]; simpl; [lia|].
    destruct (Py.isspace c); simpl; lia. }
  pose proof (Hlen (Py.lstrip r)). pose proof (Hlen2 r).
  rewrite H in *. simpl in *. lia.
Qed.

Lemma stripped_last s :
  stripped s ->
  match last_char s with Some c => Py.isspace c = false | None => True end.
Proof. unfold stripped, Py.strip. intros <-. apply rstrip_last. Qed.

(** *** [startswith] and [contains] *)

Lemma startswith_app p s : Py.startswith p (p +:+ s) = true.
Proof.
  induction p as [|c p IH]; [reflexivity|]. rewrite app_cons. simpl.
  now rewrite Ascii.eqb_refl.
Qed.

Lemma startswith_inv p s : Py.startswith p s = true -> exists r, s = p +:+ r.
Proof.
  revert s. induction p as [|c p IH]; intros s H.
  - exists s. reflexivity.
  - destruct s as [|c' s]; [discriminate|]. simpl in H.
    destruct (Ascii.eqb_spec c c') as [->|]; [|discriminate].
    destruct (IH s H) as [r ->]. exists r. reflexivity.
Qed.

Lemma contains_app_r p s t : Py.contains p t = true -> Py.contains p (s +:+ t) = true.
Proof.
  intros H. induction s as [|c s IH]; [exact H|].
  rewrite app_cons. simpl. rewrite IH. apply orb_true_r.
Qed.

Lemma contains_inv p s : Py.contains p s = true -> exists a b, s = a +:+ p +:+ b.
Proof.
  induction s as [|c s IH]; simpl.
  - rewrite orb_false_r. intros H. destruct (startswith_inv _ _ H) as [r Hr].
    exists "", r. exact Hr.
  - intros [H|H]%orb_true_iff.
    + destruct (startswith_inv _ _ H) as [r Hr]. exists "", r. exact Hr.
    + destruct (IH H) as (a & b & ->). exists (String c a), b. reflexivity.
Qed.

Lemma contains_intro p a b : Py.contains p (a +:+ p +:+ b) = true.
Proof.
  apply contains_app_r. destruct (p +:+ b) eqn:E; simpl.
  - rewrite <- E, startswith_app. reflexivity.
  - rewrite <- E, startswith_app. reflexivity.
Qed.

Lemma contains_app_l p s t : Py.contains p s = true -> Py.contains p (s +:+ t) = true.
Proof.
  intros H. destruct (contains_inv _ _ H) as (a & b & ->).
  rewrite !app_assoc_s. apply contains_intro.
Qed.
End string_facts.

(** ** Lines *)

Section lines.

Lemma splitlines_nonempty c s : Py.splitlines (String c s) <> [].
Proof.
  cbn [Py.splitlines]. destruct (Py.islinebreak c); [discriminate|].
  destruct (Py.splitlines s); discriminate.
Qed.


Lemma splitlines_app_LF_aux (n : nat) :
  forall x b, (String.length x <= n)%nat ->
    Py.splitlines (x +:+ String "010" b)
    = Py.splitlines (x +:+ String "010" "") ++ Py.splitlines b.
Proof.
  induction n as [|n IH]; intros x b Hlen.
  - destruct x; [|simpl in Hlen; lia]. destruct b; reflexivity.
  - destruct x as [|c x]; [destruct b; reflexivity|].
    simpl in Hlen. rewrite !app_cons. cbn [Py.splitlines].
    destruct (Py.islinebreak c) eqn:Hc.
    + destruct x as [|c' x].
      * rewrite !app_empty_l.
        destruct (Ascii.eqb c "013"); cbn [andb Ascii.eqb Bool.eqb Py.splitlines];
          [reflexivity|].
        change (Py.islinebreak "010") with true. cbv iota.
        destruct b; reflexivity.
      * rewrite !app_cons.
        destruct (Ascii.eqb c "013" && Ascii.eqb c' "010").
        -- rewrite (IH x b) by (simpl in Hlen; lia). reflexivity.
        -- rewrite <- !app_cons. rewrite (IH (String c' x) b) by lia. reflexivity.
    + rewrite (IH x b) by lia.
      destruct (Py.splitlines (x +:+ String "010" "")) as [|l ls] eqn:E.
      * exfalso. destruct x; [discriminate E|].
        rewrite app_cons in E. now apply splitlines_nonempty in E.
      * reflexivity.
Qed.

Lemma splitlines_app_LF x b :
  Py.splitlines ((x +:+ LF) +:+ b) = lines_of x ++ Py.splitlines b.
Proof.
  unfold lines_of, LF. rewrite app_assoc_s, app_cons, app_empty_l.
  now apply (splitlines_app_LF_aux (String.length x)).
Qed.

Lemma lines_of_line x : no_linebreak x -> lines_of x = [x].
Proof.
  unfold no_linebreak, lines_of, LF. induction x as [|c x IH]; [reflexivity|].
  cbn [all_chars]. intros [Hc Hx]%andb_true_iff.
  rewrite app_cons. cbn [Py.splitlines].
  apply negb_true_iff in Hc. rewrite Hc, (IH Hx). reflexivity.
Qed.






(** *** Stripping a text followed by white space *)

Lemma rstrip_spaces w : all_chars Py.isspace w = true -> Py.rstrip w = "".
Proof.
  induction w as [|c w IH]; [reflexivity|]. cbn [all_chars].
  intros [Hc Hw]%andb_true_iff. cbn [Py.rstrip]. now rewrite (IH Hw), Hc.
Qed.

Lemma rstrip_app_spaces q w :
  all_chars Py.isspace w = true -> Py.rstrip (q +:+ w) = Py.rstrip q.
Proof.
  intros Hw. induction q as [|c q IH]; [now apply rstrip_spaces|].
  rewrite app_cons. cbn [Py.rstrip]. now rewrite IH.
Qed.

Lemma strip_app_spaces q w :
  stripped q -> all_chars Py.isspace w = true -> Py.strip (q +:+ w) = q.
Proof.
  intros Hq Hw. destruct q as [|c q].
  - rewrite app_empty_l. unfold Py.strip.
    assert (E : Py.lstrip w = "").
    { clear Hq. induction w as [|c w IH]; [reflexivity|]. cbn [all_chars] in Hw.
      apply andb_true_iff in Hw as [Hc Hw]. cbn [Py.lstrip]. now rewrite Hc, IH. }
    now rewrite E.
  - pose proof (stripped_first _ Hq) as Hc. cbn in Hc.
    unfold Py.strip. rewrite app_cons, lstrip_nonspace by assumption.
    rewrite <- app_cons, rstrip_app_spaces by assumption.
    unfold stripped, Py.strip in Hq. now rewrite lstrip_nonspace in Hq by assumption.
Qed.

Lemma last_char_app a c b : last_char (a +:+ String c b) = last_char (String c b).
Proof.
  induction a as [|x a IH]; [reflexivity|]. rewrite app_cons.
  destruct (a +:+ String c b) eqn:E.
  - destruct a; discriminate E.
  - rewrite <- IH. reflexivity.
Qed.
End lines.

(** ** Decimal numerals and timestamps *)

Section digits.

Lemma isdigit_digit_char (d : Z) : (0 <= d < 10)%Z -> Py.isdigit (Py.digit_char d) = true.
Proof.
  intros Hd. assert (H : exists n : nat, (n < 10)%nat /\ d = Z.of_nat n).
  { exists (Z.to_nat d). lia. }
  destruct H as (n & Hn & ->).
  do 10 (destruct n as [|n]; [reflexivity|]). lia.
Qed.

Lemma digit_val_digit_char (d : Z) : (0 <= d < 10)%Z -> Py.digit_val (Py.digit_char d) = d.
Proof.
  intros Hd. assert (H : exists n : nat, (n < 10)%nat /\ d = Z.of_nat n).
  { exists (Z.to_nat d). lia. }
  destruct H as (n & Hn & ->).
  do 10 (destruct n as [|n]; [reflexivity|]). lia.
Qed.

Lemma pad_digits_app k n acc : Py.pad_digits k n acc = Py.pad_digits k n "" +:+ acc.
Proof.
  revert n acc. induction k as [|k IH]; intros n acc; [reflexivity|].
  cbn [Py.pad_digits]. rewrite (IH _ (String _ acc)), (IH _ (String _ "")).
  now rewrite app_assoc_s.
Qed.

Lemma pad_digits_all_digits k n : all_chars Py.isdigit (Py.pad_digits k n "") = true.
Proof.
  revert n. induction k as [|k IH]; intros n; [reflexivity|].
  cbn [Py.pad_digits]. rewrite pad_digits_app, all_chars_app, IH. cbn [all_chars].
  rewrite isdigit_digit_char; [reflexivity|]. apply Z.mod_pos_bound. lia.
Qed.





Lemma truthy_app_r a c b : Py.truthy (a +:+ String c b) = true.
Proof. destruct a; reflexivity. Qed.

Lemma truthy_app_l a b : Py.truthy a = true -> Py.truthy (a +:+ b) = true.
Proof. destruct a; [discriminate|reflexivity]. Qed.



Lemma isoformat_chars d : all_chars iso_char (datetime.isoformat d) = true.
Proof.
  unfold datetime.isoformat.
  assert (Hd : forall k n, all_chars iso_char (Py.pad_digits k n "") = true).
  { intros k n. apply (all_chars_impl Py.isdigit); [|apply pad_digits_all_digits].
    intros c Hc. unfold iso_char. now rewrite Hc. }
  rewrite !all_chars_app, !Hd. cbn [andb].
  destruct (datetime.microsecond d =? 0)%Z; [reflexivity|].
  rewrite all_chars_app, Hd. reflexivity.
Qed.

Lemma iso_char_facts c :
  iso_char c = true ->
  Py.islinebreak c = false /\ Py.isspace c = false /\ Ascii.eqb c ")" = false
  /\ not_blank_tab c = true.
Proof.
  unfold iso_char, Py.isdigit. intros H.
  destruct c as [[] [] [] [] [] [] [] []]; try discriminate H; repeat split.
Qed.
End digits.

(** ** Dates *)

Section datetime_facts.
Local Open Scope Z_scope.

Lemma days_before_year_mono y1 y2 :
  1 <= y1 <= y2 -> datetime.days_before_year y1 <= datetime.days_before_year y2.
Proof. unfold datetime.days_before_year. intros H. Z.div_mod_to_equations. lia. Qed.

Lemma days_before_year_step y :
  1 <= y -> datetime.days_before_year y + 365 + (if datetime.is_leap y then 1 else 0)
            = datetime.days_before_year (y + 1).
Proof.
  unfold datetime.days_before_year, datetime.is_leap. intros H.
  replace (y + 1 - 1) with y by lia.
  destruct (y mod 4 =? 0) eqn:E4; destruct (y mod 100 =? 0) eqn:E100;
    destruct (y mod 400 =? 0) eqn:E400; cbn [andb orb negb];
    rewrite ?Z.eqb_eq, ?Z.eqb_neq in *; Z.div_mod_to_equations; lia.
Qed.
End datetime_facts.

Section iso_roundtrip.
Local Open Scope Z_scope.

Lemma valid_inv d :
  datetime.valid d = true ->
  1 <= datetime.year d <= 9999 /\ 1 <= datetime.month d <= 12
  /\ 1 <= datetime.day d <= datetime.days_in_month (datetime.year d) (datetime.month d)
  /\ 0 <= datetime.hour d <= 23 /\ 0 <= datetime.minute d <= 59
  /\ 0 <= datetime.second d <= 59 /\ 0 <= datetime.microsecond d <= 999999.
Proof.
  unfold datetime.valid. rewrite !andb_true_iff, !Z.leb_le. tauto.
Qed.

Ltac month_case :=
  cbn in *;
  match goal with |- context [datetime.is_leap ?y] => destruct (datetime.is_leap y) end;
  cbn in *; lia.

Lemma day_of_year_bound y m dd :
  1 <= m <= 12 -> 1 <= dd <= datetime.days_in_month y m ->
  0 <= datetime.days_before_month y m + (dd - 1)
    <= 364 + (if datetime.is_leap y then 1 else 0).
Proof.
  intros Hm Hd.
  assert (Hc : m = 1 \/ m = 2 \/ m = 3 \/ m = 4 \/ m = 5 \/ m = 6 \/ m = 7 \/ m = 8
               \/ m = 9 \/ m = 10 \/ m = 11 \/ m = 12) by lia.
  unfold datetime.days_before_month.
  repeat (destruct Hc as [->|Hc]; [month_case|]).
  subst m. month_case.
Qed.

Lemma to_micro_range d :
  datetime.valid d = true -> 0 <= datetime.to_micro d <= datetime.max_micro.
Proof.
  intros (Hy & Hm & Hd & Hh & Hmi & Hs & Hus)%valid_inv.
  pose proof (day_of_year_bound _ _ _ Hm Hd) as Hdoy.
  pose proof (days_before_year_step (datetime.year d) ltac:(lia)) as Hstep.
  pose proof (days_before_year_mono 1 (datetime.year d) ltac:(lia)) as Hlo.
  pose proof (days_before_year_mono (datetime.year d + 1) 10000 ltac:(lia)) as Hhi.
  change (datetime.days_before_year 1) with 0 in Hlo.
  change (datetime.days_before_year 10000) with 3652059 in Hhi.
  change datetime.max_micro with 315537897599999999.
  unfold datetime.to_micro.
  set (days := datetime.days_before_year (datetime.year d)
               + datetime.days_before_month (datetime.year d) (datetime.month d)
               + (datetime.day d - 1)).
  assert (0 <= days <= 3652058) by (subst days; destruct (datetime.is_leap _); lia).
  lia.
Qed.

(** Reading back the digits that the padded formats write. *)
Lemma take_digits_S k :
  forall acc s,
    datetime.take_digits (S k) acc s =
    match datetime.take_digits k acc s with
    | Some (v, String c r) =>
        if Py.isdigit c then Some (v * 10 + Py.digit_val c, r) else None
    | _ => None
    end.
Proof.
  induction k as [|k IH]; intros acc s.
  - cbn [datetime.take_digits]. destruct s as [|c r]; [reflexivity|].
    now destruct (Py.isdigit c).
  - change (datetime.take_digits (S (S k)) acc s)
      with (match s with
            | String c s' =>
                if Py.isdigit c
                then datetime.take_digits (S k) (acc * 10 + Py.digit_val c) s'
                else None
            | EmptyString => None
            end).
    destruct s as [|c s']; [reflexivity|]. cbn [datetime.take_digits].
    destruct (Py.isdigit c); [|reflexivity]. apply IH.
Qed.

Lemma take_digits_pad k :
  forall n acc r,
    0 <= n < 10 ^ Z.of_nat k ->
    datetime.take_digits k acc (Py.pad_digits k n "" +:+ r)
    = Some (acc * 10 ^ Z.of_nat k + n, r).
Proof.
  induction k as [|k IH]; intros n acc r Hn.
  - cbn in *. f_equal. f_equal. lia.
  - rewrite take_digits_S. cbn [Py.pad_digits].
    rewrite pad_digits_app, app_assoc_s, app_cons, app_empty_l.
    assert (Hpow : 10 ^ Z.of_nat (S k) = 10 * 10 ^ Z.of_nat k).
    { rewrite Nat2Z.inj_succ, Z.pow_succ_r by lia. reflexivity. }
    rewrite IH by (rewrite Hpow in Hn; Z.div_mod_to_equations; lia).
    assert (Hd : 0 <= n mod 10 < 10) by (apply Z.mod_pos_bound; lia).
    rewrite isdigit_digit_char, digit_val_digit_char by assumption.
    f_equal. f_equal. rewrite Hpow. Z.div_mod_to_equations. lia.
Qed.

Lemma pad_digits_length k : forall n, String.length (Py.pad_digits k n "") = k.
Proof.
  induction k as [|k IH]; intros n; [reflexivity|].
  cbn [Py.pad_digits]. rewrite pad_digits_app.
  assert (Hlen : forall a b, String.length (a +:+ b)
                             = (String.length a + String.length b)%nat).
  { clear. induction a as [|c a IHa]; intros b; [reflexivity|].
    rewrite app_cons. simpl. now rewrite IHa. }
  rewrite Hlen, IH. simpl. lia.
Qed.
End iso_roundtrip.

(** ** Rounding and clamping *)

Section round_facts.
Local Open Scope R_scope.

Lemma round_half_even_IZR (z : Z) : Py.round_half_even (IZR z) = z.
Proof.
  unfold Py.round_half_even. rewrite ZfloorZ.
  destruct (Rlt_dec (IZR z - IZR z) (1 / 2)) as [_|H]; [reflexivity|].
  exfalso. apply H. lra.
Qed.

Lemma round_half_even_bounds (y : R) :
  (Zfloor y <= Py.round_half_even y <= Zfloor y + 1)%Z.
Proof.
  unfold Py.round_half_even.
  repeat match goal with |- context [if ?c then _ else _] => destruct c end; lia.
Qed.

Lemma round_half_even_mono (x y : R) :
  x <= y -> (Py.round_half_even x <= Py.round_half_even y)%Z.
Proof.
  intros Hxy.
  pose proof (Zfloor_le x y Hxy) as Hf.
  destruct (Z.eq_dec (Zfloor x) (Zfloor y)) as [Heq|Hne].
  - unfold Py.round_half_even. rewrite Heq.
    repeat match goal with |- context [if ?c then _ else _] => destruct c end;
      try lia; exfalso; lra.
  - pose proof (round_half_even_bounds x). pose proof (round_half_even_bounds y). lia.
Qed.

Lemma pow10_pos (n : nat) : 0 < 10 ^ n.
Proof. apply pow_lt. lra. Qed.

Lemma round_mono (n : nat) (x y : R) : x <= y -> Py.round x n <= Py.round y n.
Proof.
  intros Hxy. unfold Py.round.
  pose proof (pow10_pos n) as Hp.
  apply Rmult_le_compat_r; [left; now apply Rinv_0_lt_compat|].
  apply IZR_le, round_half_even_mono.
  apply Rmult_le_compat_r; lra.
Qed.


Lemma round_IZR (n : nat) (z : Z) : Py.round (IZR z) n = IZR z.
Proof.
  unfold Py.round. pose proof (pow10_pos n) as Hp.
  replace (IZR z * 10 ^ n) with (IZR (z * 10 ^ Z.of_nat n)).
  - rewrite round_half_even_IZR. rewrite mult_IZR.
    rewrite <- (pow_IZR 10 n). field. lra.
  - rewrite mult_IZR. now rewrite <- (pow_IZR 10 n).
Qed.

Lemma round_range (n : nat) (x : R) : 0 <= x <= 10 -> 0 <= Py.round x n <= 10.
Proof.
  intros [H0 H10]. split.
  - rewrite <- (round_IZR n 0). now apply round_mono.
  - rewrite <- (round_IZR n 10). now apply round_mono.
Qed.

Lemma clamp_range (x : R) : 0 <= _clamp_0_10 x <= 10.
Proof.
  unfold _clamp_0_10. split.
  - apply Rmax_l.
  - apply Rmax_lub; [lra|apply Rmin_l].
Qed.

Lemma clamp_mono (x y : R) : x <= y -> _clamp_0_10 x <= _clamp_0_10 y.
Proof.
  intros H. unfold _clamp_0_10.
  apply Rle_max_compat_l, Rle_min_compat_l, H.
Qed.

End round_facts.

(** ** Label counts and ratios *)

Lemma sum_values_insert_fresh (m : gmap string Z) k v :
  m !! k = None -> sum_values (<[k := v]> m) = (v + sum_values m)%Z.
Proof.
  intros H. unfold sum_values.
  rewrite map_fold_insert_L; [reflexivity| |assumption].
  intros. lia.
Qed.

Lemma sum_values_count_into (m : gmap string Z) k :
  sum_values (count_into m k) = (sum_values m + 1)%Z.
Proof.
  unfold count_into. destruct (m !! k) as [v|] eqn:Hk; simpl.
  - rewrite <- (insert_delete_eq m k (v + 1)%Z).
    rewrite sum_values_insert_fresh by apply lookup_delete_eq.
    rewrite <- (insert_id m k v Hk) at 2.
    rewrite <- (insert_delete_eq m k v).
    rewrite sum_values_insert_fresh by apply lookup_delete_eq. lia.
  - rewrite sum_values_insert_fresh by assumption. lia.
Qed.

Lemma sum_values_foldl (l : list EmotionEvent) (m : gmap string Z) :
  sum_values (foldl (fun counts e => count_into counts (label_of e)) m l)
  = (sum_values m + Z.of_nat (length l))%Z.
Proof.
  revert m. induction l as [|e l IH]; intros m; simpl.
  - lia.
  - rewrite IH, sum_values_count_into. lia.
Qed.

Lemma sum_values_counts_of l : sum_values (counts_of l) = Z.of_nat (length l).
Proof.
  unfold counts_of. rewrite sum_values_foldl.
  unfold sum_values. rewrite map_fold_empty. lia.
Qed.

Lemma lookup_count_into (m : gmap string Z) k j :
  count_into m k !! j =
  if decide (k = j) then Some (default 0 (m !! k) + 1)%Z else m !! j.
Proof. unfold count_into. apply lookup_insert. Qed.

Lemma lookup_foldl_count (l : list EmotionEvent) (m : gmap string Z) k :
  default 0%Z (foldl (fun counts e => count_into counts (label_of e)) m l !! k)
  = (default 0 (m !! k) + label_count k l)%Z.
Proof.
  revert m. induction l as [|e l IH]; intros m; simpl.
  - unfold label_count. simpl. lia.
  - rewrite IH, lookup_count_into. unfold label_count.
    rewrite filter_cons. destruct (decide (label_of e = k)) as [->|Hne]; simpl; lia.
Qed.

Lemma lookup_counts_of l k : default 0%Z (counts_of l !! k) = label_count k l.
Proof. unfold counts_of. rewrite lookup_foldl_count, lookup_empty. simpl. lia. Qed.

Lemma label_count_nonneg k l : (0 <= label_count k l)%Z.
Proof. unfold label_count. lia. Qed.

Lemma label_count_le k l : (label_count k l <= Z.of_nat (length l))%Z.
Proof. unfold label_count. pose proof (length_filter (fun e => label_of e = k) l). lia. Qed.

Lemma get_ratio_counts_of l k :
  get_ratio ((fun v => IZR v / IZR (sum_values (counts_of l)))%R <$> counts_of l) k
  = label_ratio k l.
Proof.
  unfold get_ratio, label_ratio. rewrite lookup_fmap, sum_values_counts_of.
  pose proof (lookup_counts_of l k) as H.
  destruct (counts_of l !! k) as [v|]; simpl in *.
  - now rewrite H.
  - rewrite <- H. unfold Rdiv. now rewrite Rmult_0_l.
Qed.

(** ** The emotion score *)

Section scorer.
Local Open Scope R_scope.

Lemma score_nonempty (events : list EmotionEvent) :
  events <> [] ->
  fst (score_emotion_face_base10 events)
  = Py.round (Rmax 0 (Rmin 10 (raw_score_of events))) 2.
Proof.
  intros Hne. destruct events as [|e l]; [congruence|].
  unfold score_emotion_face_base10.
  change (foldl (fun counts e0 => count_into counts (Py.strip (Py.lower (emotion e0)))) ∅ (e :: l))
    with (counts_of (e :: l)).
  cbv zeta. cbn [fst].
  rewrite !get_ratio_counts_of.
  unfold raw_score_of, raw_score. f_equal. f_equal. f_equal. lra.
Qed.

End scorer.

Section scorer_claims.
Local Open Scope R_scope.


Lemma raw_score_mono_neg a1 a2 d1 d2 f1 f2 s1 s2 h n su :
  a1 <= a2 -> d1 <= d2 -> f1 <= f2 -> s1 <= s2 ->
  raw_score a2 d2 f2 s2 h n su <= raw_score a1 d1 f1 s1 h n su.
Proof. intros. unfold raw_score. lra. Qed.

Lemma raw_score_mono_pos a d f s h1 h2 n1 n2 su1 su2 :
  h1 <= h2 -> n1 <= n2 -> su1 <= su2 ->
  raw_score a d f s h1 n1 su1 <= raw_score a d f s h2 n2 su2.
Proof. intros. unfold raw_score. lra. Qed.

Lemma score_of_raw_mono (ev1 ev2 : list EmotionEvent) :
  ev1 <> [] -> ev2 <> [] ->
  raw_score_of ev1 <= raw_score_of ev2 ->
  fst (score_emotion_face_base10 ev1) <= fst (score_emotion_face_base10 ev2).
Proof.
  intros H1 H2 Hle. rewrite !score_nonempty by assumption.
  apply round_mono. now apply (clamp_mono (raw_score_of ev1) (raw_score_of ev2)).
Qed.

Ltac by_ratio_cases :=
  repeat match goal with
         | H : _ = _ \/ _ |- _ => destruct H as [H|H]; [try discriminate H|]
         end; lra.

(** Claim C8.  Between two non-empty event lists that agree on the
    ratios of all categories but one, the emotion score does not
    increase with the ratio of a negative category and does not decrease
    with the ratio of a positive category. *)
Theorem score_monotone (c : string) (ev1 ev2 : list EmotionEvent) :
  ev1 <> [] -> ev2 <> [] ->
  (forall k, k ∈ categories -> k <> c -> label_ratio k ev1 = label_ratio k ev2) ->
  label_ratio c ev1 <= label_ratio c ev2 ->
  (c ∈ negative_categories ->
   fst (score_emotion_face_base10 ev2) <= fst (score_emotion_face_base10 ev1))
  /\ (c ∈ positive_categories ->
      fst (score_emotion_face_base10 ev1) <= fst (score_emotion_face_base10 ev2)).
Proof.
  intros H1 H2 Hsame Hle.
  assert (Hall : forall k, In k categories ->
                           (k = c \/ label_ratio k ev1 = label_ratio k ev2)).
  { intros k Hk. destruct (decide (k = c)); [now left|right].
    apply Hsame; [now apply list_elem_of_In|assumption]. }
  assert (Ha := Hall "angry" ltac:(simpl; tauto)).
  assert (Hd := Hall "disgust" ltac:(simpl; tauto)).
  assert (Hf := Hall "fear" ltac:(simpl; tauto)).
  assert (Hs := Hall "sad" ltac:(simpl; tauto)).
  assert (Hh := Hall "happy" ltac:(simpl; tauto)).
  assert (Hn := Hall "neutral" ltac:(simpl; tauto)).
  assert (Hu := Hall "surprise" ltac:(simpl; tauto)).
  clear Hall Hsame.
  split; intros Hc; apply list_elem_of_In in Hc; simpl in Hc;
    apply score_of_raw_mono; try assumption; unfold raw_score_of, raw_score;
    repeat (destruct Hc as [<-|Hc]; [|]); try contradiction;
    by_ratio_cases.
Qed.
End scorer_claims.

Lemma score_monotone_witness :
  let ev1 := [{| ts := 0; emotion := "happy" |}; {| ts := 1; emotion := "none" |}] in
  let ev2 := [{| ts := 0; emotion := "happy" |}; {| ts := 1; emotion := "angry" |}] in
  ("angry" ∈ negative_categories ->
   (fst (score_emotion_face_base10 ev2) <= fst (score_emotion_face_base10 ev1))%R)
  /\ ("angry" ∈ positive_categories ->
      (fst (score_emotion_face_base10 ev1) <= fst (score_emotion_face_base10 ev2))%R).
Proof.
  cbv zeta. apply (score_monotone "angry").
  - discriminate.
  - discriminate.
  - intros k Hk%list_elem_of_In Hne. unfold label_ratio.
    simpl in Hk. repeat (destruct Hk as [<-|Hk]; [try congruence; reflexivity|]).
    contradiction.
  - unfold label_ratio.
    change (label_count "angry" [{| ts := 0; emotion := "happy" |}; {| ts := 1; emotion := "none" |}])
      with 0%Z.
    change (label_count "angry" [{| ts := 0; emotion := "happy" |}; {| ts := 1; emotion := "angry" |}])
      with 1%Z.
    cbn [length]. change (Z.of_nat 2) with 2%Z. lra.
Defined.

(** ** Score fusion and the data-sufficiency terms *)

Section fusion.
Local Open Scope R_scope.


End fusion.

Section sufficiency.
Local Open Scope R_scope.



Lemma float_pow_range x y : 0 <= x <= 1 -> 0 < y -> 0 <= float_pow x y <= 1.
Proof.
  intros [H0 H1] Hy. unfold float_pow. destruct (Req_dec_T x 0); [lra|].
  unfold Rpower. split; [left; apply exp_pos|].
  rewrite <- exp_0. destruct (Rle_lt_or_eq_dec _ _ H1) as [Hlt| ->].
  - left. apply exp_increasing.
    assert (ln x < 0) by (rewrite <- ln_1; apply ln_increasing; lra).
    nra.
  - rewrite ln_1, Rmult_0_r. lra.
Qed.

Lemma ratio_range n : (0 <= n)%Z -> 0 <= ratio n <= 1.
Proof.
  intros Hn. unfold ratio, MIN_REQUIRED. apply IZR_le in Hn.
  split; [|apply Rmin_l].
  apply Rmin_glb; lra.
Qed.


Lemma coverage_range n : (0 <= n)%Z -> 0 <= coverage n <= 1.
Proof.
  intros Hn. unfold coverage, P. apply float_pow_range; [now apply ratio_range|lra].
Qed.


Lemma bonus_range n : (10 < n)%Z -> 0 < bonus n < 0.8.
Proof.
  intros Hn. unfold bonus, MIN_REQUIRED, BONUS_MAX, K.
  destruct (Z.ltb_spec 10 n) as [_|]; [|lia].
  assert (Hd : 0 < IZR (n - 10)) by (apply IZR_lt; lia).
  assert (He : exp (- IZR (n - 10) / 10) < 1).
  { rewrite <- exp_0. apply exp_increasing. lra. }
  pose proof (exp_pos (- IZR (n - 10) / 10)). lra.
Qed.

Lemma bonus_none n : (n <= 10)%Z -> bonus n = 0.
Proof.
  intros Hn. unfold bonus, MIN_REQUIRED. destruct (Z.ltb_spec 10 n); [lia|reflexivity].
Qed.

Lemma total_w_pos w_k w_a : 0 <= w_k -> 0 <= w_a -> 0 < total_w w_k w_a.
Proof. intros. unfold total_w. destruct (Req_dec_T (w_k + w_a) 0); lra. Qed.

End sufficiency.

(** ** The data-sufficiency adjuster *)

Section sufficiency_main.
Local Open Scope R_scope.


End sufficiency_main.

(** ** Substrings and the patterns of the emotion log *)

Section substrings.

Lemma substring_of_refl s : substring_of s s.
Proof. exists "", "". now rewrite app_empty_r. Qed.

Lemma substring_of_trans x y z : substring_of x y -> substring_of y z -> substring_of x z.
Proof.
  intros (a & b & ->) (c & d & ->). exists (c +:+ a), (b +:+ d).
  now rewrite !app_assoc_s.
Qed.

Lemma substring_of_cons c x s : substring_of x s -> substring_of x (String c s).
Proof. intros (a & b & ->). exists (String c a), b. reflexivity. Qed.

Lemma contains_substring p x s :
  substring_of x s -> Py.contains p x = true -> Py.contains p s = true.
Proof.
  intros (a & b & ->) H. apply contains_app_r, contains_app_l, H.
Qed.

Lemma lstrip_substring s : substring_of (Py.lstrip s) s.
Proof.
  induction s as [|c s IH]; [apply substring_of_refl|]. simpl.
  destruct (Py.isspace c); [now apply substring_of_cons|apply substring_of_refl].
Qed.

Lemma rstrip_prefix s : exists b, s = Py.rstrip s +:+ b.
Proof.
  induction s as [|c s [b IH]]; [now exists ""|]. simpl.
  destruct (Py.rstrip s) as [|c' r] eqn:E.
  - destruct (Py.isspace c).
    + now exists (String c s).
    + exists b. rewrite IH at 1. reflexivity.
  - exists b. rewrite IH at 1. reflexivity.
Qed.

Lemma rstrip_substring s : substring_of (Py.rstrip s) s.
Proof. destruct (rstrip_prefix s) as [b Hb]. exists "", b. exact Hb. Qed.

Lemma strip_substring s : substring_of (Py.strip s) s.
Proof.
  unfold Py.strip. eapply substring_of_trans; [apply rstrip_substring|apply lstrip_substring].
Qed.

Lemma startswith_replace_char a b p s :
  all_chars (fun c => negb (Ascii.eqb c b)) p = true ->
  Py.startswith p (Py.replace_char a b s) = true -> Py.startswith p s = true.
Proof.
  revert s. induction p as [|c p IH]; intros s Hp H; [reflexivity|].
  destruct s as [|c' s]; [discriminate|].
  cbn [all_chars] in Hp. apply andb_true_iff in Hp as [Hc Hp].
  cbn [Py.replace_char Py.startswith] in H. cbn [Py.startswith].
  destruct (Ascii.eqb_spec c' a) as [->|Hne].
  - destruct (Ascii.eqb_spec c b); discriminate.
  - destruct (Ascii.eqb c c'); [now apply IH|discriminate].
Qed.

Lemma contains_replace_char a b p s :
  all_chars (fun c => negb (Ascii.eqb c b)) p = true ->
  Py.contains p (Py.replace_char a b s) = true -> Py.contains p s = true.
Proof.
  intros Hp. induction s as [|c s IH].
  - simpl. intros H. exact H.
  - intros H.
    change (Py.contains p (Py.replace_char a b (String c s)))
      with (Py.startswith p (Py.replace_char a b (String c s))
            || Py.contains p (Py.replace_char a b s)) in H.
    apply orb_true_iff in H as [H|H].
    + simpl. now rewrite (startswith_replace_char a b p (String c s) Hp H).
    + simpl. rewrite (IH H). apply orb_true_r.
Qed.

(** The pieces of [re.split] occur in the string, the first one at its
    start. *)
Lemma re_split_ws_go_pieces f s :
  match Py.re_split_ws_go f s with
  | [] => False
  | l :: ls =>
      (exists a b, s = a +:+ l +:+ b /\ (f = false -> a = ""))
      /\ Forall (fun x => substring_of x s) ls
  end.
Proof.
  revert f. induction s as [|c s IH]; intros f.
  - simpl. split; [exists "", ""; auto|constructor].
  - simpl. destruct (Py.isspace c).
    + destruct f.
      * specialize (IH true). destruct (Py.re_split_ws_go true s) as [|l ls]; [exact IH|].
        destruct IH as [(a & b & E & _) Hls]. split.
        -- exists (String c a), b. split; [now rewrite E at 1|discriminate].
        -- eapply Forall_impl; [exact Hls|]. intros x. apply substring_of_cons.
      * split; [exists "", (String c s); auto|].
        specialize (IH true). destruct (Py.re_split_ws_go true s) as [|l ls]; [destruct IH|].
        destruct IH as [(a & b & E & _) Hls]. constructor.
        -- apply substring_of_cons. now exists a, b.
        -- eapply Forall_impl; [exact Hls|]. intros x. apply substring_of_cons.
    + specialize (IH false). destruct (Py.re_split_ws_go false s) as [|l ls]; [destruct IH|].
      destruct IH as [(a & b & E & Ha) Hls]. rewrite (Ha eq_refl) in E. split.
      * exists "", b. split; [now rewrite E at 1|auto].
      * eapply Forall_impl; [exact Hls|]. intros x. apply substring_of_cons.
Qed.

Lemma re_split_ws_pieces s x : In x (Py.re_split_ws s) -> substring_of x s.
Proof.
  unfold Py.re_split_ws. pose proof (re_split_ws_go_pieces false s) as H.
  destruct (Py.re_split_ws_go false s) as [|l ls]; [destruct H|].
  destruct H as [(a & b & E & _) Hls]. intros [<-|Hin].
  - now exists a, b.
  - exact (proj1 (List.Forall_forall _ _) Hls x Hin).
Qed.

Lemma last_In {A} (l : list A) (d : A) : l <> [] -> In (List.last l d) l.
Proof.
  induction l as [|x l IH]; [congruence|]. intros _.
  destruct l as [|y l]; [now left|]. right. apply IH. discriminate.
Qed.

(** What [_EMO_RE] matches contains the token ["emotion="]. *)
Lemma match_emo_contains s e : match_emo s = Some e -> Py.contains "emotion=" s = true.
Proof.
  unfold match_emo. destruct (Py.startswith "emotion=" s) eqn:H; [|discriminate].
  intros _. destruct s; simpl in *; rewrite H; reflexivity.
Qed.

Lemma match_ws_emo_contains s e : match_ws_emo s = Some e -> Py.contains "emotion=" s = true.
Proof.
  destruct s as [|c s]; [discriminate|]. unfold match_ws_emo.
  destruct (Py.isspace c); [|discriminate]. intros H%match_emo_contains.
  apply (contains_substring _ (Py.lstrip s)); [|exact H].
  apply substring_of_cons, lstrip_substring.
Qed.

Lemma match_ts_rest_contains s t e :
  match_ts_rest s = Some (t, e) -> Py.contains "emotion=" s = true.
Proof.
  revert t e. induction s as [|c s IH]; intros t e; [discriminate|].
  cbn [match_ts_rest]. destruct (not_blank_tab c); [|discriminate].
  destruct (match_ts_rest s) as [[t' e']|] eqn:E.
  - intros _. cbn [Py.contains]. rewrite (IH t' e' eq_refl). apply orb_true_r.
  - destruct (match_ws_emo s) as [e'|] eqn:E2; [|discriminate].
    intros _. cbn [Py.contains]. rewrite (match_ws_emo_contains s e' E2). apply orb_true_r.
Qed.

Lemma take_class_suffix p n s a r : take_class p n s = Some (a, r) -> s = a +:+ r.
Proof.
  revert s a r. induction n as [|n IH]; intros s a r; simpl.
  - intros [= <- <-]. reflexivity.
  - destruct s as [|c s]; [discriminate|]. destruct (p c); [|discriminate].
    destruct (take_class p n s) as [[a' r']|] eqn:E; [|discriminate].
    intros [= <- <-]. now rewrite (IH s a' r' E).
Qed.

Lemma take_char_suffix c s r : datetime.take_char c s = Some r -> s = String c r.
Proof.
  destruct s as [|c' s]; [discriminate|]. simpl.
  destruct (Ascii.eqb_spec c c') as [->|]; [|discriminate]. now intros [= ->].
Qed.

Lemma _EMO_RE_match_contains ln t e :
  _EMO_RE_match ln = Some (t, e) -> Py.contains "emotion=" ln = true.
Proof.
  unfold _EMO_RE_match.
  destruct (take_class Py.isdigit 4 ln) as [[y r1]|] eqn:E1; [|discriminate].
  destruct (datetime.take_char "-" r1) as [r2|] eqn:E2; [|discriminate].
  destruct (take_class Py.isdigit 2 r2) as [[mo r3]|] eqn:E3; [|discriminate].
  destruct (datetime.take_char "-" r3) as [r4|] eqn:E4; [|discriminate].
  destruct (take_class Py.isdigit 2 r4) as [[d r5]|] eqn:E5; [|discriminate].
  destruct (datetime.take_char "T" r5) as [r6|] eqn:E6; [|discriminate].
  destruct (match_ts_rest r6) as [[t' e']|] eqn:E7; [|discriminate].
  intros _. apply match_ts_rest_contains in E7.
  apply take_class_suffix in E1, E3, E5. apply take_char_suffix in E2, E4, E6.
  subst. repeat (apply contains_app_r || apply (contains_app_r _ (String _ ""))).
  exact E7.
Qed.
End substrings.

(** ** Parsing the emotion log *)

Lemma Sorted_weaken {A} (R R' : A -> A -> Prop) (l : list A) :
  (forall x y, R x y -> R' x y) -> Sorted R l -> Sorted R' l.
Proof.
  intros HR. induction 1 as [|x l Hs IH Hhd]; constructor; [exact IH|].
  destruct Hhd; constructor; auto.
Qed.

Section sort_facts.
Context {A : Type} (leb : A -> A -> bool).
Hypothesis leb_total : forall x y, leb x y = true \/ leb y x = true.

Let R (a b : A) : Prop := leb a b = true.

Lemma insert_sorted_perm x l : Py.insert_sorted leb x l ≡ₚ x :: l.
Proof using Type.
  induction l as [|y l IH]; simpl; [reflexivity|].
  destruct (leb y x); [|reflexivity].
  rewrite IH. apply Permutation_swap.
Qed.

Lemma sort_foldl_perm l acc :
  foldl (fun acc x => Py.insert_sorted leb x acc) acc l ≡ₚ acc ++ l.
Proof using Type.
  revert acc. induction l as [|x l IH]; intros acc; simpl.
  - now rewrite app_nil_r.
  - rewrite IH, insert_sorted_perm. simpl. apply Permutation_middle.
Qed.

Lemma sort_perm l : Py.sort leb l ≡ₚ l.
Proof using Type. unfold Py.sort. now rewrite sort_foldl_perm. Qed.

Lemma insert_sorted_Sorted x l : Sorted R l -> Sorted R (Py.insert_sorted leb x l).
Proof using leb_total.
  induction l as [|y l IH]; simpl; intros Hs.
  - repeat constructor.
  - destruct (leb y x) eqn:Hyx.
    + inversion Hs as [|? ? Hl Hhd]; subst. constructor; [now apply IH|].
      destruct l as [|z l]; simpl.
      * constructor. exact Hyx.
      * destruct (leb z x); constructor; [|exact Hyx].
        now inversion Hhd.
    + constructor; [exact Hs|]. constructor.
      destruct (leb_total x y) as [H|H]; [exact H|congruence].
Qed.

Lemma sort_foldl_Sorted l acc :
  Sorted R acc -> Sorted R (foldl (fun acc x => Py.insert_sorted leb x acc) acc l).
Proof using leb_total.
  revert acc. induction l as [|x l IH]; intros acc Hs; simpl; [exact Hs|].
  apply IH, insert_sorted_Sorted, Hs.
Qed.

Lemma sort_Sorted l : Sorted R (Py.sort leb l).
Proof using leb_total. apply sort_foldl_Sorted. constructor. Qed.
End sort_facts.

Section emotion_log.
Variable localtime : Z -> option Z.

Lemma parse_line_fields (raw : string) :
  parse_line localtime raw =
  match line_fields raw with
  | Some (t, l) =>
      match _parse_iso_z localtime t with
      | Some i => if Py.truthy l then Some {| ts := i; emotion := l |} else None
      | None => None
      end
  | None => None
  end.
Proof.
  unfold parse_line, line_fields.
  destruct (Py.replace_char "009" " " (Py.strip raw)) as [|c ln] eqn:E.
  - reflexivity.
  - cbn [Py.truthy negb].
    destruct (_EMO_RE_match (String c ln)) as [[g_ts g_emo]|]; [reflexivity|].
    destruct ((2 <=? length (Py.re_split_ws (String c ln)))%nat
              && Py.contains "emotion=" (List.last (Py.re_split_ws (String c ln)) ""));
      reflexivity.
Qed.

Lemma line_fields_contains (raw : string) :
  is_Some (line_fields raw) -> Py.contains "emotion=" raw = true.
Proof.
  unfold line_fields. intros H.
  apply (contains_substring _ (Py.strip raw)); [apply strip_substring|].
  apply (contains_replace_char "009" " "); [reflexivity|].
  destruct (_EMO_RE_match _) as [[g_ts g_emo]|] eqn:E.
  - eapply _EMO_RE_match_contains, E.
  - destruct (2 <=? _)%nat; [|destruct H; discriminate]. cbn [andb] in H.
    destruct (Py.contains "emotion=" (List.last _ "")) eqn:Hc; [|destruct H; discriminate].
    eapply contains_substring; [|exact Hc].
    apply re_split_ws_pieces, last_In.
    unfold Py.re_split_ws.
    pose proof (re_split_ws_go_pieces false (Py.replace_char "009" " " (Py.strip raw))) as Hp.
    destruct (Py.re_split_ws_go false _); [destruct Hp|discriminate].
Qed.

Lemma ts_leb_total (a b : EmotionEvent) :
  (ts a <=? ts b)%Z = true \/ (ts b <=? ts a)%Z = true.
Proof. rewrite !Z.leb_le. lia. Qed.

(** Claim C6.  [parse_emotions] is total; its result is sorted by
    timestamp and consists of the events of the lines, whatever their
    order; a line without [emotion=], with a timestamp that does not
    parse, or with an empty label gives no event; and the line
    [2025-01-01T00:00:00Z<tab>extra<tab>emotion=happy] gives the one event
    (2025-01-01T00:00:00 UTC, "happy") by the tolerant reading. *)
Theorem parse_emotions_spec :
  (* sorted by timestamp, and made of the events of the lines *)
  (forall text,
      Sorted (fun a b => (ts a <= ts b)%Z) (parse_emotions localtime text)
      /\ parse_emotions localtime text
         ≡ₚ omap (parse_line localtime) (Py.splitlines text))
  (* whatever the order of the lines *)
  /\ (forall text1 text2,
         Py.splitlines text1 ≡ₚ Py.splitlines text2 ->
         parse_emotions localtime text1 ≡ₚ parse_emotions localtime text2
         /\ map ts (parse_emotions localtime text1) = map ts (parse_emotions localtime text2))
  (* lines that give no event *)
  /\ (forall raw, Py.contains "emotion=" raw = false -> parse_line localtime raw = None)
  /\ (forall raw t l,
         line_fields raw = Some (t, l) ->
         _parse_iso_z localtime t = None \/ l = "" ->
         parse_line localtime raw = None)
  /\ (forall raw ev,
         parse_line localtime raw = Some ev ->
         exists t, line_fields raw = Some (t, emotion ev)
                   /\ _parse_iso_z localtime t = Some (ts ev) /\ emotion ev <> "")
  (* the tolerant reading *)
  /\ parse_emotions localtime
       ("2025-01-01T00:00:00Z" +:+ String "009" "extra" +:+ String "009" "emotion=happy")
     = [{| ts := datetime.to_micro (datetime.mk 2025 1 1 0 0 0 0); emotion := "happy" |}].
Proof.
  assert (Hsorted : forall text,
             Sorted (fun a b => (ts a <= ts b)%Z) (parse_emotions localtime text)).
  { intros text. unfold parse_emotions.
    eapply Sorted_weaken; [|apply (sort_Sorted _ ts_leb_total)].
    intros a b H. now apply Z.leb_le. }
  assert (Hperm : forall text,
             parse_emotions localtime text
             ≡ₚ omap (parse_line localtime) (Py.splitlines text)).
  { intros text. unfold parse_emotions. apply sort_perm. }
  split; [intros text; split; [apply Hsorted|apply Hperm]|].
  split.
  { intros text1 text2 Hlines.
    assert (Hp : parse_emotions localtime text1 ≡ₚ parse_emotions localtime text2).
    { rewrite !Hperm. now rewrite Hlines. }
    split; [exact Hp|].
    apply (Sorted_unique Z.le).
    - apply (Sorted_fmap ts (fun a b => (ts a <= ts b)%Z) Z.le); [intros ? ? H; exact H|apply Hsorted].
    - apply (Sorted_fmap ts (fun a b => (ts a <= ts b)%Z) Z.le); [intros ? ? H; exact H|apply Hsorted].
    - now apply (fmap_Permutation ts). }
  split.
  { intros raw Hc. rewrite parse_line_fields.
    destruct (line_fields raw) as [[t l]|] eqn:E; [|reflexivity].
    rewrite (line_fields_contains raw) in Hc; [discriminate|]. rewrite E. eauto. }
  split.
  { intros raw t l E [Ht| ->]; rewrite parse_line_fields, E.
    - now rewrite Ht.
    - now destruct (_parse_iso_z localtime t). }
  split.
  { intros raw ev. rewrite parse_line_fields.
    destruct (line_fields raw) as [[t l]|]; [|discriminate].
    destruct (_parse_iso_z localtime t) as [i|] eqn:Hi; [|discriminate].
    destruct l as [|c l]; [discriminate|]. intros [= <-]. cbn.
    exists t. repeat split; [exact Hi|discriminate]. }
  vm_compute. reflexivity.
Qed.
End emotion_log.

(** ** Parsing a transcript *)

Section transcript_invariants.












End transcript_invariants.

(** ** The scan of a transcript, block by block *)

Section scan_facts.


Lemma qa_header_stop_block s : qa_header s = true -> stop_block s = true.
Proof.
  unfold qa_header, stop_block. intros [H|H]%orb_true_iff; rewrite H;
    rewrite ?orb_true_r; reflexivity.
Qed.


Lemma stop_block_false_qa s : stop_block s = false -> qa_header s = false.
Proof.
  intros H. destruct (qa_header s) eqn:E; [|reflexivity].
  now rewrite (qa_header_stop_block s E) in H.
Qed.









End scan_facts.

(** ** The lines of the export *)

Section header_lines.

Lemma drop_app a b : drop (String.length a) (a +:+ b) = b.
Proof. induction a as [|c a IH]; [reflexivity|]. rewrite app_cons. exact IH. Qed.


Lemma iso_no_linebreak iso :
  all_chars iso_char iso = true -> no_linebreak iso.
Proof.
  intros H. eapply all_chars_impl; [|exact H].
  intros c Hc. destruct (iso_char_facts c Hc) as (-> & _). reflexivity.
Qed.




Lemma last_char_app_r a b : b <> "" -> last_char (a +:+ b) = last_char b.
Proof. destruct b as [|c b]; [congruence|]. intros _. apply last_char_app. Qed.

Lemma app_nonempty_r a b : b <> "" -> a +:+ b <> "".
Proof. destruct a; [auto|discriminate]. Qed.





Lemma summary_line_not_header k : qa_header (summary_line k) = false.
Proof. reflexivity. Qed.


End header_lines.

(** ** Export, then parse *)

Section roundtrip.
Variable _role_from_jd : string -> string.
Variable utcnow : datetime.t.

Abbreviation MockTurn := mock_agent_service.MockTurn.
Abbreviation present := mock_agent_service.present.
Abbreviation text_of := mock_agent_service.text_of.
Abbreviation turn_lines := mock_agent_service.turn_lines.





Lemma stop_block_empty : stop_block (Py.strip "") = false.
Proof. reflexivity. Qed.
























End roundtrip.

(** ** The round trip at sample sessions *)



(** ** [fromisoformat] after [isoformat] *)

Section iso_parse.
Variable localtime : Z -> option Z.

Lemma take_digits_pad0 k n r :
  (0 <= n < 10 ^ Z.of_nat k)%Z ->
  datetime.take_digits k 0 (Py.pad_digits k n "" +:+ r) = Some (n, r).
Proof. intros Hn. rewrite take_digits_pad by assumption. f_equal. Qed.

Lemma take_class_app p a r :
  all_chars p a = true -> take_class p (String.length a) (a +:+ r) = Some (a, r).
Proof.
  induction a as [|c a IH]; [reflexivity|]. cbn [all_chars].
  intros [Hc Ha]%andb_true_iff. rewrite app_cons. cbn [String.length take_class].
  now rewrite Hc, (IH Ha).
Qed.

Lemma take_class_pad k n r :
  take_class Py.isdigit k (Py.pad_digits k n "" +:+ r) = Some (Py.pad_digits k n "", r).
Proof.
  rewrite <- (pad_digits_length k n) at 1. apply take_class_app, pad_digits_all_digits.
Qed.

Lemma time_char_facts c :
  time_char c = true ->
  Ascii.eqb c "+" = false /\ Ascii.eqb c "-" = false /\ not_blank_tab c = true
  /\ Ascii.eqb c "009" = false /\ Py.isspace c = false.
Proof.
  unfold time_char, Py.isdigit. intros H.
  destruct c as [[] [] [] [] [] [] [] []]; try discriminate H; repeat split.
Qed.

Lemma split_tz_app a b :
  all_chars time_char a = true ->
  datetime.split_tz (a +:+ String "+" b) = (a, Some (true, b)).
Proof.
  induction a as [|c a IH]; [reflexivity|]. cbn [all_chars].
  intros [Hc Ha]%andb_true_iff. rewrite app_cons. cbn [datetime.split_tz].
  destruct (time_char_facts c Hc) as (-> & -> & _). now rewrite (IH Ha).
Qed.

Lemma isoformat_split d : datetime.isoformat d = iso_date d +:+ "T" +:+ iso_time d.
Proof. unfold datetime.isoformat, iso_date, iso_time. now rewrite !app_assoc_s. Qed.

Lemma iso_time_chars d : all_chars time_char (iso_time d) = true.
Proof.
  unfold iso_time.
  assert (Hd : forall k n, all_chars time_char (Py.pad_digits k n "") = true).
  { intros k n. apply (all_chars_impl Py.isdigit); [|apply pad_digits_all_digits].
    intros c Hc. unfold time_char. now rewrite Hc. }
  rewrite !all_chars_app, !Hd. cbn [andb].
  destruct (datetime.microsecond d =? 0)%Z; [reflexivity|].
  rewrite all_chars_app, Hd. reflexivity.
Qed.

Lemma parse_time d :
  datetime.valid d = true ->
  datetime.parse_hh_mm_ss_ff (iso_time d)
  = Some (datetime.hour d, datetime.minute d, datetime.second d, datetime.microsecond d).
Proof.
  intros (_ & _ & _ & Hh & Hmi & Hs & Hus)%valid_inv.
  unfold datetime.parse_hh_mm_ss_ff, iso_time.
  rewrite !app_cons, !app_empty_l.
  rewrite (take_digits_pad0 2 (datetime.hour d)) by (cbn; lia).
  cbn [datetime.take_char Ascii.eqb Bool.eqb].
  rewrite (take_digits_pad0 2 (datetime.minute d)) by (cbn; lia).
  cbn [datetime.take_char Ascii.eqb Bool.eqb].
  rewrite (take_digits_pad0 2 (datetime.second d)) by (cbn; lia).
  destruct (datetime.microsecond d =? 0)%Z eqn:E.
  - apply Z.eqb_eq in E. rewrite E. reflexivity.
  - change ("." +:+ ?x) with (String "." x).
    cbn [datetime.parse_fraction Ascii.eqb Bool.eqb].
    rewrite pad_digits_length. cbn [Nat.eqb].
    rewrite <- (app_empty_r (Py.pad_digits 6 _ "")).
    rewrite (take_digits_pad0 6 (datetime.microsecond d)) by (cbn; lia).
    reflexivity.
Qed.

Lemma fromisoformat_isoformat d :
  datetime.valid d = true ->
  datetime.fromisoformat (datetime.isoformat d +:+ "+00:00") = Some (d, Some 0%Z).
Proof.
  intros Hv. pose proof Hv as (Hy & Hm & Hd & _)%valid_inv.
  assert (Hdim : (datetime.days_in_month (datetime.year d) (datetime.month d) <= 31)%Z).
  { unfold datetime.days_in_month.
    repeat match goal with |- context [if ?c then _ else _] => destruct c end; lia. }
  rewrite isoformat_split. unfold iso_date. rewrite !app_assoc_s.
  unfold datetime.fromisoformat.
  rewrite !app_cons, !app_empty_l.
  rewrite (take_digits_pad0 4 (datetime.year d)) by (cbn; lia).
  cbn [datetime.take_char Ascii.eqb Bool.eqb].
  rewrite (take_digits_pad0 2 (datetime.month d)) by (cbn; lia).
  cbn [datetime.take_char Ascii.eqb Bool.eqb].
  rewrite (take_digits_pad0 2 (datetime.day d)) by (cbn; lia).
  change (iso_time d +:+ "+00:00") with (iso_time d +:+ String "+" "00:00").
  rewrite split_tz_app by apply iso_time_chars.
  rewrite parse_time by assumption.
  replace (datetime.mk (datetime.year d) (datetime.month d) (datetime.day d)
             (datetime.hour d) (datetime.minute d) (datetime.second d)
             (datetime.microsecond d)) with d by (now destruct d).
  rewrite Hv. reflexivity.
Qed.
End iso_parse.

(** ** The lines of the Log Writer *)

Section log_lines.
Variable localtime : Z -> option Z.

Lemma length_app_s a b :
  String.length (a +:+ b) = (String.length a + String.length b)%nat.
Proof.
  induction a as [|c a IH]; [reflexivity|]. rewrite app_cons. simpl. now rewrite IH.
Qed.

Lemma substring_all p : String.substring 0 (String.length p) p = p.
Proof. induction p as [|c p IH]; [reflexivity|]. simpl. now rewrite IH. Qed.

Lemma substring_prefix a b : String.substring 0 (String.length a) (a +:+ b) = a.
Proof.
  induction a as [|c a IH]; [destruct b; reflexivity|].
  rewrite app_cons. simpl. now rewrite IH.
Qed.

Lemma substring_suffix a p :
  String.substring (String.length a) (String.length p) (a +:+ p) = p.
Proof.
  induction a as [|c a IH]; [apply substring_all|]. rewrite app_cons. exact IH.
Qed.

Lemma endswith_app a p : Py.endswith p (a +:+ p) = true.
Proof.
  unfold Py.endswith. rewrite length_app_s.
  replace (String.length a + String.length p - String.length p)%nat
    with (String.length a) by lia.
  rewrite substring_suffix, String.eqb_refl.
  rewrite andb_true_r. apply Nat.leb_le. lia.
Qed.

Lemma isspace_digit_char z : (0 <= z < 10)%Z -> Py.isspace (Py.digit_char z) = false.
Proof.
  intros Hz. pose proof (isdigit_digit_char z Hz) as H. unfold Py.isdigit in H.
  destruct (Py.digit_char z) as [[] [] [] [] [] [] [] []]; try discriminate H; reflexivity.
Qed.

Lemma isoformat_first d :
  exists c r, datetime.isoformat d = String c r /\ Py.isspace c = false.
Proof.
  unfold datetime.isoformat. cbn [Py.pad_digits]. rewrite !app_cons.
  eexists _, _. split; [reflexivity|].
  apply isspace_digit_char, Z.mod_pos_bound. lia.
Qed.

Lemma stamp_stripped d : stripped (stamp d).
Proof.
  unfold stamp. destruct (isoformat_first d) as (c & r & -> & Hc).
  rewrite app_cons. apply stripped_intro; [exact Hc|].
  rewrite <- app_cons, last_char_app. reflexivity.
Qed.

Lemma _parse_iso_z_stamp d :
  datetime.valid d = true ->
  _parse_iso_z localtime (stamp d) = Some (datetime.to_micro d).
Proof.
  intros Hv. unfold _parse_iso_z. rewrite stamp_stripped. unfold stamp.
  rewrite truthy_app_r. cbn [negb]. rewrite endswith_app.
  rewrite length_app_s. cbn [String.length].
  replace (String.length (datetime.isoformat d) + 1 - 1)%nat
    with (String.length (datetime.isoformat d)) by lia.
  rewrite substring_prefix, fromisoformat_isoformat by assumption.
  unfold datetime.astimezone_utc. cbn [fst snd]. rewrite Z.sub_0_r.
  pose proof (to_micro_range d Hv) as [H0 H1].
  apply Z.leb_le in H0, H1. now rewrite H0, H1.
Qed.

Lemma match_ts_rest_app t r e :
  all_chars not_blank_tab t = true -> t <> "" ->
  match_ws_emo (String " " r) = Some e ->
  match_ts_rest (t +:+ String " " r) = Some (t, e).
Proof.
  intros Ht Hne He. induction t as [|c t IH]; [congruence|].
  cbn [all_chars] in Ht. apply andb_true_iff in Ht as [Hc Ht].
  rewrite app_cons. cbn [match_ts_rest]. rewrite Hc.
  destruct t as [|c' t].
  - rewrite app_empty_l. cbn [match_ts_rest].
    change (not_blank_tab " ") with false. cbv iota. now rewrite He.
  - rewrite IH by (assumption || discriminate). reflexivity.
Qed.

Lemma _EMO_RE_match_stamp d (word : string) :
  match_ws_emo (String " " ("emotion=" +:+ word)) = Some word ->
  _EMO_RE_match (stamp d +:+ " emotion=" +:+ word) = Some (stamp d, word).
Proof.
  intros Hw.
  assert (E : stamp d +:+ " emotion=" +:+ word
              = Py.pad_digits 4 (datetime.year d) ""
                +:+ String "-" (Py.pad_digits 2 (datetime.month d) ""
                +:+ String "-" (Py.pad_digits 2 (datetime.day d) ""
                +:+ String "T" ((iso_time d +:+ "Z")
                                +:+ String " " ("emotion=" +:+ word))))).
  { unfold stamp. rewrite isoformat_split. unfold iso_date.
    rewrite !app_assoc_s. reflexivity. }
  rewrite E. unfold _EMO_RE_match.
  rewrite (take_class_pad 4). cbn [datetime.take_char Ascii.eqb Bool.eqb].
  rewrite (take_class_pad 2). cbn [datetime.take_char Ascii.eqb Bool.eqb].
  rewrite (take_class_pad 2). cbn [datetime.take_char Ascii.eqb Bool.eqb].
  assert (Ht : all_chars not_blank_tab (iso_time d +:+ "Z") = true).
  { rewrite all_chars_app. cbn [all_chars]. rewrite andb_true_r.
    eapply all_chars_impl; [|apply iso_time_chars].
    intros c Hc. now destruct (time_char_facts c Hc) as (_ & _ & -> & _). }
  assert (Hne : iso_time d +:+ "Z" <> "") by (apply app_nonempty_r; discriminate).
  rewrite (match_ts_rest_app _ _ word Ht Hne Hw).
  apply f_equal. apply (f_equal (fun x => (x, word))).
  unfold stamp. rewrite isoformat_split. unfold iso_date.
  rewrite !app_assoc_s. reflexivity.
Qed.

Lemma replace_char_app a b s t :
  Py.replace_char a b (s +:+ t) = Py.replace_char a b s +:+ Py.replace_char a b t.
Proof.
  induction s as [|c s IH]; [reflexivity|]. rewrite app_cons. cbn [Py.replace_char].
  now rewrite IH, app_cons.
Qed.

Lemma replace_char_id a b s :
  all_chars (fun c => negb (Ascii.eqb c a)) s = true -> Py.replace_char a b s = s.
Proof.
  induction s as [|c s IH]; [reflexivity|]. cbn [all_chars].
  intros [Hc Hs]%andb_true_iff. cbn [Py.replace_char].
  apply negb_true_iff in Hc. now rewrite Hc, (IH Hs).
Qed.

Lemma stamp_no_tab d : all_chars (fun c => negb (Ascii.eqb c "009")) (stamp d) = true.
Proof.
  unfold stamp. rewrite all_chars_app. cbn [all_chars]. rewrite andb_true_r.
  eapply all_chars_impl; [|apply isoformat_chars].
  intros c Hc. unfold iso_char, Py.isdigit in Hc.
  destruct c as [[] [] [] [] [] [] [] []]; try discriminate Hc; reflexivity.
Qed.

End log_lines.

(** ** The labels of parsed events *)

Section labels.
Variable localtime : Z -> option Z.








Lemma word_not_space c : Py.isword c = true -> Py.isspace c = false.
Proof. destruct c as [[] [] [] [] [] [] [] []]; (discriminate || reflexivity). Qed.

Lemma strip_word w : all_chars Py.isword w = true -> Py.strip w = w.
Proof.
  intros H. destruct w as [|c w]; [reflexivity|].
  apply stripped_intro.
  - cbn [all_chars] in H. apply andb_true_iff in H as [Hc _]. now apply word_not_space.
  - revert c H. induction w as [|c' w IH]; intros c H.
    + cbn in *. apply andb_true_iff in H as [Hc _]. now apply word_not_space.
    + cbn [all_chars] in H. apply andb_true_iff in H as [_ H].
      change (last_char (String c (String c' w))) with (last_char (String c' w)).
      now apply IH.
Qed.









End labels.

(** ** Labels outside the seven categories *)

Section no_face_log.
Import emotion_service.
Variable localtime : Z -> option Z.





End no_face_log.

Section dilution.
Local Open Scope R_scope.









End dilution.

Section unrecognised.
Import emotion_service.
Variable localtime : Z -> option Z.
Local Open Scope R_scope.

End unrecognised.

(** ** The lifecycle of the capture service *)

Section lifecycle.
Import emotion_service.

Lemma sessions_add_twice (s : string) (X : gset string) :
  {[s]} ∪ ({[s]} ∪ X) = {[s]} ∪ X.
Proof. set_solver. Qed.

Lemma sessions_remove_only (s : string) : ({[s]} ∪ ∅ : gset string) ∖ {[s]} = ∅.
Proof. set_solver. Qed.

Lemma sessions_remove_first (s1 s2 : string) :
  s1 <> s2 -> ({[s2]} ∪ ({[s1]} ∪ ∅) : gset string) ∖ {[s1]} = {[s2]}.
Proof. set_solver. Qed.

Lemma sessions_remove_last (s : string) : ({[s]} : gset string) ∖ {[s]} = ∅.
Proof. set_solver. Qed.

(** While both workers are alive, [start_logging] only adds the id. *)
Lemma start_logging_running (self : EmotionService) (sid : string) :
  alive (_cam_thread self) = true -> alive (_log_thread self) = true ->
  start_logging self sid =
    ({| _stop_cam := _stop_cam self; _cam_thread := _cam_thread self;
        latest_emotion := latest_emotion self;
        _logging_sessions := {[sid]} ∪ _logging_sessions self;
        _log_thread := _log_thread self; _stop_log := _stop_log self |}, []).
Proof.
  intros Hc Hl. unfold start_logging, start_camera. simpl.
  rewrite Hc. simpl. rewrite Hl. reflexivity.
Qed.

(** Claim C9.  From the initial state: [start_logging s1] twice leaves
    the one active entry [s1] and starts the two workers once, the
    second call starting nothing; [stop_logging s1] then signals both
    workers to stop.  After [start_logging s1; start_logging s2],
    [stop_logging s1] leaves [s2] active and both workers running with
    no stop signal, until [stop_logging s2] signals both to stop. *)
Theorem capture_lifecycle (s1 s2 : string) :
  s1 <> s2 ->
  let a1 := start_logging init s1 in
  let a2 := start_logging (fst a1) s1 in
  let a3 := stop_logging (fst a2) s1 in
  let b2 := start_logging (fst a1) s2 in
  let b3 := stop_logging (fst b2) s1 in
  let b4 := stop_logging (fst b3) s2 in
  (* begin twice *)
  (snd a1 = [ThreadStart Camera; ThreadStart LogWriter]
   /\ snd a2 = [] /\ fst a2 = fst a1
   /\ _logging_sessions (fst a2) = {[s1]}
   /\ size (_logging_sessions (fst a2)) = 1%nat)
  (* end of the only session *)
  /\ (snd a3 = [SignalStop LogWriter; SignalStop Camera; Join Camera]
      /\ _stop_log (fst a3) = true /\ _stop_cam (fst a3) = true
      /\ _logging_sessions (fst a3) = ∅)
  (* two sessions, the first ends *)
  /\ (snd b2 = [] /\ snd b3 = []
      /\ _logging_sessions (fst b3) = {[s2]}
      /\ alive (_cam_thread (fst b3)) = true /\ alive (_log_thread (fst b3)) = true
      /\ _stop_log (fst b3) = false /\ _stop_cam (fst b3) = false
      /\ step (fst b3) CameraExit = None /\ step (fst b3) LogWriterExit = None)
  (* the second ends *)
  /\ (snd b4 = [SignalStop LogWriter; SignalStop Camera; Join Camera]
      /\ _stop_log (fst b4) = true /\ _stop_cam (fst b4) = true).
Proof.
  intros Hne.
  assert (E1 : start_logging init s1 = (workers_state ({[s1]} ∪ ∅) false,
                 [ThreadStart Camera; ThreadStart LogWriter])) by reflexivity.
  cbv zeta. rewrite E1. cbn [fst snd].
  assert (E2 : start_logging (workers_state ({[s1]} ∪ ∅) false) s1
               = (workers_state ({[s1]} ∪ ∅) false, [])).
  { rewrite start_logging_running by reflexivity. cbn.
    now rewrite sessions_add_twice. }
  rewrite E2. cbn [fst snd].
  assert (E3 : stop_logging (workers_state ({[s1]} ∪ ∅) false) s1
               = (workers_state ∅ true,
                  [SignalStop LogWriter; SignalStop Camera; Join Camera])).
  { unfold stop_logging. cbn. rewrite sessions_remove_only. reflexivity. }
  rewrite E3. cbn [fst snd].
  assert (F2 : start_logging (workers_state ({[s1]} ∪ ∅) false) s2
               = (workers_state ({[s2]} ∪ ({[s1]} ∪ ∅)) false, [])).
  { now rewrite start_logging_running by reflexivity. }
  rewrite F2. cbn [fst snd].
  assert (F3 : stop_logging (workers_state ({[s2]} ∪ ({[s1]} ∪ ∅)) false) s1
               = (workers_state {[s2]} false, [])).
  { unfold stop_logging. cbn. rewrite sessions_remove_first by assumption.
    rewrite size_singleton. reflexivity. }
  rewrite F3. cbn [fst snd].
  assert (F4 : stop_logging (workers_state {[s2]} false) s2
               = (workers_state ∅ true,
                  [SignalStop LogWriter; SignalStop Camera; Join Camera])).
  { unfold stop_logging. cbn. rewrite sessions_remove_last. reflexivity. }
  rewrite F4. cbn.
  rewrite (right_id_L ∅ (∪)), size_singleton.
  repeat split; reflexivity.
Qed.

Lemma capture_lifecycle_witness :
  "s1" <> "s2" /\
  _logging_sessions (fst (start_logging (fst (start_logging init "s1")) "s1")) = {["s1"]}.
Proof.
  split; [discriminate|].
  exact (proj1 (proj2 (proj2 (proj2 (proj1 (capture_lifecycle "s1" "s2" ltac:(discriminate))))))).
Defined.
End lifecycle.

(** ** The evaluation without a judgment *)

Section evaluate_facts.
Import evaluation_service.

(** Claim C1.  Without a judgment, [evaluate] does not return a report:
    once the two files are found and the emotion log is read, and the
    judgment step was skipped (a credential is missing) or raised, it
    raises [UnboundLocalError] at its reading of the local [ds_detail],
    which only the branch of an available judgment binds. *)
Theorem evaluate_without_judgment (w : World) (self_base_dir session_id : string)
    (role : option string) (base_dir : option string) (transcript_path emotion_path : string)
    (w_knowledge w_attitude w_agent_final w_emotion : R) (tp ep emo_text : string) :
  (if Py.truthy (Py.strip transcript_path) then Py.Ok (Py.strip transcript_path)
   else find_transcript_path w
          (Py.strip (match base_dir with
                     | Some b => if Py.truthy b then b else self_base_dir
                     | None => self_base_dir
                     end)) session_id) = Py.Ok tp ->
  (if Py.truthy (Py.strip emotion_path) then Py.Ok (Py.strip emotion_path)
   else find_emotion_path w
          (Py.strip (match base_dir with
                     | Some b => if Py.truthy b then b else self_base_dir
                     | None => self_base_dir
                     end)) session_id) = Py.Ok ep ->
  read_text w ep = Py.Ok emo_text ->
  judgment w role tp w_knowledge w_attitude = None ->
  evaluate w self_base_dir session_id role base_dir transcript_path emotion_path
    w_knowledge w_attitude w_agent_final w_emotion
  = Py.Raise (Py.UnboundLocalError "ds_detail").
Proof.
  intros Htp Hep Hread Hj. unfold evaluate.
  rewrite Htp. cbn [mbind Py.result_bind Py.bind].
  rewrite Hep. cbn [mbind Py.result_bind Py.bind].
  rewrite Hread. cbn [mbind Py.result_bind Py.bind].
  destruct (score_emotion_face_base10 (parse_emotions (localtime w) emo_text)) as [sc det].
  unfold judgment in Hj.
  destruct (missing_envs w) as [|k ks].
  - destruct (read_text w tp) as [text|e]; [|reflexivity].
    destruct (_ ← new_agent w;
              evaluate_turns w_knowledge w_attitude
                (judge w role (parse_transcript_to_turns text))) as [a|e];
      [discriminate|reflexivity].
  - reflexivity.
Qed.

Lemma evaluate_without_judgment_witness :
  evaluate world_without_key "exports" "abc123" (Some "ai_engineer") None "" ""
    0.7 0.3 0.65 0.35
  = Py.Raise (Py.UnboundLocalError "ds_detail").
Proof.
  apply (evaluate_without_judgment world_without_key "exports" "abc123"
           (Some "ai_engineer") None "" "" 0.7 0.3 0.65 0.35
           "exports/mock_abc123.txt" "exports/emotion_abc123.txt" "");
    reflexivity.
Defined.

(** No report that [evaluate] returns carries an agent error. *)
Lemma evaluate_report_has_judgment (w : World) (self_base_dir session_id : string)
    (role : option string) (base_dir : option string) (transcript_path emotion_path : string)
    (w_knowledge w_attitude w_agent_final w_emotion : R) (r : Report) :
  evaluate w self_base_dir session_id role base_dir transcript_path emotion_path
    w_knowledge w_attitude w_agent_final w_emotion = Py.Ok r ->
  error (agent r) = None /\ scores (agent r) <> None.
Proof.
  unfold evaluate.
  destruct (if Py.truthy (Py.strip transcript_path) then _ else _) as [tp|?];
    cbn [mbind Py.result_bind Py.bind]; [|discriminate].
  destruct (if Py.truthy (Py.strip emotion_path) then _ else _) as [ep|?];
    cbn [mbind Py.result_bind Py.bind]; [|discriminate].
  destruct (read_text w ep) as [emo_text|?];
    cbn [mbind Py.result_bind Py.bind]; [|discriminate].
  destruct (score_emotion_face_base10 _) as [sc det].
  destruct (missing_envs w) as [|k ks]; [|discriminate].
  destruct (read_text w tp) as [text|e]; [|discriminate].
  destruct (_ ← new_agent w; _) as [a|e]; [|discriminate].
  cbn [read_local mbind Py.result_bind Py.bind].
  destruct (apply_data_sufficiency _ _ _ _ _) as [[[[k a'] f] ds]|e];
    cbn [mbind Py.result_bind Py.bind read_local]; [|discriminate].
  intros [= <-]. cbn. split; [reflexivity|discriminate].
Qed.
End evaluate_facts.

(** ** The distribution of the labels *)

Section counting.
Context {E : Type} (f : E -> string).

Lemma count_into_comm (m : gmap string Z) a b :
  count_into (count_into m a) b = count_into (count_into m b) a.
Proof.
  apply map_eq. intros k. rewrite !lookup_count_into.
  destruct (decide (b = k)) as [->|Hb], (decide (a = k)) as [->|Ha];
    repeat (rewrite ?decide_True by reflexivity; rewrite ?decide_False by congruence);
    simpl; reflexivity.
Qed.

Lemma tally_count_into m a l :
  tally f (count_into m a) l = count_into (tally f m l) a.
Proof.
  revert m. induction l as [|e l IH]; intros m; [reflexivity|].
  cbn [tally foldl]. rewrite count_into_comm. apply IH.
Qed.

Lemma tally_perm l1 l2 : l1 ≡ₚ l2 -> forall m, tally f m l1 = tally f m l2.
Proof.
  induction 1 as [|e l1 l2 _ IH|a b l|l1 l2 l3 _ IH1 _ IH2]; intros m.
  - reflexivity.
  - cbn [tally foldl]. apply IH.
  - cbn [tally foldl]. now rewrite count_into_comm.
  - now rewrite IH1.
Qed.

Lemma occurrences_nonneg k l : (0 <= occurrences f k l)%Z.
Proof. unfold occurrences. lia. Qed.

Lemma occurrences_cons k e l :
  occurrences f k (e :: l)
  = ((if decide (f e = k) then 1 else 0) + occurrences f k l)%Z.
Proof.
  unfold occurrences. rewrite filter_cons.
  destruct (decide (f e = k)); cbn [length]; lia.
Qed.

Lemma occurrences_pos k l :
  (0 < occurrences f k l)%Z <-> exists e, In e l /\ f e = k.
Proof.
  induction l as [|e l IH].
  - split; [unfold occurrences; simpl; lia|intros (e & [] & _)].
  - rewrite occurrences_cons. pose proof (occurrences_nonneg k l).
    destruct (decide (f e = k)) as [Hk|Hk]; split.
    + intros _. exists e. simpl. auto.
    + intros _. lia.
    + intros Hp. rewrite Z.add_0_l in Hp. apply IH in Hp as (e' & Hin & He').
      exists e'. simpl. auto.
    + intros (e' & [->|Hin] & He'); [contradiction|].
      assert (0 < occurrences f k l)%Z by (apply IH; eauto). lia.
Qed.



End counting.

Section distribution.
Local Open Scope R_scope.


Lemma Rsum_perm l1 l2 : l1 ≡ₚ l2 -> Rsum l1 = Rsum l2.
Proof.
  unfold Rsum.
  induction 1 as [|x l1 l2 _ IH|x y l|l1 l2 l3 _ IH1 _ IH2]; cbn [fold_right].
  - reflexivity.
  - now rewrite IH.
  - lra.
  - now rewrite IH1.
Qed.





End distribution.

Section order.
(** Property X2.  The score and its breakdown do not depend on the order of
    the events. *)
Theorem score_order_independent (events1 events2 : list EmotionEvent) :
  events1 ≡ₚ events2 ->
  score_emotion_face_base10 events1 = score_emotion_face_base10 events2.
Proof.
  intros Hp.
  assert (Hc : tally label_of ∅ events1 = tally label_of ∅ events2)
    by now apply tally_perm.
  destruct events1 as [|e1 l1], events2 as [|e2 l2].
  - reflexivity.
  - apply Permutation_nil in Hp. discriminate.
  - symmetry in Hp. apply Permutation_nil in Hp. discriminate.
  - unfold score_emotion_face_base10.
    change (foldl (fun counts e => count_into counts (Py.strip (Py.lower (emotion e))))
                  ∅ (e1 :: l1)) with (tally label_of ∅ (e1 :: l1)).
    change (foldl (fun counts e => count_into counts (Py.strip (Py.lower (emotion e))))
                  ∅ (e2 :: l2)) with (tally label_of ∅ (e2 :: l2)).
    now rewrite Hc.
Qed.
End order.

Lemma score_order_independent_witness :
  score_emotion_face_base10
    [ {| ts := 0; emotion := "happy" |}; {| ts := 1000000; emotion := "angry" |} ]
  = score_emotion_face_base10
      [ {| ts := 1000000; emotion := "angry" |}; {| ts := 0; emotion := "happy" |} ].
Proof. apply score_order_independent. apply perm_swap. Defined.

(** ** Valid answers *)

Section valid_answers.


End valid_answers.

(** ** The adjusted scores grow with the valid answers *)

Section sufficiency_order.
Local Open Scope R_scope.

Lemma ratio_mono n m : (n <= m)%Z -> ratio n <= ratio m.
Proof.
  intros H. unfold ratio, MIN_REQUIRED. apply IZR_le in H.
  apply Rle_min_compat_l. lra.
Qed.

Lemma float_pow_mono x y p : 0 <= x <= y -> 0 < p -> float_pow x p <= float_pow y p.
Proof.
  intros [H0 Hxy] Hp. unfold float_pow.
  destruct (Req_dec_T x 0) as [->|Hx], (Req_dec_T y 0) as [->|Hy]; try lra.
  - left. apply exp_pos.
  - apply Rle_Rpower_l; lra.
Qed.

Lemma coverage_mono n m : (0 <= n <= m)%Z -> coverage n <= coverage m.
Proof.
  intros [Hn Hnm]. unfold coverage, P. apply float_pow_mono; [|lra].
  split; [apply ratio_range, Hn|now apply ratio_mono].
Qed.

Lemma bonus_mono n m : (n <= m)%Z -> bonus n <= bonus m.
Proof.
  intros Hnm. destruct (Z.le_gt_cases n 10) as [Hn|Hn].
  - rewrite (bonus_none n Hn). destruct (Z.le_gt_cases m 10) as [Hm|Hm].
    + rewrite (bonus_none m Hm). lra.
    + left. apply bonus_range. lia.
  - unfold bonus, MIN_REQUIRED, BONUS_MAX, K.
    destruct (Z.ltb_spec 10 n) as [_|]; [|lia].
    destruct (Z.ltb_spec 10 m) as [_|]; [|lia].
    assert (Hd : IZR (n - 10) <= IZR (m - 10)) by (apply IZR_le; lia).
    assert (He : exp (- IZR (m - 10) / 10) <= exp (- IZR (n - 10) / 10)).
    { destruct (Req_dec_T (IZR (n - 10)) (IZR (m - 10))) as [->|Hne]; [lra|].
      left. apply exp_increasing. lra. }
    lra.
Qed.

Lemma adjusted_mono (s w_k w_a w : R) (n m : Z) :
  0 <= s <= 10 -> 0 <= w_k -> 0 <= w_a -> 0 <= w -> (0 <= n <= m)%Z ->
  let adj := fun n =>
    let a := Rmax 0 (Rmin 10 (s * coverage n)) in
    if (MIN_REQUIRED <? n)%Z then Rmin 10 (a + bonus n * (w / total_w w_k w_a)) else a in
  adj n <= adj m.
Proof.
  intros Hs Hwk Hwa Hw [Hn Hnm] adj. subst adj. cbv beta zeta.
  pose proof (coverage_mono n m (conj Hn Hnm)) as Hc.
  pose proof (coverage_range n Hn) as Hcn.
  pose proof (coverage_range m ltac:(lia)) as Hcm.
  pose proof (total_w_pos w_k w_a Hwk Hwa) as Htw.
  pose proof (bonus_mono n m Hnm) as Hb.
  assert (Hsh : 0 <= w / total_w w_k w_a).
  { unfold Rdiv. apply Rmult_le_pos; [assumption|]. left. now apply Rinv_0_lt_compat. }
  assert (Ha : Rmax 0 (Rmin 10 (s * coverage n)) <= Rmax 0 (Rmin 10 (s * coverage m))).
  { apply Rle_max_compat_l, Rle_min_compat_l. nra. }
  assert (Hr : forall k, (0 <= k)%Z -> 0 <= Rmax 0 (Rmin 10 (s * coverage k)) <= 10).
  { intros k Hk. apply (clamp_range (s * coverage k)). }
  unfold MIN_REQUIRED.
  destruct (Z.ltb_spec 10 n) as [Hn10|Hn10], (Z.ltb_spec 10 m) as [Hm10|Hm10]; try lia.
  - apply Rle_min_compat_l.
    pose proof (bonus_range n Hn10). pose proof (bonus_range m Hm10). nra.
  - pose proof (bonus_range m Hm10) as Hbm. pose proof (Hr n Hn) as Hrn.
    apply Rmin_glb; [lra|].
    assert (0 <= bonus m * (w / total_w w_k w_a)) by (apply Rmult_le_pos; lra).
    lra.
  - exact Ha.
Qed.

(** Property X4.  More valid answers never lower an adjusted score. *)
Theorem apply_data_sufficiency_monotone (ks ats w_k w_a : R) (n m : Z) :
  0 <= ks <= 10 -> 0 <= ats <= 10 -> 0 <= w_k -> 0 <= w_a -> (0 <= n <= m)%Z ->
  match apply_data_sufficiency ks ats w_k w_a n, apply_data_sufficiency ks ats w_k w_a m with
  | Py.Ok (k1, a1, f1, _), Py.Ok (k2, a2, f2, _) => k1 <= k2 /\ a1 <= a2 /\ f1 <= f2
  | _, _ => False
  end.
Proof.
  intros Hks Hats Hwk Hwa Hnm. unfold apply_data_sufficiency.
  destruct (Z.ltb_spec n 0) as [|_]; [lia|]. destruct (Z.ltb_spec m 0) as [|_]; [lia|].
  pose proof (adjusted_mono ks w_k w_a w_k n m Hks Hwk Hwa Hwk Hnm) as Hk.
  pose proof (adjusted_mono ats w_k w_a w_a n m Hats Hwk Hwa Hwa Hnm) as Ha.
  cbv beta zeta in Hk, Ha.
  fold (ks_adj ks w_k w_a n) (ks_adj ks w_k w_a m) in Hk.
  fold (ats_adj ats w_k w_a n) (ats_adj ats w_k w_a m) in Ha.
  split; [now apply round_mono|]. split; [now apply round_mono|].
  apply round_mono. unfold agent_final_adj.
  apply Rle_max_compat_l, Rle_min_compat_l. nra.
Qed.

Lemma apply_data_sufficiency_monotone_witness :
  match apply_data_sufficiency 8 7 0.7 0.3 5, apply_data_sufficiency 8 7 0.7 0.3 12 with
  | Py.Ok (k1, a1, f1, _), Py.Ok (k2, a2, f2, _) => k1 <= k2 /\ a1 <= a2 /\ f1 <= f2
  | _, _ => False
  end.
Proof.
  apply (apply_data_sufficiency_monotone 8 7 0.7 0.3 5 12); lra || lia.
Defined.
End sufficiency_order.

(** ** The scores of the judge and the total *)

Section judged_scores.
Local Open Scope R_scope.


(** Property X6.  The total is reported exactly when there are agent scores,
    and then lies in [0, 10], whatever the scores and the weights; the
    emotion score is reported in both cases. *)
Theorem compute_total_patched_range (emotion_face_score : R)
    (agent_scores : option AgentScores) (w_agent_final w_emotion : R) :
  let overall := compute_total_patched emotion_face_score agent_scores w_agent_final w_emotion in
  overall_emotion_face_score overall = Py.round emotion_face_score 2
  /\ match agent_scores with
     | None =>
         total_score overall = None /\ overall_agent_final_score overall = None
         /\ overall_knowledge_score overall = None
         /\ overall_attitude_score overall = None
     | Some a =>
         exists t f,
           total_score overall = Some t /\ 0 <= t <= 10
           /\ overall_agent_final_score overall = Some f /\ 0 <= f <= 10
           /\ overall_knowledge_score overall = Some (knowledge_score a)
           /\ overall_attitude_score overall = Some (attitude_score a)
     end.
Proof.
  intros overall. subst overall. destruct agent_scores as [a|]; cbn.
  - split; [reflexivity|]. eexists _, _.
    repeat split; try reflexivity; apply round_range, clamp_range.
  - repeat split; reflexivity.
Qed.
End judged_scores.

(** ** The report of an evaluation *)

Section evaluate_report.
Local Open Scope R_scope.




(** Property X8.  [evaluate] returns a report exactly when both files are
    found, the emotion log is read and the judgment gives scores. *)
Theorem evaluate_returns_iff (w : World) (self_base_dir session_id : string)
    (role : option string) (base_dir : option string) (transcript_path emotion_path : string)
    (w_knowledge w_attitude w_agent_final w_emotion : R) :
  (exists r,
      evaluate w self_base_dir session_id role base_dir transcript_path emotion_path
        w_knowledge w_attitude w_agent_final w_emotion = Py.Ok r)
  <-> (exists tp ep emo_text,
          transcript_lookup w self_base_dir base_dir session_id transcript_path = Py.Ok tp
          /\ emotion_lookup w self_base_dir base_dir session_id emotion_path = Py.Ok ep
          /\ read_text w ep = Py.Ok emo_text
          /\ judgment w role tp w_knowledge w_attitude <> None).
Proof.
  unfold transcript_lookup, emotion_lookup, use_base_of. split.
  - intros [r Hr]. unfold evaluate in Hr.
    destruct (if Py.truthy (Py.strip transcript_path) then _ else _) as [tp|?];
      cbn [mbind Py.result_bind Py.bind] in Hr; [|discriminate].
    destruct (if Py.truthy (Py.strip emotion_path) then _ else _) as [ep|?];
      cbn [mbind Py.result_bind Py.bind] in Hr; [|discriminate].
    destruct (read_text w ep) as [emo_text|?] eqn:Hread;
      cbn [mbind Py.result_bind Py.bind] in Hr; [|discriminate].
    exists tp, ep, emo_text.
    split; [reflexivity|]. split; [reflexivity|]. split; [exact Hread|].
    unfold judgment. revert Hr.
    destruct (score_emotion_face_base10 _) as [sc det].
    destruct (missing_envs w) as [|k ks]; [|discriminate].
    destruct (read_text w tp) as [text|e]; [|discriminate].
    destruct (_ ← new_agent w; _) as [a|e]; [|discriminate].
    intros _. discriminate.
  - intros (tp & ep & emo_text & Htp & Hep & Hread & Hj). unfold judgment in Hj.
    destruct (missing_envs w) as [|k ks] eqn:Henv; [|congruence].
    destruct (read_text w tp) as [text|e] eqn:Htext; [|congruence].
    destruct (new_agent w) as [[]|e] eqn:Hagent;
      cbn [mbind Py.result_bind Py.bind] in Hj; [|congruence].
    destruct (evaluate_turns w_knowledge w_attitude
                (judge w role (parse_transcript_to_turns text))) as [a|e] eqn:Hjudge;
      [|congruence].
    unfold evaluate.
    rewrite Htp. cbn [mbind Py.result_bind Py.bind].
    rewrite Hep. cbn [mbind Py.result_bind Py.bind].
    rewrite Hread. cbn [mbind Py.result_bind Py.bind].
    destruct (score_emotion_face_base10 _) as [sc det].
    rewrite Henv, Htext, Hagent. cbn [mbind Py.result_bind Py.bind].
    rewrite Hjudge. cbn [read_local mbind Py.result_bind Py.bind].
    unfold apply_data_sufficiency.
    destruct (Z.ltb_spec (Z.of_nat (length (filter (fun t => is_valid_answer (answer t))
                                              (parse_transcript_to_turns text)))) 0)
      as [Hneg|_]; [lia|].
    cbn [read_local mbind Py.result_bind Py.bind]. eexists. reflexivity.
Qed.
End evaluate_report.

(** ** The evaluation endpoint *)

Section endpoint.
Import evaluation_router.

Lemma evaluate_by_inputs (w : World) (self_base_dir session_id : string)
    (role : option string) (base_dir : option string) (transcript_path emotion_path : string)
    (w_knowledge w_attitude w_agent_final w_emotion : R) :
  match emotion_inputs w self_base_dir base_dir session_id transcript_path emotion_path with
  | Py.Raise e =>
      evaluation_service.evaluate w self_base_dir session_id role base_dir transcript_path
        emotion_path w_knowledge w_attitude w_agent_final w_emotion = Py.Raise e
  | Py.Ok (tp, _, _) =>
      match judgment w role tp w_knowledge w_attitude with
      | None =>
          evaluation_service.evaluate w self_base_dir session_id role base_dir
            transcript_path emotion_path w_knowledge w_attitude w_agent_final w_emotion
          = Py.Raise (Py.UnboundLocalError "ds_detail")
      | Some _ =>
          exists r,
            evaluation_service.evaluate w self_base_dir session_id role base_dir
              transcript_path emotion_path w_knowledge w_attitude w_agent_final w_emotion
            = Py.Ok r
      end
  end.
Proof.
  unfold emotion_inputs, transcript_lookup, emotion_lookup, use_base_of, judgment.
  unfold evaluation_service.evaluate.
  destruct (if Py.truthy (Py.strip transcript_path) then _ else _) as [tp|e];
    cbn [mbind Py.result_bind Py.bind]; [|reflexivity].
  destruct (if Py.truthy (Py.strip emotion_path) then _ else _) as [ep|e];
    cbn [mbind Py.result_bind Py.bind]; [|reflexivity].
  destruct (read_text w ep) as [emo_text|e];
    cbn [mbind Py.result_bind Py.bind]; [|reflexivity].
  destruct (score_emotion_face_base10 _) as [sc det].
  destruct (missing_envs w) as [|k ks]; [|reflexivity].
  destruct (read_text w tp) as [text|e]; [|reflexivity].
  destruct (_ ← new_agent w; _) as [a|e]; [|reflexivity].
  cbn [read_local mbind Py.result_bind Py.bind].
  unfold apply_data_sufficiency.
  destruct (Z.ltb_spec (Z.of_nat (length (filter (fun t => is_valid_answer (answer t))
                                            (parse_transcript_to_turns text)))) 0)
    as [Hneg|_]; [lia|].
  cbn [read_local mbind Py.result_bind Py.bind]. eexists. reflexivity.
Qed.

(** Property X9.  The answer of the evaluation endpoint: 404 exactly for a
    [FileNotFoundError] of the path lookups or of reading the emotion log; a
    report exactly when, after these, the judgment gives scores; 500 in
    every other case, among them missing credentials and a transcript file
    that cannot be read, whose error is caught before it can become a 404. *)
Theorem evaluate_endpoint_spec (w : World) (req : EvaluateReq) :
  match emotion_inputs w "exports" (base_dir req) (session_id req)
          (transcript_path req) (emotion_path req) with
  | Py.Raise (Py.FileNotFoundError msg) => evaluate w req = HTTPException 404 msg
  | Py.Raise e =>
      evaluate w req = HTTPException 500 (Py.exn_name e +:+ ": " +:+ Py.exn_str e)
  | Py.Ok (tp, _, _) =>
      match judgment w (role req) tp (w_knowledge req) (w_attitude req) with
      | None => exists detail, evaluate w req = HTTPException 500 detail
      | Some _ => exists r, evaluate w req = ok_report r
      end
      /\ (missing_envs w <> [] -> exists detail, evaluate w req = HTTPException 500 detail)
      /\ (forall msg,
             missing_envs w = [] -> read_text w tp = Py.Raise (Py.FileNotFoundError msg) ->
             exists detail, evaluate w req = HTTPException 500 detail)
  end.
Proof.
  pose proof (evaluate_by_inputs w "exports" (session_id req) (role req) (base_dir req)
                (transcript_path req) (emotion_path req) (w_knowledge req) (w_attitude req)
                (w_agent_final req) (w_emotion req)) as H.
  unfold evaluate.
  destruct (emotion_inputs _ _ _ _ _ _) as [[[tp ep] emo_text]|e].
  - assert (Hnone : judgment w (role req) tp (w_knowledge req) (w_attitude req) = None ->
                    exists detail,
                      match evaluation_service.evaluate w "exports" (session_id req) (role req)
                              (base_dir req) (transcript_path req) (emotion_path req)
                              (w_knowledge req) (w_attitude req) (w_agent_final req)
                              (w_emotion req) with
                      | Py.Ok report => ok_report report
                      | Py.Raise (Py.FileNotFoundError msg) => HTTPException 404 msg
                      | Py.Raise e => HTTPException 500 (Py.exn_name e +:+ ": " +:+ Py.exn_str e)
                      end = HTTPException 500 detail).
    { intros Hj. rewrite Hj in H. rewrite H. eauto. }
    split; [|split].
    + destruct (judgment _ _ _ _ _) as [a|]; [|now apply Hnone].
      destruct H as [r ->]. eauto.
    + intros Henv. apply Hnone. unfold judgment.
      destruct (missing_envs w); [congruence|reflexivity].
    + intros msg Henv Hread. apply Hnone. unfold judgment. now rewrite Henv, Hread.
  - rewrite H. destruct e; reflexivity.
Qed.

Lemma evaluate_endpoint_unreadable :
  exists detail, evaluate world_unreadable sample_request = HTTPException 500 detail.
Proof.
  pose proof (evaluate_endpoint_spec world_unreadable sample_request) as H.
  change (emotion_inputs world_unreadable "exports" (base_dir sample_request)
            (session_id sample_request) (transcript_path sample_request)
            (emotion_path sample_request))
    with (Py.Ok (A := string * string * string)
            ("exports/mock_abc123.txt", "exports/emotion_abc123.txt", "")) in H.
  cbv beta iota in H. destruct H as (_ & _ & H). exact (H _ eq_refl eq_refl).
Defined.
End endpoint.

(** ** The lines ahead of the first header *)

Section preamble.

End preamble.

(** ** The Log Writer, then the parser *)

Section sorted_input.
Context {A : Type} (leb : A -> A -> bool).

Lemma insert_sorted_last x l :
  Forall (fun y => leb y x = true) l -> Py.insert_sorted leb x l = l ++ [x].
Proof.
  induction 1 as [|y l Hy _ IH]; [reflexivity|].
  cbn [Py.insert_sorted]. rewrite Hy. cbn [app]. now rewrite IH.
Qed.

Lemma sorted_prefix_le acc x l :
  StronglySorted (fun a b => leb a b = true) (acc ++ x :: l) ->
  Forall (fun y => leb y x = true) acc.
Proof.
  induction acc as [|y acc IH]; cbn [app]; intros Hs; [constructor|].
  inversion Hs as [|? ? Hs' Hall]; subst. constructor.
  - apply (proj1 (List.Forall_forall _ _) Hall). apply in_or_app. right. now left.
  - apply IH, Hs'.
Qed.

Lemma sort_foldl_sorted l acc :
  StronglySorted (fun a b => leb a b = true) (acc ++ l) ->
  foldl (fun acc x => Py.insert_sorted leb x acc) acc l = acc ++ l.
Proof.
  revert acc. induction l as [|x l IH]; intros acc Hs.
  - now rewrite app_nil_r.
  - cbn [foldl]. rewrite insert_sorted_last.
    + rewrite IH; rewrite <- app_assoc; [reflexivity|exact Hs].
    + exact (sorted_prefix_le acc x l Hs).
Qed.

(** A list already in order is left as it is. *)
Lemma sort_sorted l :
  StronglySorted (fun a b => leb a b = true) l -> Py.sort leb l = l.
Proof. intros H. unfold Py.sort. now rewrite sort_foldl_sorted. Qed.
End sorted_input.

Section written_log.
Variable localtime : Z -> option Z.

Lemma span_word_all w : all_chars Py.isword w = true -> span_word w = (w, "").
Proof.
  induction w as [|c w IH]; [reflexivity|]. cbn [all_chars span_word].
  intros [Hc Hw]%andb_true_iff. now rewrite Hc, (IH Hw).
Qed.

Lemma match_ws_emo_word_ok w :
  w <> "" -> all_chars Py.isword w = true ->
  match_ws_emo (String " " ("emotion=" +:+ w)) = Some w.
Proof.
  intros Hne Hw. unfold match_ws_emo. change (Py.isspace " ") with true. cbv iota.
  change (Py.lstrip ("emotion=" +:+ w)) with ("emotion=" +:+ w).
  unfold match_emo. change (Py.startswith "emotion=" ("emotion=" +:+ w)) with true.
  cbv iota. change (drop 8 ("emotion=" +:+ w)) with w.
  rewrite (span_word_all w Hw). destruct w; [congruence|reflexivity].
Qed.

Lemma word_no_linebreak w : all_chars Py.isword w = true -> no_linebreak w.
Proof.
  intros H. eapply all_chars_impl; [|exact H].
  intros c Hc. destruct c as [[] [] [] [] [] [] [] []]; (discriminate Hc || reflexivity).
Qed.

Lemma word_last_not_space w :
  w <> "" -> all_chars Py.isword w = true ->
  match last_char w with Some c => Py.isspace c = false | None => True end.
Proof.
  intros Hne Hw. apply stripped_last. unfold stripped. now apply strip_word.
Qed.

(** The line of a tick, without its line feed. *)
Lemma log_line_body entry :
  emotion_service.log_line (fst entry) (snd entry) ""
  = (stamp (snd entry) +:+ String "009" ("emotion=" +:+ written_label (fst entry))
     +:+ String "009" "") +:+ LF.
Proof.
  unfold emotion_service.log_line, written_label, stamp, LF.
  rewrite !app_assoc_s. reflexivity.
Qed.

Lemma parse_line_log_line entry :
  readable entry ->
  parse_line localtime
    (stamp (snd entry) +:+ String "009" ("emotion=" +:+ written_label (fst entry))
     +:+ String "009" "")
  = Some (event_of entry).
Proof.
  intros (Hv & Hne & Hw). destruct entry as [self d]. cbn [fst snd] in *.
  set (w := written_label self) in *.
  unfold parse_line.
  assert (Hs : Py.strip (stamp d +:+ String "009" ("emotion=" +:+ w) +:+ String "009" "")
               = stamp d +:+ String "009" ("emotion=" +:+ w)).
  { rewrite <- app_assoc_s. apply strip_app_spaces; [|reflexivity].
    unfold stamp. destruct (isoformat_first d) as (c & r & -> & Hc).
    rewrite !app_cons. apply stripped_intro; [exact Hc|].
    rewrite <- !app_cons.
    rewrite (last_char_app_r (String c r +:+ "Z")) by (apply app_nonempty_r; assumption).
    rewrite (last_char_app_r (String "009" "emotion=") w) by assumption.
    now apply word_last_not_space. }
  rewrite Hs. rewrite replace_char_app, (replace_char_id _ _ _ (stamp_no_tab d)).
  assert (Hr : Py.replace_char "009" " " (String "009" ("emotion=" +:+ w))
               = " emotion=" +:+ w).
  { change (String "009" ("emotion=" +:+ w)) with (String "009" "emotion=" +:+ w).
    rewrite replace_char_app.
    change (Py.replace_char "009" " " (String "009" "emotion=")) with " emotion=".
    f_equal. apply replace_char_id. eapply all_chars_impl; [|exact Hw].
    intros c Hc. destruct c as [[] [] [] [] [] [] [] []]; (discriminate Hc || reflexivity). }
  rewrite Hr.
  rewrite truthy_app_l by (unfold stamp; apply truthy_app_r). cbn [negb].
  rewrite _EMO_RE_match_stamp by now apply match_ws_emo_word_ok.
  rewrite _parse_iso_z_stamp by assumption.
  unfold event_of. cbn [fst snd]. fold w.
  destruct w as [|c w']; [congruence|]. reflexivity.
Qed.

Lemma log_line_no_linebreak entry :
  readable entry ->
  no_linebreak (stamp (snd entry) +:+ String "009" ("emotion=" +:+ written_label (fst entry))
                +:+ String "009" "").
Proof.
  intros (_ & _ & Hw). unfold no_linebreak, stamp.
  change (String "009" ("emotion=" +:+ written_label (fst entry)))
    with (String "009" "emotion=" +:+ written_label (fst entry)).
  rewrite !all_chars_app.
  rewrite (iso_no_linebreak _ (isoformat_chars (snd entry))).
  rewrite (word_no_linebreak _ Hw). reflexivity.
Qed.

Lemma omap_parse_log entries :
  Forall readable entries ->
  omap (parse_line localtime) (Py.splitlines (log_of entries)) = map event_of entries.
Proof.
  induction 1 as [|entry entries He _ IH]; [reflexivity|].
  cbn [log_of fold_right map]. fold (log_of entries).
  rewrite log_line_body, splitlines_app_LF.
  rewrite (lines_of_line _ (log_line_no_linebreak entry He)). cbn [app].
  change (omap (parse_line localtime) (?x :: ?l))
    with (match parse_line localtime x with
          | Some ev => ev :: omap (parse_line localtime) l
          | None => omap (parse_line localtime) l
          end).
  rewrite (parse_line_log_line entry He), IH. reflexivity.
Qed.

(** Property X11.  What the Log Writer appends the parser reads back: one
    event per line, with the time of the tick and the label in lower case,
    and in the order of the lines when their times do not decrease. *)
Theorem log_round_trip (entries : list (emotion_service.EmotionService * datetime.t)) :
  Forall readable entries ->
  parse_emotions localtime (log_of entries) ≡ₚ map event_of entries
  /\ (StronglySorted (fun a b => (datetime.to_micro (snd a) <= datetime.to_micro (snd b))%Z)
                     entries ->
      parse_emotions localtime (log_of entries) = map event_of entries).
Proof.
  intros H. unfold parse_emotions. rewrite (omap_parse_log entries H).
  split; [apply sort_perm|]. intros Hs. apply sort_sorted.
  clear H. induction Hs as [|e l _ IH Hall]; cbn [map]; constructor; [exact IH|].
  apply List.Forall_forall. intros ev ([s d] & <- & Hin)%in_map_iff.
  apply Z.leb_le. cbn [event_of ts fst snd].
  exact (proj1 (List.Forall_forall _ _) Hall (s, d) Hin).
Qed.

(** Property X12.  A timestamp as the services write it, [isoformat] and a
    [Z], is read back as the same instant, whatever the local time zone. *)
Theorem parse_iso_z_round_trip (d : datetime.t) :
  datetime.valid d = true ->
  _parse_iso_z localtime (datetime.isoformat d +:+ "Z") = Some (datetime.to_micro d)
  /\ (0 <= datetime.to_micro d <= datetime.max_micro)%Z.
Proof.
  intros Hv. split; [exact (_parse_iso_z_stamp localtime d Hv)|].
  exact (to_micro_range d Hv).
Qed.
End written_log.

Lemma log_round_trip_witness :
  parse_emotions (fun _ => None) (log_of sample_ticks) = map event_of sample_ticks.
Proof.
  refine (proj2 (log_round_trip (fun _ => None) sample_ticks _) _).
  - repeat constructor; discriminate.
  - repeat constructor; discriminate.
Defined.

Lemma parse_iso_z_round_trip_witness :
  datetime.valid sample_time = true
  /\ _parse_iso_z (fun _ => None) (datetime.isoformat sample_time +:+ "Z")
     = Some (datetime.to_micro sample_time).
Proof.
  split; [reflexivity|].
  exact (proj1 (parse_iso_z_round_trip (fun _ => None) sample_time eq_refl)).
Defined.

(** ** Starting the capture again *)

Section restart.
Import emotion_service.

(** After [start_logging] both workers are alive and the session is
    active, from any state. *)
Lemma start_logging_alive (self : EmotionService) (sid : string) :
  let self' := fst (start_logging self sid) in
  alive (_cam_thread self') = true /\ alive (_log_thread self') = true
  /\ sid ∈ _logging_sessions self'.
Proof.
  unfold start_logging, start_camera.
  destruct (alive (_cam_thread self)) eqn:Hc, (alive (_log_thread self)) eqn:Hl;
    cbn; rewrite ?Hc, ?Hl; cbn; rewrite ?Hc, ?Hl; repeat split; set_solver.
Qed.

(** Property X13.  [start_logging] is idempotent from any state: a second
    call for the same session changes nothing and starts no thread. *)
Theorem start_logging_idempotent (self : EmotionService) (sid : string) :
  let self' := fst (start_logging self sid) in
  start_logging self' sid = (self', []).
Proof.
  cbv zeta.
  destruct (start_logging_alive self sid) as (Hc & Hl & Hin).
  destruct (fst (start_logging self sid)) as [sc ct le X lt sl]. cbn in Hc, Hl, Hin.
  unfold start_logging, start_camera. cbn. rewrite Hc. cbn. rewrite Hl. cbn.
  f_equal. f_equal. set_solver.
Qed.

(** Property X14.  A call of [start_logging] that finds the workers of an
    earlier run still alive, with their stop flags set, starts no thread and
    does not clear the flags: both workers are free to leave their loops
    while the session is active. A worker that has already left is started
    again, with its flag cleared. *)
Theorem start_logging_after_stop (self : EmotionService) (sid : string) :
  let self' := fst (start_logging self sid) in
  let effects := snd (start_logging self sid) in
  (alive (_log_thread self) = true ->
   _stop_log self' = _stop_log self /\ ~ In (ThreadStart LogWriter) effects
   /\ (_stop_log self = true ->
       exists self'', step self' LogWriterExit = Some (self'', [])
                      /\ alive (_log_thread self'') = false
                      /\ sid ∈ _logging_sessions self''))
  /\ (alive (_cam_thread self) = true ->
      _stop_cam self' = _stop_cam self /\ ~ In (ThreadStart Camera) effects
      /\ (_stop_cam self = true ->
          exists self'', step self' CameraExit = Some (self'', [])
                         /\ alive (_cam_thread self'') = false
                         /\ sid ∈ _logging_sessions self''))
  /\ (alive (_log_thread self) = false ->
      _stop_log self' = false /\ In (ThreadStart LogWriter) effects)
  /\ (alive (_cam_thread self) = false ->
      _stop_cam self' = false /\ In (ThreadStart Camera) effects).
Proof.
  cbv zeta. unfold start_logging, start_camera.
  destruct (alive (_cam_thread self)) eqn:Hc, (alive (_log_thread self)) eqn:Hl;
    cbn; rewrite ?Hc, ?Hl; cbn; rewrite ?Hc, ?Hl; cbn.
  all: split; [intros Hl'; try discriminate Hl'|].
  all: try (split; [reflexivity|]; split; [intuition discriminate|];
            intros Hs; unfold step; cbn; rewrite ?Hl, ?Hs; cbn;
            eexists; split; [reflexivity|]; cbn; split; [reflexivity|set_solver]).
  all: split; [intros Hc'; try discriminate Hc'|].
  all: try (split; [reflexivity|]; split; [intuition discriminate|];
            intros Hs; unfold step; cbn; rewrite ?Hc, ?Hs; cbn;
            eexists; split; [reflexivity|]; cbn; split; [reflexivity|set_solver]).
  all: split; intros H; try discriminate H; split; try reflexivity; cbn; tauto.
Qed.

Lemma start_logging_after_stop_witness :
  let stopped := fst (stop_logging (fst (start_logging init "s1")) "s1") in
  let self' := fst (start_logging stopped "s2") in
  _stop_log self' = true /\ snd (start_logging stopped "s2") = []
  /\ "s2" ∈ _logging_sessions self'
  /\ exists self'', step self' LogWriterExit = Some (self'', [])
                    /\ alive (_log_thread self'') = false.
Proof.
  cbv zeta.
  pose proof (start_logging_after_stop
                (fst (stop_logging (fst (start_logging init "s1")) "s1")) "s2") as H.
  cbv zeta in H. destruct H as (Hlog & _).
  destruct (Hlog eq_refl) as (Hflag & _ & Hexit).
  destruct (Hexit eq_refl) as (s'' & Hstep & Hdead & _).
  split; [rewrite Hflag; reflexivity|]. split; [reflexivity|].
  split; [cbn; set_solver|]. exists s''. split; [exact Hstep|exact Hdead].
Defined.
End restart.

(** ** File names *)

Section file_names.






End file_names.

(** ** The role of a job description *)

Section role.
Import mock_agent_service.

Lemma eqb_ci_letter a b :
  eqb_ci a b = true -> Py.isupper a || Py.islower a = true ->
  Py.isupper b || Py.islower b = true.
Proof.
  unfold eqb_ci. intros H Ha. apply Ascii.eqb_eq in H.
  destruct a as [[] [] [] [] [] [] [] []]; try discriminate Ha;
    destruct b as [[] [] [] [] [] [] [] []]; try discriminate H; reflexivity.
Qed.

Lemma startswith_ci_split p s :
  startswith_ci p s = true ->
  exists t r, s = t +:+ r /\ String.length t = String.length p
              /\ startswith_ci p t = true
              /\ (all_chars (fun c => Py.isupper c || Py.islower c) p = true ->
                  all_chars (fun c => Py.isupper c || Py.islower c) t = true).
Proof.
  revert s. induction p as [|a p IH]; intros s H.
  - exists "", s. repeat split; reflexivity.
  - destruct s as [|b s]; [discriminate|]. cbn [startswith_ci] in H.
    destruct (eqb_ci a b) eqn:E; [|discriminate].
    destruct (IH s H) as (t & r & -> & Hl & Ht & Hall).
    exists (String b t), r. split; [reflexivity|]. split; [cbn; now rewrite Hl|].
    split; [cbn [startswith_ci]; now rewrite E|].
    cbn [all_chars]. intros [Ha Hp]%andb_true_iff.
    now rewrite (eqb_ci_letter a b E Ha), (Hall Hp).
Qed.

Lemma startswith_ci_app p t r : startswith_ci p t = true -> startswith_ci p (t +:+ r) = true.
Proof.
  revert t. induction p as [|a p IH]; intros t H; [reflexivity|].
  destruct t as [|b t]; [discriminate|]. rewrite app_cons. cbn [startswith_ci] in *.
  destruct (eqb_ci a b); [now apply IH|discriminate].
Qed.

Lemma match_title_split s n :
  match_title s = Some n ->
  exists t r, s = t +:+ r /\ String.length t = n /\ is_title t = true
              /\ all_chars (fun c => Py.isupper c || Py.islower c) t = true.
Proof.
  unfold match_title, is_title. cbn [existsb].
  destruct (startswith_ci "Engineer" s) eqn:E1;
    [|destruct (startswith_ci "Developer" s) eqn:E2;
      [|destruct (startswith_ci "Scientist" s) eqn:E3;
        [|destruct (startswith_ci "Manager" s) eqn:E4; [|discriminate]]]];
    intros [= <-];
    match goal with
    | H : startswith_ci ?p s = true |- _ =>
        destruct (startswith_ci_split p s H) as (t & r & -> & Hl & Ht & Hall)
    end;
    exists t, r; (split; [reflexivity|]); (split; [exact Hl|]);
    (split; [|apply Hall; reflexivity]);
    rewrite Ht, Hl; cbn; rewrite ?orb_true_r; reflexivity.
Qed.

Lemma is_title_match t r : is_title t = true -> match_title (t +:+ r) <> None.
Proof.
  unfold is_title, match_title. cbn [existsb]. rewrite orb_false_r.
  intros H.
  repeat match type of H with
         | (_ || _) = true => apply orb_true_iff in H as [H|H]
         end;
    apply andb_true_iff in H as [H _]; rewrite (startswith_ci_app _ t r H);
    repeat match goal with |- context [if ?b then _ else _] => destruct b end;
    discriminate.
Qed.

Lemma letters_are_letter_or_space t :
  all_chars (fun c => Py.isupper c || Py.islower c) t = true ->
  all_chars letter_or_space t = true.
Proof.
  apply all_chars_impl. intros c Hc. unfold letter_or_space. now rewrite Hc.
Qed.

Lemma letter_or_blank_space c : letter_or_blank c = true -> letter_or_space c = true.
Proof.
  unfold letter_or_blank, letter_or_space.
  destruct c as [[] [] [] [] [] [] [] []]; (discriminate || reflexivity).
Qed.

Lemma covers_cons c s n : letter_or_space c = true -> covers s n -> covers (String c s) (S n).
Proof.
  intros Hc (g & r & -> & Hl & Hall & a & c' & t & -> & Hc' & Ht).
  exists (String c (a +:+ String c' t)), r. split; [reflexivity|].
  split; [cbn; now rewrite Hl|]. split; [cbn [all_chars]; now rewrite Hc, Hall|].
  exists (String c a), c', t. repeat split; assumption.
Qed.

Lemma match_titled_covers s n : match_titled s = Some n -> covers s n.
Proof.
  revert n. induction s as [|c s IH]; intros n; [discriminate|].
  cbn [match_titled]. destruct (letter_or_blank c) eqn:Hc; [|discriminate].
  destruct (match_titled s) as [m|] eqn:E.
  - intros [= <-]. apply covers_cons; [now apply letter_or_blank_space|now apply IH].
  - destruct (match_title s) as [m|] eqn:Et; [|discriminate]. intros [= <-].
    destruct (match_title_split s m Et) as (t & r & -> & Hl & Ht & Hall).
    exists (String c t), r. split; [reflexivity|]. split; [cbn; now rewrite Hl|].
    split.
    + cbn [all_chars]. now rewrite (letter_or_blank_space c Hc), letters_are_letter_or_space.
    + exists "", c, t. repeat split; assumption.
Qed.

Lemma match_ws_titled_covers s n : match_ws_titled s = Some n -> covers s n.
Proof.
  revert n. induction s as [|c s IH]; intros n; [discriminate|].
  cbn [match_ws_titled]. destruct (Py.isspace c) eqn:Hc.
  - destruct (match_ws_titled s) as [m|] eqn:E.
    + intros [= <-]. apply covers_cons; [|now apply IH].
      unfold letter_or_space. rewrite Hc. apply orb_true_r.
    + apply match_titled_covers.
  - apply match_titled_covers.
Qed.

Lemma covers_prefix p s n :
  all_chars (fun c => Py.isupper c || Py.islower c) p = true ->
  startswith_ci p s = true ->
  covers (evaluation_service.drop (String.length p) s) n ->
  covers s (String.length p + n).
Proof.
  intros Hp Hs Hc. destruct (startswith_ci_split p s Hs) as (t & r & -> & Hl & _ & Hall).
  rewrite <- Hl, drop_app in Hc.
  destruct Hc as (g & r' & -> & Hg & Hshape & a & c & t' & -> & Hc & Ht').
  exists (t +:+ a +:+ String c t'), r'. split; [now rewrite !app_assoc_s|].
  split; [rewrite length_app_s; lia|]. split.
  - rewrite all_chars_app, Hshape, (letters_are_letter_or_space t (Hall Hp)). reflexivity.
  - exists (t +:+ a), c, t'. split; [now rewrite !app_assoc_s|]. split; assumption.
Qed.

Lemma match_role_covers s n : match_role s = Some n -> covers s n.
Proof.
  unfold match_role.
  assert (Hafter : forall p,
             all_chars (fun c => Py.isupper c || Py.islower c) p = true ->
             forall m,
               (if startswith_ci p s then
                  match match_ws_titled (evaluation_service.drop (String.length p) s) with
                  | Some n => Some (String.length p + n)%nat
                  | None => None
                  end
                else None) = Some m -> covers s m).
  { intros p Hp m. destruct (startswith_ci p s) eqn:Hs; [|discriminate].
    destruct (match_ws_titled _) as [k|] eqn:E; [|discriminate]. intros [= <-].
    apply covers_prefix; [assumption..|]. now apply match_ws_titled_covers. }
  destruct (if startswith_ci "Senior" s then _ else _) as [m|] eqn:E1.
  { intros [= <-]. apply (Hafter "Senior" eq_refl m E1). }
  destruct (if startswith_ci "Junior" s then _ else _) as [m|] eqn:E2.
  { intros [= <-]. apply (Hafter "Junior" eq_refl m E2). }
  destruct (if startswith_ci "Lead" s then _ else _) as [m|] eqn:E3.
  { intros [= <-]. apply (Hafter "Lead" eq_refl m E3). }
  apply match_ws_titled_covers.
Qed.

Lemma search_role_shape s g :
  search_role s = Some g -> substring_of g s /\ role_shape g.
Proof.
  assert (Hhere : forall s n, match_role s = Some n ->
                              substring_of (String.substring 0 n s) s
                              /\ role_shape (String.substring 0 n s)).
  { intros s0 n E. destruct (match_role_covers _ _ E) as (g0 & r & Hs & Hl & Hshape).
    subst s0. rewrite <- Hl, substring_prefix. split; [|exact Hshape].
    exists "", r. reflexivity. }
  induction s as [|c s IH].
  - cbn [search_role]. destruct (match_role "") as [n|] eqn:E; [|discriminate].
    discriminate E.
  - cbn [search_role]. destruct (match_role (String c s)) as [n|] eqn:E.
    + intros Hg. pose proof (Hhere _ _ E) as Hh.
      replace g with (String.substring 0 n (String c s)) by congruence. exact Hh.
    + intros H. destruct (IH H) as [Hsub Hshape]. split; [|exact Hshape].
      now apply substring_of_cons.
Qed.

(** *** A match exists wherever a title follows a letter or a blank *)

Lemma match_titled_some c b :
  letter_or_blank c = true -> match_title b <> None -> match_titled (String c b) <> None.
Proof.
  intros Hc Hb. cbn [match_titled]. rewrite Hc.
  destruct (match_titled b); [discriminate|].
  destruct (match_title b); [discriminate|congruence].
Qed.

Lemma match_ws_titled_some s : match_titled s <> None -> match_ws_titled s <> None.
Proof.
  destruct s as [|c s]; [auto|]. intros H. cbn [match_ws_titled].
  destruct (Py.isspace c); [|exact H].
  destruct (match_ws_titled s); [discriminate|exact H].
Qed.

Lemma match_role_some s : match_ws_titled s <> None -> match_role s <> None.
Proof.
  intros H. unfold match_role.
  repeat match goal with
         | |- context [if ?b then ?x else None] => destruct (if b then x else None)
         end; try discriminate. exact H.
Qed.

Lemma search_role_some a s : match_role s <> None -> search_role (a +:+ s) <> None.
Proof.
  intros H. induction a as [|c a IH].
  - rewrite app_empty_l. destruct s as [|c s]; cbn [search_role];
      destruct (match_role _); (discriminate || congruence).
  - rewrite app_cons. cbn [search_role].
    destruct (match_role (String c (a +:+ s))); [discriminate|exact IH].
Qed.

Lemma role_shape_titled g a b : role_shape g -> titled (a +:+ g +:+ b).
Proof.
  intros (_ & a' & c & t & -> & Hc & Ht).
  exists (a +:+ a'), c, (t +:+ b). split; [now rewrite !app_assoc_s, ?app_cons|].
  split; [exact Hc|now apply is_title_match].
Qed.

Lemma search_role_titled jd_text : search_role jd_text <> None <-> titled jd_text.
Proof.
  split.
  - destruct (search_role jd_text) as [g|] eqn:E; [|congruence]. intros _.
    destruct (search_role_shape _ _ E) as [(a & b & ->) Hshape].
    now apply role_shape_titled.
  - intros (a & c & b & -> & Hc & Hb).
    apply search_role_some, match_role_some, match_ws_titled_some.
    now apply match_titled_some.
Qed.

(** *** The stripped match *)

Lemma startswith_ci_letters p t :
  startswith_ci p t = true -> String.length t = String.length p ->
  all_chars (fun c => Py.isupper c || Py.islower c) p = true ->
  all_chars (fun c => Py.isupper c || Py.islower c) t = true.
Proof.
  revert t. induction p as [|a p IH]; intros [|b t]; try discriminate; [reflexivity|].
  cbn [startswith_ci String.length all_chars].
  destruct (eqb_ci a b) eqn:E; [|discriminate].
  intros H [= Hl] [Ha Hp]%andb_true_iff.
  now rewrite (eqb_ci_letter a b E Ha), IH.
Qed.

Lemma is_title_letters t :
  is_title t = true ->
  all_chars (fun c => Py.isupper c || Py.islower c) t = true /\ t <> "".
Proof.
  unfold is_title. cbn [existsb]. rewrite orb_false_r. intros H.
  repeat match type of H with
         | (_ || _) = true => apply orb_true_iff in H as [H|H]
         end;
    apply andb_true_iff in H as [H Hl]; apply Nat.eqb_eq in Hl;
    (split; [now apply (startswith_ci_letters _ t H Hl)|]);
    intros ->; discriminate Hl.
Qed.

Lemma letter_not_space c : Py.isupper c || Py.islower c = true -> Py.isspace c = false.
Proof. destruct c as [[] [] [] [] [] [] [] []]; (discriminate || reflexivity). Qed.

Lemma all_chars_last_char p s :
  all_chars p s = true ->
  match last_char s with Some c => p c = true | None => True end.
Proof.
  induction s as [|c s IH]; [intros; exact I|]. cbn [all_chars].
  intros [Hc Hs]%andb_true_iff. destruct s as [|c' s']; [exact Hc|].
  exact (IH Hs).
Qed.

Lemma lstrip_before p a x t :
  Py.isspace x = false -> all_chars p a = true ->
  exists a', Py.lstrip (a +:+ String x t) = a' +:+ String x t /\ all_chars p a' = true.
Proof.
  intros Hx. induction a as [|y a IH]; intros Ha.
  - exists "". rewrite app_empty_l. cbn [Py.lstrip]. now rewrite Hx.
  - rewrite app_cons. cbn [Py.lstrip]. cbn [all_chars] in Ha.
    apply andb_true_iff in Ha as [Hy Ha]. destruct (Py.isspace y).
    + exact (IH Ha).
    + exists (String y a). split; [reflexivity|]. cbn [all_chars]. now rewrite Hy, Ha.
Qed.

Lemma strip_role_shape g :
  role_shape g ->
  all_chars letter_or_space (Py.strip g) = true
  /\ exists a t, Py.strip g = a +:+ t /\ is_title t = true.
Proof.
  intros (Hall & a & c & t & -> & Hc & Ht).
  destruct (is_title_letters t Ht) as [Hlet Hne].
  destruct t as [|x t]; [congruence|].
  assert (Hx : Py.isspace x = false).
  { cbn [all_chars] in Hlet. apply andb_true_iff in Hlet as [Hx _].
    now apply letter_not_space. }
  assert (Hac : all_chars letter_or_space (a +:+ String c "") = true).
  { rewrite all_chars_app in Hall |- *. apply andb_true_iff in Hall as [Ha Hct].
    cbn [all_chars] in Hct |- *. apply andb_true_iff in Hct as [Hc' _].
    now rewrite Ha, Hc'. }
  destruct (lstrip_before letter_or_space (a +:+ String c "") x t Hx Hac) as (a' & Hl & Ha').
  assert (Hg : Py.strip (a +:+ String c (String x t)) = a' +:+ String x t).
  { unfold Py.strip.
    replace (a +:+ String c (String x t)) with ((a +:+ String c "") +:+ String x t)
      by now rewrite app_assoc_s.
    rewrite Hl. apply rstrip_id. rewrite last_char_app.
    pose proof (all_chars_last_char _ _ Hlet) as Hlast.
    destruct (last_char (String x t)) as [z|]; [|exact I].
    now apply letter_not_space. }
  rewrite Hg. split.
  - rewrite all_chars_app, Ha'. now apply letters_are_letter_or_space.
  - exists a', (String x t). split; [reflexivity|exact Ht].
Qed.

(** *** The role line of an export *)

Lemma role_from_jd_letters jd_text :
  all_chars letter_or_space (_role_from_jd jd_text None) = true.
Proof.
  unfold _role_from_jd. cbn [present].
  destruct (search_role jd_text) as [g|] eqn:E; [|reflexivity].
  apply strip_role_shape. exact (proj2 (search_role_shape _ _ E)).
Qed.

Lemma splitlines_all_chars_aux p n :
  forall s, (String.length s <= n)%nat -> all_chars p s = true ->
            Forall (fun l => all_chars p l = true) (Py.splitlines s).
Proof.
  induction n as [|n IH]; intros [|c s] Hl Hs; try (cbn [Py.splitlines]; constructor; fail).
  - cbn in Hl. lia.
  - cbn [all_chars] in Hs. apply andb_true_iff in Hs as [Hc Hs]. cbn [String.length] in Hl.
    cbn [Py.splitlines]. destruct (Py.islinebreak c).
    + constructor; [reflexivity|]. destruct s as [|c' s']; [constructor|].
      destruct (Ascii.eqb c "013" && Ascii.eqb c' "010").
      * apply IH; [cbn [String.length] in Hl; lia|].
        cbn [all_chars] in Hs. now apply andb_true_iff in Hs as [_ Hs].
      * apply IH; [lia|exact Hs].
    + pose proof (IH s ltac:(lia) Hs) as H. destruct (Py.splitlines s) as [|l ls].
      * constructor; [cbn [all_chars]; now rewrite Hc|constructor].
      * inversion H; subst. constructor; [cbn [all_chars]; now rewrite Hc|assumption].
Qed.

Lemma all_chars_substring p x s :
  substring_of x s -> all_chars p s = true -> all_chars p x = true.
Proof.
  intros (a & b & ->). rewrite !all_chars_app.
  intros [_ [H _]%andb_true_iff]%andb_true_iff. exact H.
Qed.

Lemma qa_header_no_bracket s :
  all_chars (fun c => negb (Ascii.eqb c "[")) s = true -> qa_header s = false.
Proof.
  destruct s as [|c s]; [reflexivity|]. cbn [all_chars].
  intros [Hc _]%andb_true_iff. apply negb_true_iff in Hc.
  unfold qa_header, evaluation_service._Q_HEADER_RE_match,
    evaluation_service._A_HEADER_RE_match, evaluation_service.header_match.
  change ("[" +:+ "Q") with "[Q". change ("[" +:+ "A") with "[A".
  cbn [Py.startswith]. rewrite Ascii.eqb_sym, Hc. reflexivity.
Qed.

End role.

(** Property X21.  A role taken from the job description never makes the role
    line of an export look like a header: the hypothesis of the round trip on
    that line holds for every session without a role of its own. *)
Theorem derived_role_line_header_free (s : mock_agent_service.MockSession) :
  mock_agent_service.present (mock_agent_service.role s) = false ->
  header_free
    ("Role: " +:+ mock_agent_service.role_line
                    (fun jd_text => mock_agent_service._role_from_jd jd_text None) s).
Proof.
  intros Hrole. unfold header_free, lines_of, mock_agent_service.role_line. rewrite Hrole.
  set (r := mock_agent_service._role_from_jd (mock_agent_service.jd_text s) None).
  assert (Hall : all_chars (fun c => negb (Ascii.eqb c "[")) (("Role: " +:+ r) +:+ LF) = true).
  { rewrite !all_chars_app. apply andb_true_iff. split; [|reflexivity].
    apply andb_true_iff. split; [reflexivity|].
    apply (all_chars_impl letter_or_space); [|apply role_from_jd_letters].
    intros c. unfold letter_or_space.
    destruct c as [[] [] [] [] [] [] [] []]; (discriminate || reflexivity). }
  pose proof (splitlines_all_chars_aux _ _ _ (Nat.le_refl _) Hall) as Hlines.
  eapply List.Forall_impl; [|exact Hlines].
  intros l Hl. cbv beta in Hl. apply qa_header_no_bracket.
  exact (all_chars_substring _ _ _ (strip_substring l) Hl).
Qed.

Lemma derived_role_line_header_free_witness :
  mock_agent_service.role_line
    (fun jd_text => mock_agent_service._role_from_jd jd_text None) hiring_session
  = "a Senior Data Engineer"
  /\ header_free
       ("Role: " +:+ mock_agent_service.role_line
                       (fun jd_text => mock_agent_service._role_from_jd jd_text None)
                       hiring_session).
Proof.
  split; [reflexivity|]. apply derived_role_line_header_free. reflexivity.
Defined.

(** Property X16.  [_role_from_jd]: a role given by the caller wins; otherwise
    the role is searched in the job description. Without a title after a
    letter or a blank anywhere the answer is "the position"; with one it is a
    piece of the job description, without white space around it, made of
    letters and white space only and ending with a title. *)
Theorem role_from_jd_spec (jd_text : string) (fallback : option string) :
  (mock_agent_service.present fallback = true ->
   mock_agent_service._role_from_jd jd_text fallback = mock_agent_service.text_of fallback)
  /\ (mock_agent_service.present fallback = false ->
      (~ titled jd_text ->
       mock_agent_service._role_from_jd jd_text fallback = "the position")
      /\ (titled jd_text ->
          let role := mock_agent_service._role_from_jd jd_text fallback in
          substring_of role jd_text
          /\ stripped role
          /\ all_chars letter_or_space role = true
          /\ exists a t, role = a +:+ t /\ is_title t = true)).
Proof.
  unfold mock_agent_service._role_from_jd. split; [intros ->; reflexivity|].
  intros ->. pose proof (search_role_titled jd_text) as Hiff. split.
  - intros Hno. destruct (mock_agent_service.search_role jd_text); [|reflexivity].
    exfalso. apply Hno, Hiff. discriminate.
  - intros Ht. apply Hiff in Ht.
    destruct (mock_agent_service.search_role jd_text) as [g|] eqn:E; [|congruence].
    destruct (search_role_shape _ _ E) as [Hsub Hshape]. cbv zeta.
    split; [eapply substring_of_trans; [apply strip_substring|exact Hsub]|].
    split; [apply strip_stripped|]. now apply strip_role_shape.
Qed.

(** ** The turns of a mock interview *)

Section sessions.
Import mock_agent_service.

Lemma rstrip_char_last a s :
  match last_char (Py.rstrip_char a s) with Some c => c <> a | None => True end.
Proof.
  induction s as [|c s IH]; [exact I|]. cbn [Py.rstrip_char].
  destruct (Py.rstrip_char a s) as [|c' r] eqn:E.
  - destruct (Ascii.eqb_spec c a); cbn; auto.
  - exact IH.
Qed.

Lemma as_question_endswith reply : Py.endswith "?" (as_question reply) = true.
Proof.
  unfold as_question. destruct (Py.endswith "?" (Py.strip reply)) eqn:E; [exact E|].
  apply endswith_app.
Qed.

(** Property X17.  Every question the service stores ends with a question
    mark: a reply that ends with one is taken stripped, any other has its
    trailing dots replaced by one. *)
Theorem as_question_spec (reply : string) :
  Py.endswith "?" (as_question reply) = true
  /\ as_question reply <> ""
  /\ (Py.endswith "?" (Py.strip reply) = true -> as_question reply = Py.strip reply)
  /\ (Py.endswith "?" (Py.strip reply) = false ->
      as_question reply = Py.rstrip_char "." (Py.strip reply) +:+ "?"
      /\ match last_char (Py.rstrip_char "." (Py.strip reply)) with
         | Some c => c <> "."%char
         | None => True
         end).
Proof.
  split; [apply as_question_endswith|].
  unfold as_question. destruct (Py.endswith "?" (Py.strip reply)) eqn:E.
  - split; [|split; [reflexivity|discriminate]].
    intros H. rewrite H in E. discriminate E.
  - split; [apply app_nonempty_r; discriminate|].
    split; [discriminate|]. intros _. split; [reflexivity|apply rstrip_char_last].
Qed.

Lemma asked_new q now :
  Py.endswith "?" q = true -> asked (new_turn (Some q) None now).
Proof. intros H. exists q. split; [reflexivity|exact H]. Qed.

(** Property X18.  A call of [start_session] with a CV, a JD and a reply of
    the model stores a dialogue of one turn, the question it returns, and
    leaves the other sessions as they are. *)
Theorem start_session_spec (sessions : gmap string MockSession)
    (session_id cv_text jd_text : string) (role : option string)
    (reply : Py.result string) (now : datetime.t) :
  let result := start_session sessions session_id cv_text jd_text role reply now in
  (forall other, other <> session_id -> fst result !! other = sessions !! other)
  /\ (cv_text = "" \/ jd_text = "" ->
      result = (sessions, HTTPException 400 "cv_text and jd_text are required"))
  /\ (cv_text <> "" -> jd_text <> "" ->
      match reply with
      | Py.Ok r =>
          snd result = Returned (as_question r)
          /\ exists s, fst result !! session_id = Some s
                       /\ turns s = [new_turn (Some (as_question r)) None now]
                       /\ dialogue (turns s)
                       /\ mock_agent_service.session_id s = session_id
                       /\ mock_agent_service.role s = role
      | Py.Raise e =>
          snd result = Raised e
          /\ exists s, fst result !! session_id = Some s /\ turns s = []
      end).
Proof.
  cbv zeta. unfold start_session.
  destruct cv_text as [|c cv]; [|destruct jd_text as [|j jd]]; cbn [Py.truthy negb orb].
  - split; [reflexivity|]. split; [reflexivity|]. congruence.
  - split; [reflexivity|]. split; [reflexivity|]. congruence.
  - split.
    { intros other Ho. destruct reply; cbn [fst];
        rewrite ?lookup_insert_ne by congruence; reflexivity. }
    split; [intros [H|H]; discriminate H|]. intros _ _.
    destruct reply as [r|e]; cbn [fst snd].
    + split; [reflexivity|]. eexists. split; [apply lookup_insert_eq|].
      cbn [turns with_turns]. split; [reflexivity|]. split; [|split; reflexivity].
      exists [], (new_turn (Some (as_question r)) None now).
      split; [reflexivity|]. split; [constructor|].
      split; [apply asked_new, as_question_endswith|]. split; reflexivity.
    + split; [reflexivity|]. eexists. split; [apply lookup_insert_eq|reflexivity].
Qed.

Lemma last_snoc_s {A} (l : list A) (x : A) : last (l ++ [x]) = Some x.
Proof. induction l as [|y l IH]; [reflexivity|]. cbn [app]. destruct (l ++ [x]) eqn:E.
  - destruct l; discriminate.
  - exact IH.
Qed.

(** Property X19.  A call of [process_turn] on a dialogue, with both replies
    of the model, keeps it a dialogue: the open turn takes the answer and
    the summary, and a new open turn asks the next question. *)
Theorem process_turn_spec (sessions : gmap string MockSession)
    (session_id user_answer : string) (s : MockSession) (r q : string)
    (now_answer now_question : datetime.t) :
  sessions !! session_id = Some s ->
  dialogue (turns s) ->
  let result := process_turn sessions session_id user_answer (Py.Ok r) (Py.Ok q)
                  now_answer now_question in
  snd result = Returned (Py.strip r, as_question q)
  /\ (forall other, other <> session_id -> fst result !! other = sessions !! other)
  /\ exists s' init t,
       fst result !! session_id = Some s'
       /\ turns s = init ++ [t]
       /\ turns s'
          = init ++ [ {| question := question t; answer := Some user_answer;
                         time := time t; summary := Some (Py.strip r) |};
                      new_turn (Some (as_question q)) None now_question ]
       /\ dialogue (turns s')
       /\ length (turns s') = S (length (turns s)).
Proof.
  intros Hs (init & t & Hts & Hinit & Ht & Hans & Hsum). cbv zeta.
  unfold process_turn. rewrite Hs, Hts, last_snoc_s, Hans, removelast_last.
  cbn [fst snd question answer time summary].
  split; [reflexivity|].
  split; [intros other Ho; now rewrite lookup_insert_ne by congruence|].
  eexists _, init, t. split; [apply lookup_insert_eq|]. split; [reflexivity|].
  cbn [turns with_turns]. split; [reflexivity|]. split.
  - exists (init ++ [ {| question := question t; answer := Some user_answer;
                        time := time t; summary := Some (Py.strip r) |} ]),
           (new_turn (Some (as_question q)) None now_question).
    split; [now rewrite <- app_assoc|]. split.
    + apply Forall_app. split; [exact Hinit|]. constructor; [|constructor].
      split; [|split; discriminate]. destruct Ht as (q0 & Hq0 & He).
      exists q0. split; [exact Hq0|exact He].
    + split; [apply asked_new, as_question_endswith|]. split; reflexivity.
  - rewrite !length_app. cbn [length]. lia.
Qed.

(** Property X20.  When the model fails, the session keeps what was already
    changed: a failed [start_session] leaves a session without a turn, and
    [process_turn] on a session with no open turn appends a turn that has an
    answer and no question. *)
Theorem process_turn_without_open_turn (sessions : gmap string MockSession)
    (session_id user_answer : string) (s : MockSession)
    (reasoning_reply next_reply : Py.result string) (now_answer now_question : datetime.t) :
  sessions !! session_id = Some s ->
  match last (turns s) with Some t => answer t <> None | None => True end ->
  exists s' rest,
    fst (process_turn sessions session_id user_answer reasoning_reply next_reply
           now_answer now_question) !! session_id = Some s'
    /\ turns s' = turns s ++ rest
    /\ match rest with
       | t :: _ => question t = None /\ answer t = Some user_answer
       | [] => False
       end.
Proof.
  intros Hs Hopen. unfold process_turn. rewrite Hs.
  assert (E : match last (turns s) with
              | Some t0 =>
                  match answer t0 with
                  | None =>
                      (removelast (turns s),
                       {| question := question t0; answer := Some user_answer;
                          time := time t0; summary := summary t0 |})
                  | Some _ => (turns s, new_turn None (Some user_answer) now_answer)
                  end
              | None => (turns s, new_turn None (Some user_answer) now_answer)
              end = (turns s, new_turn None (Some user_answer) now_answer)).
  { destruct (last (turns s)) as [t0|]; [|reflexivity].
    destruct (answer t0); [reflexivity|congruence]. }
  rewrite E.
  destruct reasoning_reply as [r|e]; [destruct next_reply as [q|e]|]; cbn [fst];
    eexists _, _; (split; [apply lookup_insert_eq|]); cbn [turns with_turns];
    (split; [reflexivity|]); cbn; split; reflexivity.
Qed.
End sessions.

Lemma process_turn_spec_witness :
  snd (mock_agent_service.process_turn (<["s1" := plain_session]> ∅) "s1" "Then it ships."
         (Py.Ok " Clear. ") (Py.Ok "What next.") sample_time sample_time)
  = mock_agent_service.Returned ("Clear.", "What next?").
Proof.
  refine (proj1 (process_turn_spec (<["s1" := plain_session]> ∅) "s1" "Then it ships."
                   plain_session " Clear. " "What next." sample_time sample_time _ _)).
  - apply lookup_insert_eq.
  - eexists [_], _. split; [reflexivity|]. split.
    + repeat constructor; try discriminate. eexists. split; reflexivity.
    + split; [eexists; split; reflexivity|]. split; reflexivity.
Defined.

Lemma process_turn_without_open_turn_witness :
  exists s' rest,
    fst (mock_agent_service.process_turn (<["s1" := unopened_session]> ∅) "s1" "Because."
           (Py.Ok "Fine.") (Py.Ok "And then?") sample_time sample_time) !! "s1" = Some s'
    /\ mock_agent_service.turns s' = mock_agent_service.turns unopened_session ++ rest
    /\ match rest with
       | t :: _ => mock_agent_service.question t = None
                   /\ mock_agent_service.answer t = Some "Because."
       | [] => False
       end.
Proof.
  apply (process_turn_without_open_turn _ "s1" "Because." unopened_session);
    [apply lookup_insert_eq|exact I].
Defined.
